(** * Sequential-thinking server with Recall persistence: a shallow embedding

    The development follows the two TypeScript sources of the repository:

    - the server entry point: [SequentialThinkingServer] (validation,
      in-memory session, [processThought]) and the tool-call handler;
    - [recall-integration.ts]: [RecallIntegration], the gateway to the
      remote bucket ([storeSession], [storeSessionJSONL],
      [listAllSessionObjects], [getSessionObject]).

    JavaScript values are an inductive type, strings are [string] (a
    character stands for one code unit below 256), numbers are integers (the
    tool schema declares every numeric field an integer, and the values
    arrive as JSON, which has neither NaN nor infinities) that are written
    in positional notation, as JavaScript writes them below 1e21.  An object
    is the list of its own properties in enumeration order; no value is
    callable, as none that arrives as JSON is.

    Effects are written in a state-and-exception monad whose state outlives
    a throw, as the fields of a JavaScript object do.  What the program takes
    from outside (the clock, the random generator, the answers of the remote
    bucket service, [JSON.parse] and the date formatting) is a [Platform]: a
    statement that holds for every process holds for every behaviour of the
    outside.  A remote call under [withTimeout] is answered in time, or the
    caller resumes with the error of the timer; the operation that was left
    behind is not followed further.  Log output is left out, but not the
    conversions to text that a log line makes of a value of the input: they
    can throw, and what they throw is caught like any other error.  A tool
    call runs to its end before the next one starts. *)

From Stdlib Require Import String Ascii List ZArith Lia Bool DecimalString.
From Stdlib Require DecimalPos.
Import ListNotations.
Open Scope string_scope.

(* ================================================================== *)
(** * Strings as the platform provides them *)
(* ================================================================== *)

Module Str.

Definition newline : ascii := ascii_of_nat 10.
Definition nl : string := String newline EmptyString.

(** [s.includes(needle)] *)
Fixpoint includes (needle hay : string) : bool :=
  if String.prefix needle hay then true
  else match hay with
       | EmptyString => false
       | String _ rest => includes needle rest
       end.

(** Occurrence of one character. *)
Fixpoint has_char (c : ascii) (s : string) : bool :=
  match s with
  | EmptyString => false
  | String d rest => if Ascii.eqb d c then true else has_char c rest
  end.

(** [s.split(sep)] for a one-character separator: never empty. *)
Fixpoint split (sep : ascii) (s : string) : list string :=
  match s with
  | EmptyString => [EmptyString]
  | String c rest =>
      if Ascii.eqb c sep then EmptyString :: split sep rest
      else match split sep rest with
           | h :: t => String c h :: t
           | [] => [String c EmptyString]
           end
  end.

(** [parts.join(sep)] *)
Fixpoint join (sep : string) (parts : list string) : string :=
  match parts with
  | [] => EmptyString
  | [x] => x
  | x :: rest => x ++ sep ++ join sep rest
  end.

(** White space and line terminators removed by [trim], among the code
    units below 256: TAB, LF, VT, FF, CR, SPACE, NBSP. *)
Definition is_space (c : ascii) : bool :=
  let n := nat_of_ascii c in
  (Nat.leb 9 n && Nat.leb n 13) || Nat.eqb n 32 || Nat.eqb n 160.

Fixpoint trimStart (s : string) : string :=
  match s with
  | EmptyString => EmptyString
  | String c rest => if is_space c then trimStart rest else s
  end.

Fixpoint trimEnd (s : string) : string :=
  match s with
  | EmptyString => EmptyString
  | String c rest =>
      match trimEnd rest with
      | EmptyString => if is_space c then EmptyString else String c EmptyString
      | kept => String c kept
      end
  end.

(** [s.trim()] *)
Definition trim (s : string) : string := trimEnd (trimStart s).

(** Decimal rendering of an integer, as template literals and
    [JSON.stringify] render a safe integer. *)
Definition decimal (z : Z) : string := NilZero.string_of_int (Z.to_int z).

Definition is_digit (c : ascii) : bool :=
  let n := nat_of_ascii c in Nat.leb 48 n && Nat.leb n 57.

(** Longest prefix of digits, and what follows it. *)
Fixpoint span_digits (s : string) : string * string :=
  match s with
  | String c rest =>
      if is_digit c
      then let (d, tail) := span_digits rest in (String c d, tail)
      else (EmptyString, s)
  | EmptyString => (EmptyString, EmptyString)
  end.

(** An attempt of [(\d+)-] at the head of [s]: the greedy digit run must be
    non-empty and followed by a dash (giving digits back cannot help, the
    next character would be a digit). *)
Definition digits_dash (s : string) : option string :=
  match span_digits s with
  | (String c d, String "-" _) => Some (String c d)
  | _ => None
  end.

(** [s.match(/-(\d+)-/)]: the first capture group of the leftmost match. *)
Fixpoint match_dash_digits_dash (s : string) : option string :=
  match s with
  | EmptyString => None
  | String c rest =>
      if Ascii.eqb c "-"
      then match digits_dash rest with
           | Some d => Some d
           | None => match_dash_digits_dash rest
           end
      else match_dash_digits_dash rest
  end.

(** [parseInt(d, 10)] on a string of digits (exact; the platform rounds
    above 2^53). *)
Definition parseInt (d : string) : Z :=
  fold_left (fun acc c => (10 * acc + Z.of_nat (nat_of_ascii c - 48))%Z)
            (list_ascii_of_string d) 0%Z.

(** [s.substring(0, n)] *)
Definition take (n : nat) (s : string) : string := String.substring 0 n s.

End Str.

(* ================================================================== *)
(** * JavaScript values *)
(* ================================================================== *)

Module Js.

Local Unset Elimination Schemes.

Inductive Value : Type :=
| Undefined
| Null
| Bool (b : bool)
| Num (z : Z)
| Text (s : string)
| Arr (items : list Value)
| Obj (props : list (string * Value)).

Local Set Elimination Schemes.

(** An object is its list of own properties in enumeration order. *)
Abbreviation Object := (list (string * Value)).

(** Truthiness, as [!v], [v && _] and [v || _] test it. *)
Definition truthy (v : Value) : bool :=
  match v with
  | Undefined | Null => false
  | Bool b => b
  | Num z => negb (Z.eqb z 0)
  | Text s => negb (String.eqb s EmptyString)
  | Arr _ | Obj _ => true
  end.

(** [a || b] *)
Definition or_else (a b : Value) : Value := if truthy a then a else b.

Definition is_string (v : Value) : bool :=
  match v with Text _ => true | _ => false end.
Definition is_number (v : Value) : bool :=
  match v with Num _ => true | _ => false end.
Definition is_boolean (v : Value) : bool :=
  match v with Bool _ => true | _ => false end.

(** [o.k] on an object: the first own property of that name. *)
Fixpoint get (k : string) (o : Object) : Value :=
  match o with
  | [] => Undefined
  | (k', v) :: rest => if String.eqb k' k then v else get k rest
  end.

(** [o.k = v], and a property [k: v] of an object literal that follows a
    spread: an existing property keeps its place, a new one goes last. *)
Fixpoint set (k : string) (v : Value) (o : Object) : Object :=
  match o with
  | [] => [(k, v)]
  | (k', v') :: rest =>
      if String.eqb k' k then (k', v) :: rest else (k', v') :: set k v rest
  end.

(** [v?.k]: undefined on undefined and null, the own property on an
    object; the primitives and arrays have none of the names used here. *)
Definition opt_get (k : string) (v : Value) : Value :=
  match v with
  | Obj o => get k o
  | _ => Undefined
  end.

(** [k in o] for an own property, whatever its value. *)
Definition has_own (k : string) (o : Object) : bool :=
  existsb (fun kv => String.eqb (fst kv) k) o.

(** [String(v)], the conversion a template literal and a property access
    [o[v]] make.  [None] is the TypeError "Cannot convert object to primitive
    value".  No value that arrives as JSON is callable: an object with a
    property [toString] of its own has no method to be converted with (the
    [valueOf] it inherits returns the object itself), every other object
    gives [[object Object]]; an array joins the conversions of its items,
    the empty text standing for [null] and [undefined]. *)
Fixpoint toString (v : Value) : option string :=
  match v with
  | Undefined => Some "undefined"
  | Null => Some "null"
  | Bool true => Some "true"
  | Bool false => Some "false"
  | Num z => Some (Str.decimal z)
  | Text s => Some s
  | Arr items =>
      option_map (Str.join ",")
        ((fix each (l : list Value) : option (list string) :=
            match l with
            | [] => Some []
            | x :: rest =>
                match match x with
                      | Undefined | Null => Some EmptyString
                      | _ => toString x
                      end, each rest with
                | Some s, Some strings => Some (s :: strings)
                | _, _ => None
                end
            end) items)
  | Obj props =>
      if has_own "toString" props then None else Some "[object Object]"
  end.

(** The double-quote character, as a string. *)
Definition dquote : string := String (ascii_of_nat 34) EmptyString.

Definition hex_digit (n : nat) : ascii :=
  ascii_of_nat (if Nat.ltb n 10 then 48 + n else 87 + n).

(** One code unit inside a JSON string literal (QuoteJSONString). *)
Definition escape_char (c : ascii) : string :=
  let n := nat_of_ascii c in
  if Nat.eqb n 34 then String "\" dquote
  else if Nat.eqb n 92 then "\\"
  else if Nat.eqb n 8 then "\b"
  else if Nat.eqb n 12 then "\f"
  else if Nat.eqb n 10 then "\n"
  else if Nat.eqb n 13 then "\r"
  else if Nat.eqb n 9 then "\t"
  else if Nat.ltb n 32
       then "\u00" ++ String (hex_digit (n / 16))
                         (String (hex_digit (n mod 16)) EmptyString)
       else String c EmptyString.

Fixpoint escape (s : string) : string :=
  match s with
  | EmptyString => EmptyString
  | String c rest => escape_char c ++ escape rest
  end.

Definition quote (s : string) : string := dquote ++ escape s ++ dquote.

(** [JSON.stringify(v)] for a defined [v]: an undefined property is left
    out of an object, an undefined item of an array is written [null]. *)
Fixpoint stringify (v : Value) : string :=
  match v with
  | Undefined | Null => "null"
  | Bool true => "true"
  | Bool false => "false"
  | Num z => Str.decimal z
  | Text s => quote s
  | Arr items =>
      "[" ++ Str.join ","
               ((fix each (l : list Value) : list string :=
                   match l with
                   | [] => []
                   | x :: rest => stringify x :: each rest
                   end) items) ++ "]"
  | Obj props =>
      "{" ++ Str.join ","
               ((fix each (l : list (string * Value)) : list string :=
                   match l with
                   | [] => []
                   | (_, Undefined) :: rest => each rest
                   | (k, x) :: rest => (quote k ++ ":" ++ stringify x) :: each rest
                   end) props) ++ "}"
  end.

End Js.

(* ================================================================== *)
(** * The remote bucket service and the platform *)
(* ================================================================== *)

(** A bucket as [bucketManager().list()] reports it: its address and the
    alias of its metadata, when it has one. *)
Record Bucket : Type := {
  addr : string;
  alias : option string
}.

(** The state of a stored object: both fields are optional in the answer of
    [bucketManager().query]. *)
Record ObjectState : Type := {
  state_size : option Z;
  state_metadata : option Js.Object
}.

Record BucketObject : Type := {
  object_key : string;
  object_state : option ObjectState
}.

(** The answer of the remote service to a call that is awaited directly. *)
Inductive Reply (A : Type) : Type :=
| Answer (a : A)
| Rejects (message : string).
Arguments Answer {A} a.
Arguments Rejects {A} message.

(** The answer to a call that runs under [withTimeout]: it settles in time or
    the timer fires first. *)
Inductive Timed (A : Type) : Type :=
| InTime (r : Reply A)
| TimedOut.
Arguments InTime {A} r.
Arguments TimedOut {A}.

(** The calls the gateway issues to the bucket manager. *)
Inductive Call : Type :=
| ListBuckets
| CreateBucket (bucketAlias : string)
| AddObject (bucket : option string) (key data : string)
| QueryObjects (bucket : option string)
| GetObject (bucket : option string) (key : string).

(** Everything the program takes from outside: the clock, the random
    generator, the built-ins that are not modelled, and the answers of the
    remote service.  A clock reading or a random draw is indexed by the number
    of earlier ones, an answer by the number of calls issued before it. *)
Record Platform : Type := {
  Date_now : nat -> Z;
  Math_random_10000 : nat -> Z;
  toISOString : Z -> string;
  Date_toISOString : Js.Value -> option string;
  Date_toLocaleString : Js.Value -> string;
  JSON_parse : string -> option Js.Value;
  list_reply : nat -> Timed (option (list Bucket));
  create_reply : nat -> Timed (option string);
  add_reply : nat -> Timed (option string);
  query_reply : nat -> Reply (option (list BucketObject));
  get_reply : nat -> Reply (option string)
}.

Record World : Type := {
  platform : Platform;
  ticks : nat;
  draws : nat;
  calls : list Call
}.

(* ================================================================== *)
(** * Program state *)
(* ================================================================== *)

(** [interface ThoughtData] after validation.  The optional fields are cast
    without a check, so they hold whatever the caller sent. *)
Record ThoughtData : Type := {
  thought : string;
  thoughtNumber : Z;
  totalThoughts : Z;
  nextThoughtNeeded : bool;
  isRevision : Js.Value;
  revisesThought : Js.Value;
  branchFromThought : Js.Value;
  branchId : Js.Value;
  needsMoreThoughts : Js.Value
}.

(** [class SequentialThinkingServer] *)
Record SequentialThinkingServer : Type := {
  thoughtHistory : list ThoughtData;
  branches : list (string * list ThoughtData);
  currentQuery : Js.Value;
  currentSessionId : string
}.

(** [class RecallIntegration] *)
Record RecallIntegration : Type := {
  bucketAddress : option string;
  initialized : bool;
  bucketAlias : string;
  logPrefix : string;
  currentSessionThoughts : list Js.Object
}.

(** The two singletons of the process, and the world around them. *)
Record Process : Type := {
  thinkingServer : SequentialThinkingServer;
  recallIntegration : RecallIntegration;
  world : World
}.

(** * Computations: state that survives a throw *)

Inductive Outcome (A : Type) : Type :=
| Returned (a : A)
| Thrown (message : string).
Arguments Returned {A} a.
Arguments Thrown {A} message.

Definition M (A : Type) : Type := Process -> Outcome A * Process.

Definition ret {A : Type} (a : A) : M A := fun p => (Returned a, p).

Definition throw {A : Type} (message : string) : M A :=
  fun p => (Thrown message, p).

Definition bind {A B : Type} (c : M A) (k : A -> M B) : M B :=
  fun p =>
    match c p with
    | (Returned a, p') => k a p'
    | (Thrown e, p') => (Thrown e, p')
    end.

(** [try { body } catch (error) { handler(error.message) }] *)
Definition try_catch {A : Type} (body : M A) (handler : string -> M A) : M A :=
  fun p =>
    match body p with
    | (Returned a, p') => (Returned a, p')
    | (Thrown e, p') => handler e p'
    end.

Declare Scope js_scope.
Delimit Scope js_scope with js.
Notation "x <- c ;; k" := (bind c (fun x => k))
  (at level 61, c at next level, right associativity) : js_scope.
Notation "c ;; k" := (bind c (fun _ => k))
  (at level 61, right associativity) : js_scope.
Open Scope js_scope.

Definition read {A : Type} (f : Process -> A) : M A := fun p => (Returned (f p), p).
Definition update (f : Process -> Process) : M unit := fun p => (Returned tt, f p).

Definition with_world (f : World -> World) (p : Process) : Process :=
  {| thinkingServer := thinkingServer p;
     recallIntegration := recallIntegration p;
     world := f (world p) |}.

Definition with_recall (f : RecallIntegration -> RecallIntegration)
  (p : Process) : Process :=
  {| thinkingServer := thinkingServer p;
     recallIntegration := f (recallIntegration p);
     world := world p |}.

Definition with_server (f : SequentialThinkingServer -> SequentialThinkingServer)
  (p : Process) : Process :=
  {| thinkingServer := f (thinkingServer p);
     recallIntegration := recallIntegration p;
     world := world p |}.

Definition tick (w : World) : World :=
  {| platform := platform w; ticks := S (ticks w); draws := draws w;
     calls := calls w |}.

Definition draw (w : World) : World :=
  {| platform := platform w; ticks := ticks w; draws := S (draws w);
     calls := calls w |}.

Definition issue (c : Call) (w : World) : World :=
  {| platform := platform w; ticks := ticks w; draws := draws w;
     calls := calls w ++ [c] |}.

(** [Date.now()] *)
Definition now : M Z :=
  fun p => (Returned (Date_now (platform (world p)) (ticks (world p))),
            with_world tick p).

(** [new Date().toISOString()] *)
Definition isoNow : M string :=
  fun p => (Returned (toISOString (platform (world p))
                        (Date_now (platform (world p)) (ticks (world p)))),
            with_world tick p).

(** [Math.floor(Math.random() * 10000)] *)
Definition random_10000 : M Z :=
  fun p => (Returned (Math_random_10000 (platform (world p)) (draws (world p))),
            with_world draw p).

(** [await] of a remote call that is awaited directly. *)
Definition await {A : Type} (c : Call) (reply : Platform -> nat -> Reply A) : M A :=
  fun p =>
    match reply (platform (world p)) (length (calls (world p))) with
    | Answer a => (Returned a, with_world (issue c) p)
    | Rejects e => (Thrown e, with_world (issue c) p)
    end.

(** [await] of a remote call inside [withTimeout]: [late] is the error the
    timer rejects with.  [Promise.race] cancels nothing: when the timer
    wins, the caller resumes with [late] and the operation stays pending.
    The trace holds the calls issued until the caller resumes; what an
    abandoned operation issues afterwards is not in it. *)
Definition await_timed {A : Type} (c : Call)
  (reply : Platform -> nat -> Timed A) (late : string) : M A :=
  fun p =>
    match reply (platform (world p)) (length (calls (world p))) with
    | InTime (Answer a) => (Returned a, with_world (issue c) p)
    | InTime (Rejects e) => (Thrown e, with_world (issue c) p)
    | TimedOut => (Thrown late, with_world (issue c) p)
    end.

(* ================================================================== *)
(** * recall-integration.ts: the persistence gateway *)
(* ================================================================== *)

(** The error [withTimeout] rejects with when its timer fires. *)
Definition timeout_message (operationName : string) (timeoutMs : Z) : string :=
  operationName ++ " operation timed out after " ++ Str.decimal timeoutMs ++ "ms".

(** [b.metadata?.alias === bucketAlias] *)
Definition has_alias (a : string) (b : Bucket) : bool :=
  match alias b with
  | Some x => String.eqb x a
  | None => false
  end.

(** [getOrCreateBucket], run inside [withTimeout]; its own [catch] logs and
    throws the error again. *)
Definition getOrCreateBucket (a : string) (late : string) : M string :=
  buckets <- await_timed ListBuckets list_reply late ;;
  match match buckets with
        | Some result => find (has_alias a) result
        | None => None
        end with
  | Some bucket => ret (addr bucket)
  | None =>
      query <- await_timed (CreateBucket a) create_reply late ;;
      match query with
      | Some newBucket => ret newBucket
      | None => throw ("Failed to create bucket: " ++ a)
      end
  end.

(** Truthiness of [this.bucketAddress]. *)
Definition address_set (a : option string) : bool :=
  match a with
  | Some s => negb (String.eqb s EmptyString)
  | None => false
  end.

Definition set_bucket (a : string) (g : RecallIntegration) : RecallIntegration :=
  {| bucketAddress := Some a; initialized := true;
     bucketAlias := bucketAlias g; logPrefix := logPrefix g;
     currentSessionThoughts := currentSessionThoughts g |}.

Definition set_thoughts (l : list Js.Object) (g : RecallIntegration)
  : RecallIntegration :=
  {| bucketAddress := bucketAddress g; initialized := initialized g;
     bucketAlias := bucketAlias g; logPrefix := logPrefix g;
     currentSessionThoughts := l |}.

(** [initializeBucket]: the [catch] logs and throws the error again, so a
    failure leaves both fields as they were. *)
Definition initializeBucket : M unit :=
  g <- read recallIntegration ;;
  if initialized g && address_set (bucketAddress g) then ret tt
  else
    a <- getOrCreateBucket (bucketAlias g)
           (timeout_message "Bucket initialization" 15000) ;;
    update (with_recall (set_bucket a)).

(** [ensureInitialized] *)
Definition ensureInitialized : M unit :=
  g <- read recallIntegration ;;
  if negb (initialized g) || negb (address_set (bucketAddress g))
  then initializeBucket
  else ret tt.

(** The value [storeSession] and [storeSessionJSONL] resolve to. *)
Record StoreResult : Type := {
  txHash : option string;
  success : bool;
  key : string
}.

(** [`Thought ${index + 1} (content missing)`] *)
Definition placeholder (index : nat) : string :=
  "Thought " ++ Str.decimal (Z.of_nat index + 1) ++ " (content missing)".

(** The [map] of [storeSessionJSONL] that guards against a missing text;
    [index] is the position of the head of the list. *)
Fixpoint validatedThoughts (index : nat) (thoughts : list Js.Object)
  : list Js.Object :=
  match thoughts with
  | [] => []
  | t :: rest =>
      (if negb (Js.truthy (Js.get "thought" t))
       then Js.set "thought" (Js.Text (placeholder index)) t
       else t)
      :: validatedThoughts (S index) rest
  end.

(** [validatedThoughts.map(thought => JSON.stringify(thought)).join('\n')] *)
Definition jsonlData (validated : list Js.Object) : string :=
  Str.join Str.nl (map (fun t => Js.stringify (Js.Obj t)) validated).

Definition session_key (prefix : string) (timestamp : Z) : string :=
  prefix ++ Str.decimal timestamp ++ "-session.jsonl".

(** [storeSessionJSONL].  The inner [try] around the write returns from the
    function in its [catch]; the outer one turns any other error into
    [undefined]. *)
Definition storeSessionJSONL : M (option StoreResult) :=
  ensureInitialized ;;
  g <- read recallIntegration ;;
  if Nat.eqb (length (currentSessionThoughts g)) 0 then ret None
  else
    try_catch
      (timestamp <- now ;;
       let key := session_key (logPrefix g) timestamp in
       let data := jsonlData (validatedThoughts 0 (currentSessionThoughts g)) in
       attempt <- try_catch
                    (result <- await_timed (AddObject (bucketAddress g) key data)
                                 add_reply
                                 (timeout_message "Session storage" 20000) ;;
                     ret (inl result))
                    (fun _ => ret (inr {| success := false; key := key;
                                          txHash := None |})) ;;
       match attempt with
       | inr failed => ret (Some failed)
       | inl receipt =>
           update (with_recall (set_thoughts [])) ;;
           match receipt with
           | Some transactionHash =>
               ret (Some {| txHash := Some transactionHash; success := true;
                            key := key |})
           | None =>
               ret (Some {| success := true; key := key; txHash := None |})
           end
       end)
      (fun _ => ret None).

(** The optional second argument of [storeSession]. *)
Record QueryInfo : Type := {
  query : Js.Value;
  result : Js.Value;
  sessionId : Js.Value
}.

(** [queryInfo?.f || undefined] *)
Definition info (f : QueryInfo -> Js.Value) (queryInfo : option QueryInfo)
  : Js.Value :=
  match queryInfo with
  | Some q => Js.or_else (f q) Js.Undefined
  | None => Js.Undefined
  end.

(** The object literal both branches of the [map] of [storeSession] build:
    the thought spread, then its text, the two time stamps and the query. *)
Definition enhanced (t : Js.Object) (text : Js.Value) (timestamp : Z)
  (storedAt : string) (queryInfo : option QueryInfo) : Js.Object :=
  Js.set "result" (info result queryInfo)
    (Js.set "query" (info query queryInfo)
       (Js.set "storedAt" (Js.Text storedAt)
          (Js.set "timestamp" (Js.Num timestamp)
             (Js.set "thought" text t)))).

(** The [map] of [storeSession]; [index] is the position of the head. *)
Fixpoint enhance (index : nat) (thoughts : list Js.Object)
  (queryInfo : option QueryInfo) : M (list Js.Object) :=
  match thoughts with
  | [] => ret []
  | t :: rest =>
      timestamp <- now ;;
      storedAt <- isoNow ;;
      let e := if negb (Js.truthy (Js.get "thought" t))
               then enhanced t (Js.Text (placeholder index)) timestamp storedAt
                      queryInfo
               else enhanced t (Js.get "thought" t) timestamp storedAt queryInfo in
      others <- enhance (S index) rest queryInfo ;;
      ret (e :: others)
  end.

(** [storeSession] *)
Definition storeSession (thoughts : list Js.Object)
  (queryInfo : option QueryInfo) : M (option StoreResult) :=
  ensureInitialized ;;
  try_catch
    (enhancedThoughts <- enhance 0 thoughts queryInfo ;;
     update (with_recall (set_thoughts enhancedThoughts)) ;;
     storeSessionJSONL)
    (fun _ => ret None).

(** [interface RecallStatus] *)
Record RecallStatus : Type := {
  status_initialized : bool;
  status_bucketAddress : option string;
  status_bucketAlias : string;
  status_logPrefix : string;
  pendingThoughts : nat
}.

(** [getStatusInfo] *)
Definition getStatusInfo : M RecallStatus :=
  g <- read recallIntegration ;;
  ret {| status_initialized := initialized g;
         status_bucketAddress := bucketAddress g;
         status_bucketAlias := bucketAlias g;
         status_logPrefix := logPrefix g;
         pendingThoughts := length (currentSessionThoughts g) |}.

(** [isInitialized] *)
Definition isInitialized : M bool :=
  g <- read recallIntegration ;; ret (initialized g).

(** [interface RecallObject] *)
Record RecallObject : Type := {
  recall_key : string;
  recall_size : Z;
  recall_metadata : option Js.Object
}.

(** [Object.assign(target, source)] *)
Definition Object_assign (target source : Js.Object) : Js.Object :=
  fold_left (fun o kv => Js.set (fst kv) (snd kv) o) source target.

(** The body of the [map] of [listAllSessionObjects].  On a [BucketObject]
    nothing in it throws, so its [catch] (key and size 0, no metadata) is
    never entered. *)
Definition sessionObject (prefix : string) (obj : BucketObject) : RecallObject :=
  let key := object_key obj in
  let metadata :=
    match object_state obj with
    | Some st => match state_metadata st with
                 | Some stateMetadata => Object_assign [] stateMetadata
                 | None => []
                 end
    | None => []
    end in
  let metadata :=
    if Str.includes prefix key
    then match Str.match_dash_digits_dash key with
         | Some digits => Js.set "timestamp" (Js.Num (Str.parseInt digits)) metadata
         | None => metadata
         end
    else metadata in
  {| recall_key := key;
     recall_size := match object_state obj with
                    | Some st => match state_size st with
                                 | Some n => n
                                 | None => 0%Z
                                 end
                    | None => 0%Z
                    end;
     recall_metadata := Some metadata |}.

(** [listAllSessionObjects] *)
Definition listAllSessionObjects : M (list RecallObject) :=
  ensureInitialized ;;
  try_catch
    (g <- read recallIntegration ;;
     result <- await (QueryObjects (bucketAddress g)) query_reply ;;
     match result with
     | None => ret []
     | Some objects =>
         ret (filter (fun o => Str.includes (logPrefix g) (recall_key o))
                (map (sessionObject (logPrefix g)) objects))
     end)
    (fun _ => ret []).

(** [getObjectContent]: the answer holds the decoded text when the object has
    a body. *)
Definition getObjectContent (key : string) : M (option string) :=
  ensureInitialized ;;
  try_catch
    (g <- read recallIntegration ;;
     await (GetObject (bucketAddress g) key) get_reply)
    (fun _ => ret None).

(** What [getSessionObject] resolves to when it is not [null]. *)
Inductive SessionObject : Type :=
| Session (key : string) (thoughts : list Js.Value) (thoughtCount : nat)
    (createdAt : string)
| Unparsed (key : string) (error : string) (rawContent : string).

(** The body of the [map] over the lines: the parsed line, or the
    placeholder object. *)
Definition parseLine (pf : Platform) (index : nat) (line : string) : Js.Value :=
  match JSON_parse pf line with
  | Some v => v
  | None =>
      Js.Obj [("error", Js.Text ("Invalid JSON at line "
                                   ++ Str.decimal (Z.of_nat index + 1)));
              ("lineContent", Js.Text (Str.take 50 line))]
  end.

Fixpoint parseLines (pf : Platform) (index : nat) (lines : list string)
  : list Js.Value :=
  match lines with
  | [] => []
  | line :: rest => parseLine pf index line :: parseLines pf (S index) rest
  end.

(** The inner [try] of [getSessionObject]: only the date conversion can
    throw (RangeError on an invalid date), and the [catch] answers with the
    raw content. *)
Definition parseSession (pf : Platform) (key content : string) : SessionObject :=
  let lines := Str.split Str.newline (Str.trim content) in
  let thoughts := parseLines pf 0 lines in
  let stamp := Js.opt_get "timestamp" (hd Js.Undefined thoughts) in
  if Js.truthy stamp
  then match Date_toISOString pf stamp with
       | Some createdAt => Session key thoughts (length thoughts) createdAt
       | None =>
           Unparsed key "Failed to parse session content"
             (Str.take 500 content
                ++ (if Nat.ltb 500 (String.length content) then "..."
                    else EmptyString))
       end
  else Session key thoughts (length thoughts) "Unknown".

(** [getSessionObject] *)
Definition getSessionObject (key : string) : M (option SessionObject) :=
  ensureInitialized ;;
  try_catch
    (content <- getObjectContent key ;;
     match content with
     | None => ret None
     | Some text =>
         if String.eqb text EmptyString then ret None
         else
           pf <- read (fun p => platform (world p)) ;;
           ret (Some (parseSession pf key text))
     end)
    (fun _ => ret None).

(* ================================================================== *)
(** * The server: validation and the in-memory session *)
(* ================================================================== *)

(** [v.k] where [v] may be anything: a TypeError on undefined and null. *)
Definition property (k : string) (v : Js.Value) : Outcome Js.Value :=
  match v with
  | Js.Undefined =>
      Thrown ("Cannot read properties of undefined (reading '" ++ k ++ "')")
  | Js.Null =>
      Thrown ("Cannot read properties of null (reading '" ++ k ++ "')")
  | _ => Returned (Js.opt_get k v)
  end.

(** [`${v}`] inside a template literal, and the name [o[v]] reads: the
    text of the value, or the TypeError of the conversion. *)
Definition interpolate (v : Js.Value) : Outcome string :=
  match Js.toString v with
  | Some s => Returned s
  | None => Thrown "Cannot convert object to primitive value"
  end.

(** The values behind the type narrowing of the validator. *)
Definition as_string (v : Js.Value) : string :=
  match v with Js.Text s => s | _ => EmptyString end.
Definition as_number (v : Js.Value) : Z :=
  match v with Js.Num z => z | _ => 0%Z end.
Definition as_boolean (v : Js.Value) : bool :=
  match v with Js.Bool b => b | _ => false end.

(** [validateThoughtData] *)
Definition validateThoughtData (input : Js.Value) : Outcome ThoughtData :=
  match property "thought" input with
  | Thrown e => Thrown e
  | Returned data_thought =>
      let data := fun k => Js.opt_get k input in
      if negb (Js.truthy data_thought) || negb (Js.is_string data_thought)
      then Thrown "Invalid thought: must be a string"
      else if negb (Js.truthy (data "thoughtNumber"))
              || negb (Js.is_number (data "thoughtNumber"))
      then Thrown "Invalid thoughtNumber: must be a number"
      else if negb (Js.truthy (data "totalThoughts"))
              || negb (Js.is_number (data "totalThoughts"))
      then Thrown "Invalid totalThoughts: must be a number"
      else if negb (Js.is_boolean (data "nextThoughtNeeded"))
      then Thrown "Invalid nextThoughtNeeded: must be a boolean"
      else Returned
             {| thought := as_string data_thought;
                thoughtNumber := as_number (data "thoughtNumber");
                totalThoughts := as_number (data "totalThoughts");
                nextThoughtNeeded := as_boolean (data "nextThoughtNeeded");
                isRevision := data "isRevision";
                revisesThought := data "revisesThought";
                branchFromThought := data "branchFromThought";
                branchId := data "branchId";
                needsMoreThoughts := data "needsMoreThoughts" |}
  end.

(** A pure step inside a computation. *)
Definition lift {A : Type} (o : Outcome A) : M A := fun p => (o, p).

Definition set_history (h : list ThoughtData) (s : SequentialThinkingServer)
  : SequentialThinkingServer :=
  {| thoughtHistory := h; branches := branches s;
     currentQuery := currentQuery s; currentSessionId := currentSessionId s |}.

Definition set_branches (b : list (string * list ThoughtData))
  (s : SequentialThinkingServer) : SequentialThinkingServer :=
  {| thoughtHistory := thoughtHistory s; branches := b;
     currentQuery := currentQuery s; currentSessionId := currentSessionId s |}.

Definition set_query (q : Js.Value) (s : SequentialThinkingServer)
  : SequentialThinkingServer :=
  {| thoughtHistory := thoughtHistory s; branches := branches s;
     currentQuery := q; currentSessionId := currentSessionId s |}.

Definition set_session (id : string) (s : SequentialThinkingServer)
  : SequentialThinkingServer :=
  {| thoughtHistory := thoughtHistory s; branches := branches s;
     currentQuery := currentQuery s; currentSessionId := id |}.

(** [generateNewSessionId] *)
Definition generateNewSessionId : M string :=
  t <- now ;;
  r <- random_10000 ;;
  let id := "session-" ++ Str.decimal t ++ "-" ++ Str.decimal r in
  update (with_server (set_session id)) ;;
  ret id.

(** [clearSession] *)
Definition clearSession : M unit :=
  update (with_server (set_history [])) ;;
  update (with_server (set_branches [])) ;;
  update (with_server (set_query Js.Undefined)) ;;
  generateNewSessionId ;;
  ret tt.

(** The object [storeSessionToRecall] builds for one thought: the thought
    spread (its nine properties in the order the validator wrote them), the
    same nine assigned again, then the session identifier. *)
Definition thoughtToStore (id : string) (t : ThoughtData) : Js.Object :=
  [("thought", Js.Text (thought t));
   ("thoughtNumber", Js.Num (thoughtNumber t));
   ("totalThoughts", Js.Num (totalThoughts t));
   ("nextThoughtNeeded", Js.Bool (nextThoughtNeeded t));
   ("isRevision", isRevision t);
   ("revisesThought", revisesThought t);
   ("branchFromThought", branchFromThought t);
   ("branchId", branchId t);
   ("needsMoreThoughts", needsMoreThoughts t);
   ("sessionId", Js.Text id)].

(** [storeSessionToRecall] *)
Definition storeSessionToRecall : M (option StoreResult) :=
  s <- read thinkingServer ;;
  if Nat.eqb (length (thoughtHistory s)) 0 then ret None
  else
    try_catch
      (status <- getStatusInfo ;;
       let thoughtsToStore :=
         map (thoughtToStore (currentSessionId s)) (thoughtHistory s) in
       storeSession thoughtsToStore
         (Some {| query := Js.or_else (currentQuery s)
                             (Js.Text "No query provided");
                  result := Js.Undefined;
                  sessionId := Js.Text (currentSessionId s) |}))
      (fun _ => ret None).

(** Names every object inherits from [Object.prototype]: [this.branches[k]]
    is truthy for them although [branches] has no such property of its own. *)
Definition inherited (k : string) : bool :=
  existsb (String.eqb k)
    ["constructor"; "__defineGetter__"; "__defineSetter__"; "hasOwnProperty";
     "__lookupGetter__"; "__lookupSetter__"; "isPrototypeOf";
     "propertyIsEnumerable"; "toString"; "valueOf"; "__proto__";
     "toLocaleString"].

Fixpoint has_branch (k : string) (b : list (string * list ThoughtData)) : bool :=
  match b with
  | [] => false
  | (k', _) :: rest => if String.eqb k' k then true else has_branch k rest
  end.

(** [this.branches[k].push(t)] on a branch that exists. *)
Fixpoint push_branch (k : string) (t : ThoughtData)
  (b : list (string * list ThoughtData)) : list (string * list ThoughtData) :=
  match b with
  | [] => []
  | (k', l) :: rest =>
      if String.eqb k' k then (k', (l ++ [t])%list) :: rest
      else (k', l) :: push_branch k t rest
  end.

(** The property name [this.branches[v]] reads and writes. *)
Definition propertyKey (v : Js.Value) : Outcome string := interpolate v.

(** The branch bookkeeping of [processThought]. *)
Definition recordBranch (t : ThoughtData) : M unit :=
  if Js.truthy (branchFromThought t) && Js.truthy (branchId t)
  then
    k <- lift (propertyKey (branchId t)) ;;
    s <- read thinkingServer ;;
    if has_branch k (branches s)
    then update (with_server (set_branches (push_branch k t (branches s))))
    else if inherited k
    then throw "this.branches[validatedInput.branchId].push is not a function"
    else update (with_server (set_branches (branches s ++ [(k, [t])])%list))
  else ret tt.

(** [formatThought].  The text it builds goes to the log; what is kept of it
    is what can throw: the conversions its template literals make, in the
    order they are made.  The index, the total and the text of a validated
    step are numbers and a string, and the text is taken to be short enough
    for the border that is drawn around it to be a string. *)
Definition formatThought (thoughtData : ThoughtData) : Outcome unit :=
  if Js.truthy (isRevision thoughtData)
  then match interpolate (revisesThought thoughtData) with
       | Returned _ => Returned tt
       | Thrown e => Thrown e
       end
  else if Js.truthy (branchFromThought thoughtData)
  then match interpolate (branchFromThought thoughtData) with
       | Returned _ =>
           match interpolate (branchId thoughtData) with
           | Returned _ => Returned tt
           | Thrown e => Thrown e
           end
       | Thrown e => Thrown e
       end
  else Returned tt.

(** A name that is an array index: the decimal text of a number below
    2^32 - 1. *)
Definition is_index (k : string) : bool :=
  negb (String.eqb k EmptyString)
  && forallb Str.is_digit (list_ascii_of_string k)
  && String.eqb (Str.decimal (Str.parseInt k)) k
  && Z.ltb (Str.parseInt k) 4294967295.

Fixpoint insert_index (k : string) (sorted : list string) : list string :=
  match sorted with
  | [] => [k]
  | x :: rest =>
      if Z.leb (Str.parseInt k) (Str.parseInt x) then k :: sorted
      else x :: insert_index k rest
  end.

(** [Object.keys(o)] from the names of [o] in creation order: the array
    indices first, in ascending order, then the other names as created. *)
Definition Object_keys (own : list string) : list string :=
  (fold_right insert_index [] (filter is_index own)
   ++ filter (fun k => negb (is_index k)) own)%list.

(** [recallInfo] of the response. *)
Inductive RecallInfo : Type :=
| Stored (txHash : option string) (success : bool) (key : string)
    (pendingTransactionCount : nat) (viewUrl : string)
| NotStored (reason : string) (thoughtsInMemory : nat) (isSessionComplete : bool).

(** The object [processThought] serialises as its answer. *)
Record Response : Type := {
  response_thoughtNumber : Z;
  response_totalThoughts : Z;
  response_nextThoughtNeeded : bool;
  response_branches : list string;
  thoughtHistoryLength : nat;
  response_thoughtHistory : list ThoughtData;
  recallInfo : RecallInfo
}.

(** One entry of the answer of [listsessions]. *)
Record SessionEntry : Type := {
  fileName : string;
  createdTime : string;
  thoughtCount : Js.Value;
  portalLink : option string
}.

(** What a tool call answers with, before [JSON.stringify(_, null, 2)]. *)
Inductive Content : Type :=
| ThoughtResponse (r : Response)
| Failure (error : string)
| StatusReport (initialized : bool) (bucketAddress : option string)
    (bucketAlias logPrefix : string)
| StatusError (error : string)
| SessionList (sessions : list SessionEntry) (count : nat)
    (bucketAddress : option string)
| SessionContent (key : string) (content : SessionObject) (portalLink : string)
| Plain (text : string).

(** The result handed to the transport; [isError] is false when the
    property is absent. *)
Record ToolResult : Type := {
  content : Content;
  isError : bool
}.

(** [`https://portal.recall.network/buckets/${bucketAddress}?path=${key}`] *)
Definition portalUrl (bucket : option string) (key : string) : string :=
  "https://portal.recall.network/buckets/"
    ++ match bucket with Some a => a | None => "null" end
    ++ "?path=" ++ key.

Definition raise_total (t : ThoughtData) : ThoughtData :=
  {| thought := thought t;
     thoughtNumber := thoughtNumber t;
     totalThoughts := thoughtNumber t;
     nextThoughtNeeded := nextThoughtNeeded t;
     isRevision := isRevision t;
     revisesThought := revisesThought t;
     branchFromThought := branchFromThought t;
     branchId := branchId t;
     needsMoreThoughts := needsMoreThoughts t |}.

(** The first half of the [try] of [processThought], once the input is
    validated: the query, the widening of the total, the push and the branch
    index. *)
Definition appendThought (validatedInput : ThoughtData) (q : Js.Value)
  : M ThoughtData :=
  s <- read thinkingServer ;;
  (if Js.truthy q && negb (Js.truthy (currentQuery s))
   then update (with_server (set_query q)) ;;
        if Js.is_string q then ret tt
        else throw "query.substring is not a function"
   else ret tt) ;;
  let validatedInput :=
    if Z.gtb (thoughtNumber validatedInput) (totalThoughts validatedInput)
    then raise_total validatedInput
    else validatedInput in
  s <- read thinkingServer ;;
  update (with_server (set_history (thoughtHistory s ++ [validatedInput])%list)) ;;
  recordBranch validatedInput ;;
  ret validatedInput.

(** The second half: on the last thought the session is stored, and cleared
    when the store reports success. *)
Definition finishThought (validatedInput : ThoughtData)
  : M (option StoreResult) :=
  if negb (nextThoughtNeeded validatedInput)
  then
    sessionInfo <- storeSessionToRecall ;;
    match sessionInfo with
    | Some stored =>
        recallStatus <- getStatusInfo ;;
        (if success stored then clearSession else ret tt) ;;
        ret sessionInfo
    | None => ret None
    end
  else ret None.

(** The answer of [processThought]. *)
Definition respond (validatedInput : ThoughtData)
  (sessionInfo : option StoreResult) : M ToolResult :=
  s <- read thinkingServer ;;
  recallStatus <- getStatusInfo ;;
  info <- match sessionInfo with
          | Some stored =>
              ready <- isInitialized ;;
              pending <- (if ready
                          then st <- getStatusInfo ;; ret (pendingThoughts st)
                          else ret 0) ;;
              ret (Stored (txHash stored) (success stored) (key stored) pending
                     (portalUrl (status_bucketAddress recallStatus)
                        (key stored)))
          | None =>
              ret (NotStored
                     (if nextThoughtNeeded validatedInput
                      then "Session not complete yet - storing in memory only"
                      else "Recall storage pending or unavailable")
                     (length (thoughtHistory s))
                     (negb (nextThoughtNeeded validatedInput)))
          end ;;
  ret {| content :=
           ThoughtResponse
             {| response_thoughtNumber := thoughtNumber validatedInput;
                response_totalThoughts := totalThoughts validatedInput;
                response_nextThoughtNeeded := nextThoughtNeeded validatedInput;
                response_branches := Object_keys (map fst (branches s));
                thoughtHistoryLength := length (thoughtHistory s);
                response_thoughtHistory := thoughtHistory s;
                recallInfo := info |};
         isError := false |}.

(** [processThought] *)
Definition processThought (input : Js.Value) (q : Js.Value) : M ToolResult :=
  try_catch
    (validated <- lift (validateThoughtData input) ;;
     validatedInput <- appendThought validated q ;;
     lift (formatThought validatedInput) ;;
     sessionInfo <- finishThought validatedInput ;;
     respond validatedInput sessionInfo)
    (fun e => ret {| content := Failure e; isError := true |}).

(* ================================================================== *)
(** * The tool-call handler *)
(* ================================================================== *)

(** [request.params] *)
Record Request : Type := {
  name : string;
  arguments : Js.Value
}.

(** [if (!recallIntegration.isInitialized()) await recallIntegration.initializeBucket()] *)
Definition forceInitialize : M unit :=
  ready <- isInitialized ;;
  if negb ready then initializeBucket else ret tt.

(** The text of the key in the log line of the [getsession] branch, which
    is the first to convert it. *)
Definition keyText (v : Js.Value) : M string := lift (interpolate v).

(** The [sequentialthinking] branch.  The two log lines read properties of
    the arguments and turn them into text: the first throws on absent
    arguments and on an index or a total that has no text, the second unless
    the thought is a string. *)
Definition callSequentialThinking (args : Js.Value) : M ToolResult :=
  let q := Js.or_else
             (Js.or_else (Js.opt_get "query" (Js.opt_get "_metadata" args))
                         (Js.opt_get "query" (Js.opt_get "_meta" args)))
             Js.Undefined in
  lift (property "thoughtNumber" args) ;;
  lift (interpolate (Js.opt_get "thoughtNumber" args)) ;;
  lift (interpolate (Js.opt_get "totalThoughts" args)) ;;
  match Js.opt_get "thought" args with
  | Js.Text _ => ret tt
  | Js.Undefined =>
      throw "Cannot read properties of undefined (reading 'substring')"
  | Js.Null => throw "Cannot read properties of null (reading 'substring')"
  | _ => throw "args.thought.substring is not a function"
  end ;;
  try_catch (getStatusInfo ;; ret tt) (fun _ => ret tt) ;;
  processThought args q.

(** The [recallstatus] branch: its [catch] answers without [isError]. *)
Definition callRecallStatus : M ToolResult :=
  try_catch
    (forceInitialize ;;
     bucketInfo <- getStatusInfo ;;
     ret {| content := StatusReport (status_initialized bucketInfo)
                         (status_bucketAddress bucketInfo)
                         (status_bucketAlias bucketInfo)
                         (status_logPrefix bucketInfo);
            isError := false |})
    (fun e => ret {| content := StatusError e; isError := false |}).

(** One entry of the session list. *)
Definition sessionEntry (pf : Platform) (bucket : option string)
  (includePortalLinks : Js.Value) (obj : RecallObject) : SessionEntry :=
  let metadata := match recall_metadata obj with
                  | Some m => Js.Obj m
                  | None => Js.Undefined
                  end in
  {| fileName := recall_key obj;
     createdTime := Date_toLocaleString pf
                      (Js.or_else (Js.opt_get "timestamp" metadata)
                                  (Js.Text "Unknown"));
     thoughtCount := Js.or_else (Js.opt_get "thoughtCount" metadata)
                                (Js.Text "Unknown");
     portalLink := if Js.truthy includePortalLinks
                   then Some (portalUrl bucket (recall_key obj))
                   else None |}.

(** The [listsessions] branch. *)
Definition callListSessions (args : Js.Value) : M ToolResult :=
  try_catch
    (forceInitialize ;;
     status <- getStatusInfo ;;
     allObjects <- listAllSessionObjects ;;
     pf <- read (fun p => platform (world p)) ;;
     let sessionObjects :=
       map (sessionEntry pf (status_bucketAddress status)
              (Js.opt_get "includePortalLinks" args)) allObjects in
     ret {| content := SessionList sessionObjects (length sessionObjects)
                         (status_bucketAddress status);
            isError := false |})
    (fun e => ret {| content := Failure e; isError := true |}).

(** The [getsession] branch.  The key is handed on as the text the log line
    makes of it: it is the key itself when the key is a string, as the
    schema of the tool declares it. *)
Definition callGetSession (args : Js.Value) : M ToolResult :=
  try_catch
    (let sessionKey := Js.opt_get "key" args in
     (if negb (Js.truthy sessionKey) then throw "Session key is required"
      else ret tt) ;;
     k <- keyText sessionKey ;;
     forceInitialize ;;
     sessionData <- getSessionObject k ;;
     match sessionData with
     | None =>
         throw ("Session file " ++ Js.dquote ++ k ++ Js.dquote ++ " not found")
     | Some data =>
         status <- getStatusInfo ;;
         ret {| content := SessionContent k data
                             (portalUrl (status_bucketAddress status) k);
                isError := false |}
     end)
    (fun e => ret {| content := Failure e; isError := true |}).

(** The handler registered for [CallToolRequestSchema]. *)
Definition callTool (request : Request) : M ToolResult :=
  try_catch
    (if String.eqb (name request) "sequentialthinking"
     then callSequentialThinking (arguments request)
     else if String.eqb (name request) "recallstatus"
     then callRecallStatus
     else if String.eqb (name request) "listsessions"
     then callListSessions (arguments request)
     else if String.eqb (name request) "getsession"
     then callGetSession (arguments request)
     else ret {| content := Plain ("Unknown tool: " ++ name request);
                 isError := true |})
    (fun e => ret {| content := Plain ("Error processing request: " ++ e);
                     isError := true |}).

(* ================================================================== *)
(** * Vocabulary of the statements *)
(* ================================================================== *)

(** The gateway is in its Ready state: the bucket is resolved. *)
Definition ready (g : RecallIntegration) : bool :=
  initialized g && address_set (bucketAddress g).

(** The process once the gateway has gone through [ensureInitialized]. *)
Definition started (p : Process) : Process := snd (ensureInitialized p).

(** The gateway is Ready, or becomes Ready when its next operation resolves
    the bucket. *)
Definition serves (p : Process) : bool :=
  match fst (ensureInitialized p) with
  | Returned _ => ready (recallIntegration (started p))
  | Thrown _ => false
  end.

(** The writes among the calls issued to the remote service: bucket, key and
    data of every [add], oldest first. *)
Fixpoint writes (cs : list Call) : list (option string * string * string) :=
  match cs with
  | [] => []
  | AddObject b k d :: rest => (b, k, d) :: writes rest
  | _ :: rest => writes rest
  end.

(** [n] readings of the clock later. *)
Definition later (n : nat) (w : World) : World :=
  {| platform := platform w; ticks := n + ticks w; draws := draws w;
     calls := calls w |}.

Definition elapse (n : nat) (p : Process) : Process := with_world (later n) p.

(** The write [storeSessionJSONL] issues from a Ready state with pending
    thoughts: its key, its data, the call, and the answer it will get. *)
Definition store_key (q : Process) : string :=
  session_key (logPrefix (recallIntegration q))
    (Date_now (platform (world q)) (ticks (world q))).

Definition store_data (q : Process) : string :=
  jsonlData (validatedThoughts 0 (currentSessionThoughts (recallIntegration q))).

Definition store_call (q : Process) : Call :=
  AddObject (bucketAddress (recallIntegration q)) (store_key q) (store_data q).

Definition store_reply (q : Process) : Timed (option string) :=
  add_reply (platform (world q)) (length (calls (world q))).

(** The write was accepted by the remote service. *)
Definition accepted (r : Timed (option string)) : bool :=
  match r with
  | InTime (Answer _) => true
  | _ => false
  end.

(** The process after the write has been issued. *)
Definition wrote (q : Process) : Process :=
  with_world (issue (store_call q)) (with_world tick q).

(** The value of the [map] of [storeSession] when the clock has been read
    [t0] times before. *)
Fixpoint enhancedThoughts (pf : Platform) (t0 index : nat)
  (thoughts : list Js.Object) (queryInfo : option QueryInfo)
  : list Js.Object :=
  match thoughts with
  | [] => []
  | t :: rest =>
      (if negb (Js.truthy (Js.get "thought" t))
       then enhanced t (Js.Text (placeholder index)) (Date_now pf t0)
              (toISOString pf (Date_now pf (S t0))) queryInfo
       else enhanced t (Js.get "thought" t) (Date_now pf t0)
              (toISOString pf (Date_now pf (S t0))) queryInfo)
      :: enhancedThoughts pf (S (S t0)) (S index) rest queryInfo
  end.

(** The process once [storeSession] has replaced the pending thoughts by
    the incoming batch, two clock readings per thought later. *)
Definition buffered (thoughts : list Js.Object) (queryInfo : option QueryInfo)
  (q : Process) : Process :=
  with_recall
    (set_thoughts (enhancedThoughts (platform (world q)) (ticks (world q)) 0
                     thoughts queryInfo))
    (elapse (2 * length thoughts) q).

(** [pendingThoughts] of the status the gateway reports. *)
Definition pendingThoughts_of (p : Process) : option nat :=
  match fst (getStatusInfo p) with
  | Returned st => Some (pendingThoughts st)
  | Thrown _ => None
  end.

(** The answer the remote service gives to the next call. *)
Definition next_query (q : Process) : Reply (option (list BucketObject)) :=
  query_reply (platform (world q)) (length (calls (world q))).

Definition next_fetch (q : Process) : Reply (option string) :=
  get_reply (platform (world q)) (length (calls (world q))).

(** The time stamp of an object's metadata. *)
Definition timestamp_of (o : RecallObject) : Js.Value :=
  match recall_metadata o with
  | Some m => Js.get "timestamp" m
  | None => Js.Undefined
  end.

(** The metadata the remote service reports for an object. *)
Definition reported_metadata (obj : BucketObject) : Js.Object :=
  match object_state obj with
  | Some st => match state_metadata st with
               | Some m => Object_assign [] m
               | None => []
               end
  | None => []
  end.

(** The checks of the validator, as predicates on the value of a field:
    a string that is not empty, a number that is not zero. *)
Definition nonEmptyString (v : Js.Value) : bool := Js.is_string v && Js.truthy v.
Definition nonZeroNumber (v : Js.Value) : bool := Js.is_number v && Js.truthy v.

(** The error for the first field that fails its check, in the order text,
    index, estimated total, continuation; [None] when every check passes. *)
Definition first_offending (text_ok number_ok boolean_ok : Js.Value -> bool)
  (o : Js.Object) : option string :=
  if negb (text_ok (Js.get "thought" o))
  then Some "Invalid thought: must be a string"
  else if negb (number_ok (Js.get "thoughtNumber" o))
  then Some "Invalid thoughtNumber: must be a number"
  else if negb (number_ok (Js.get "totalThoughts" o))
  then Some "Invalid totalThoughts: must be a number"
  else if negb (boolean_ok (Js.get "nextThoughtNeeded" o))
  then Some "Invalid nextThoughtNeeded: must be a boolean"
  else None.

(** The step as [processThought] appends it: its total raised to its number
    when the number is greater. *)
Definition widened (v : ThoughtData) : ThoughtData :=
  if Z.gtb (thoughtNumber v) (totalThoughts v) then raise_total v else v.

(** The session as [storeSessionToRecall] hands it to the gateway: one
    object per thought of the history, and the query information. *)
Definition session_batch (p : Process) : list Js.Object :=
  map (thoughtToStore (currentSessionId (thinkingServer p)))
      (thoughtHistory (thinkingServer p)).

Definition session_info (p : Process) : option QueryInfo :=
  Some {| query := Js.or_else (currentQuery (thinkingServer p))
                     (Js.Text "No query provided");
          result := Js.Undefined;
          sessionId := Js.Text (currentSessionId (thinkingServer p)) |}.

(** The process at the moment the session is written. *)
Definition flushing (p : Process) : Process :=
  buffered (session_batch p) (session_info p) (started p).

(** The empty session [clearSession] creates, its identifier made of the
    next clock reading and the next random draw. *)
Definition fresh_session (p : Process) : SequentialThinkingServer :=
  {| thoughtHistory := [];
     branches := [];
     currentQuery := Js.Undefined;
     currentSessionId :=
       "session-"
         ++ Str.decimal (Date_now (platform (world p)) (ticks (world p)))
         ++ "-"
         ++ Str.decimal (Math_random_10000 (platform (world p))
                           (draws (world p))) |}.

(** The process after [clearSession]. *)
Definition cleared (p : Process) : Process :=
  {| thinkingServer := fresh_session p;
     recallIntegration := recallIntegration p;
     world := draw (tick (world p)) |}.

(** The step a call of the tool puts on the history: its arguments validate
    and its query is absent or a string.  The value is the step as pushed,
    its total raised to its index. *)
Definition appends (c : Js.Value * Js.Value) : option ThoughtData :=
  match validateThoughtData (fst c) with
  | Returned v =>
      if negb (Js.truthy (snd c)) || Js.is_string (snd c)
      then Some (widened v)
      else None
  | Thrown _ => None
  end.

(** The branch bookkeeping of a step goes through, whatever the branches
    are: the step names no branch, or the name has a text and is not one
    every object inherits. *)
Definition records_branch (x : ThoughtData) : bool :=
  if Js.truthy (branchFromThought x) && Js.truthy (branchId x)
  then match propertyKey (branchId x) with
       | Returned k => negb (inherited k)
       | Thrown _ => false
       end
  else true.

(** After the push, the call goes on to the second half of [processThought]:
    its branch is recorded and its log line is formatted. *)
Definition completes (x : ThoughtData) : bool :=
  records_branch x
  && match formatThought x with
     | Returned _ => true
     | Thrown _ => false
     end.

(** A session as the constructor and [clearSession] leave it. *)
Definition empty_session (s : SequentialThinkingServer) : Prop :=
  thoughtHistory s = [] /\ branches s = [].

(** No branch is named like a property every object inherits. *)
Definition plain_branches (s : SequentialThinkingServer) : Prop :=
  Forall (fun b => inherited (fst b) = false) (branches s).

(** The process after a sequence of tool calls, oldest first. *)
Fixpoint processAll (steps : list (Js.Value * Js.Value)) (p : Process)
  : Process :=
  match steps with
  | [] => p
  | c :: rest => processAll rest (snd (processThought (fst c) (snd c) p))
  end.

(** A stored object carries the nine fields of a step. *)
Definition records (o : Js.Object) (x : ThoughtData) : Prop :=
  Js.get "thought" o = Js.Text (thought x)
  /\ Js.get "thoughtNumber" o = Js.Num (thoughtNumber x)
  /\ Js.get "totalThoughts" o = Js.Num (totalThoughts x)
  /\ Js.get "nextThoughtNeeded" o = Js.Bool (nextThoughtNeeded x)
  /\ Js.get "isRevision" o = isRevision x
  /\ Js.get "revisesThought" o = revisesThought x
  /\ Js.get "branchFromThought" o = branchFromThought x
  /\ Js.get "branchId" o = branchId x
  /\ Js.get "needsMoreThoughts" o = needsMoreThoughts x.

(** A computation that returns, with a value that satisfies [P]. *)
Definition yields {A : Type} (c : M A) (P : A -> Prop) : Prop :=
  forall p, exists a p', c p = (Returned a, p') /\ P a.

(** A computation whose value, when it returns, satisfies [P]. *)
Definition ensures {A : Type} (c : M A) (P : A -> Prop) : Prop :=
  forall p a p', c p = (Returned a, p') -> P a.

(** The error flag of a result agrees with its payload: set on the error
    payloads, not set on the answers, and not set either on the error payload
    of the status check, which only that tool produces. *)
Definition flagged (request : Request) (r : ToolResult) : Prop :=
  match content r with
  | Failure _ | Plain _ => isError r = true
  | StatusError _ => isError r = false /\ name request = "recallstatus"
  | ThoughtResponse _ | StatusReport _ _ _ _ | SessionList _ _ _
  | SessionContent _ _ _ => isError r = false
  end.

(** What the initialisation leaves alone: the server, the pending thoughts,
    the configuration, the clock, the random generator, and the writes issued
    so far (it issues none). *)
Record same_session (p q : Process) : Prop := {
  same_server : thinkingServer q = thinkingServer p;
  same_thoughts : currentSessionThoughts (recallIntegration q)
                  = currentSessionThoughts (recallIntegration p);
  same_prefix : logPrefix (recallIntegration q) = logPrefix (recallIntegration p);
  same_platform : platform (world q) = platform (world p);
  same_ticks : ticks (world q) = ticks (world p);
  same_draws : draws (world q) = draws (world p);
  same_writes : writes (calls (world q)) = writes (calls (world p))
}.

(* ================================================================== *)
(** * Concrete platforms and processes for the examples *)
(* ================================================================== *)

Module Demo.

(** The bucket the configured alias resolves to. *)
Definition logs : Bucket :=
  {| addr := "0xff00000000000000000000000000000000000b0c";
     alias := Some "sequential-thinking-logs" |}.

(** A reading of [JSON.parse] that knows finitely many values: a text
    parses to the known value it is the serialization of, and is a syntax
    error otherwise. *)
Definition parse_of (known : list Js.Value) (s : string) : option Js.Value :=
  find (fun v => String.eqb (Js.stringify v) s) known.

Definition known : list Js.Value :=
  [Js.Obj [];
   Js.Obj [("timestamp", Js.Text "soon")];
   Js.Obj [("thought", Js.Text "A"); ("timestamp", Js.Num 1700000000000)]].

(** A platform whose remote service always gives the same four answers:
    to the bucket listing, to a write, to a query and to a fetch. *)
Definition platform_with (buckets : Timed (option (list Bucket)))
  (write : Timed (option string))
  (objects : Reply (option (list BucketObject)))
  (body : Reply (option string)) : Platform :=
  {| Date_now := fun n => (1700000000000 + Z.of_nat n)%Z;
     Math_random_10000 := fun n => (4242 + Z.of_nat n)%Z;
     toISOString := fun z => "T" ++ Str.decimal z;
     Date_toISOString :=
       fun v => match v with
                | Js.Num z => Some ("T" ++ Str.decimal z)
                | _ => None
                end;
     Date_toLocaleString :=
       fun v => match v with
                | Js.Num z => "L" ++ Str.decimal z
                | _ => "Invalid Date"
                end;
     JSON_parse := parse_of known;
     list_reply := fun _ => buckets;
     create_reply := fun _ => InTime (Answer (Some "0xff00000000000000000000000000000000000b0d"));
     add_reply := fun _ => write;
     query_reply := fun _ => objects;
     get_reply := fun _ => body |}.

Definition found : Timed (option (list Bucket)) := InTime (Answer (Some [logs])).
Definition unreachable : Timed (option (list Bucket)) :=
  InTime (Rejects "fetch failed").

(** The process as it starts, before any bucket is resolved. *)
Definition boot (pf : Platform) : Process :=
  {| thinkingServer :=
       {| thoughtHistory := []; branches := [];
          currentQuery := Js.Undefined;
          currentSessionId := "session-1699999999999-17" |};
     recallIntegration :=
       {| bucketAddress := None; initialized := false;
          bucketAlias := "sequential-thinking-logs";
          logPrefix := "sequential-";
          currentSessionThoughts := [] |};
     world := {| platform := pf; ticks := 0; draws := 0; calls := [] |} |}.

(** The remote accepts writes with a receipt, without one, or not at all. *)
Definition confirmed : Platform :=
  platform_with found (InTime (Answer (Some "0x7a11")))
    (Answer (Some [])) (Answer None).
Definition queued : Platform :=
  platform_with found (InTime (Answer None)) (Answer (Some [])) (Answer None).
Definition refusing : Platform :=
  platform_with found (InTime (Rejects "write rejected"))
    (Answer (Some [])) (Answer None).
Definition stalling : Platform :=
  platform_with found TimedOut (Answer (Some [])) (Answer None).
Definition offline : Platform :=
  platform_with unreachable TimedOut (Rejects "fetch failed")
    (Rejects "fetch failed").

(** Objects as the gateway receives them in [storeSession]. *)
Definition stepA : Js.Object :=
  [("thought", Js.Text "A"); ("thoughtNumber", Js.Num 1)].
Definition stepEmpty : Js.Object :=
  [("thought", Js.Text EmptyString); ("thoughtNumber", Js.Num 2)].
Definition stepMissing : Js.Object := [("thoughtNumber", Js.Num 3)].

(** A gateway with thoughts pending, as [storeSession] leaves it on its
    way to [storeSessionJSONL]. *)
Definition pending (pf : Platform) : Process :=
  with_recall (set_thoughts [stepA; stepEmpty]) (boot pf).

(** Arguments of [sequentialthinking] calls. *)
Definition call (text : string) (index total : Z) (continue : bool)
  : Js.Value :=
  Js.Obj [("thought", Js.Text text); ("thoughtNumber", Js.Num index);
          ("totalThoughts", Js.Num total);
          ("nextThoughtNeeded", Js.Bool continue)].

(** A stored session whose metadata already carries a time stamp, and an
    object of another kind in the same bucket. *)
Definition stamped : BucketObject :=
  {| object_key := "sequential-1700000000000-session.jsonl";
     object_state :=
       Some {| state_size := Some 120%Z;
               state_metadata := Some [("timestamp", Js.Num 5)] |} |}.

Definition foreign : BucketObject :=
  {| object_key := "notes.txt"; object_state := None |}.

Definition listing : Platform :=
  platform_with found TimedOut (Answer (Some [foreign; stamped]))
    (Answer None).

(** A bucket whose every object has the given body. *)
Definition holding (body : string) : Platform :=
  platform_with found TimedOut (Answer (Some [])) (Answer (Some body)).


(** A bucket whose every object has the given body, read on a platform
    whose [JSON.parse] knows the texts of the given objects. *)
Definition reading (objects : list Js.Object) (body : string) : Platform :=
  {| Date_now := Date_now (holding body);
     Math_random_10000 := Math_random_10000 (holding body);
     toISOString := toISOString (holding body);
     Date_toISOString := Date_toISOString (holding body);
     Date_toLocaleString := Date_toLocaleString (holding body);
     JSON_parse :=
       parse_of (map Js.Obj objects);
     list_reply := list_reply (holding body);
     create_reply := create_reply (holding body);
     add_reply := add_reply (holding body);
     query_reply := query_reply (holding body);
     get_reply := get_reply (holding body) |}.

(** A record with a blank first line, and one whose first line carries a
    time stamp that is no date. *)
Definition blankFirst : string := Str.nl ++ "{}".
Definition badStamp : string :=
  Js.stringify (Js.Obj [("timestamp", Js.Text "soon")]).
Definition twoLines : string := "{}" ++ Str.nl ++ "{oops".

(** What the validator makes of [call text index total continue]. *)
Definition step (text : string) (index total : Z) (continue : bool)
  : ThoughtData :=
  {| thought := text; thoughtNumber := index; totalThoughts := total;
     nextThoughtNeeded := continue;
     isRevision := Js.Undefined; revisesThought := Js.Undefined;
     branchFromThought := Js.Undefined; branchId := Js.Undefined;
     needsMoreThoughts := Js.Undefined |}.

(** A last step that is marked as the revision of a thought whose number
    is an object with a property [toString] of its own, as arguments and as
    the validator returns it. *)
Definition revising : Js.Value :=
  Js.Obj [("thought", Js.Text "R"); ("thoughtNumber", Js.Num 3);
          ("totalThoughts", Js.Num 3); ("nextThoughtNeeded", Js.Bool false);
          ("isRevision", Js.Bool true);
          ("revisesThought", Js.Obj [("toString", Js.Num 1)])].

Definition revised : ThoughtData :=
  {| thought := "R"; thoughtNumber := 3; totalThoughts := 3;
     nextThoughtNeeded := false;
     isRevision := Js.Bool true;
     revisesThought := Js.Obj [("toString", Js.Num 1)];
     branchFromThought := Js.Undefined; branchId := Js.Undefined;
     needsMoreThoughts := Js.Undefined |}.

(** The process with the bucket resolved. *)
Definition up (pf : Platform) : Process :=
  with_recall (set_bucket (addr logs)) (boot pf).

(** Tool calls. *)
Definition statusCheck : Request :=
  {| name := "recallstatus"; arguments := Js.Obj [("check", Js.Bool true)] |}.

End Demo.

(* ================================================================== *)
(** * The rest of the gateway, and the footprint of an operation *)
(* ================================================================== *)

(** [listBucketObjects]: the declared type allows [null], which is never
    returned. *)
Definition listBucketObjects : M (list string) :=
  ensureInitialized ;;
  try_catch
    (g <- read recallIntegration ;;
     result <- await (QueryObjects (bucketAddress g)) query_reply ;;
     match result with
     | Some objects => ret (map object_key objects)
     | None => ret []
     end)
    (fun _ => ret []).

(** The elementary changes a computation makes to the process. *)
Inductive Effect : Type :=
| Tick
| Draw
| Issue (c : Call)
| SetBucket (a : string)
| SetThoughts (l : list Js.Object)
| SetServer (s : SequentialThinkingServer).

Definition perform (e : Effect) (p : Process) : Process :=
  match e with
  | Tick => with_world tick p
  | Draw => with_world draw p
  | Issue c => with_world (issue c) p
  | SetBucket a => with_recall (set_bucket a) p
  | SetThoughts l => with_recall (set_thoughts l) p
  | SetServer s => with_server (fun _ => s) p
  end.

Definition is_write (c : Call) : bool :=
  match c with AddObject _ _ _ => true | _ => false end.

(** The calls that resolve the bucket. *)
Definition resolves (c : Call) : bool :=
  match c with ListBuckets | CreateBucket _ => true | _ => false end.

(** What an operation that only reads the bucket may do: resolve the bucket
    while the gateway is not Ready, and issue calls that are not writes. *)
Definition reading (e : Effect) (p : Process) : bool :=
  match e with
  | Issue c =>
      if resolves c then negb (ready (recallIntegration p))
      else negb (is_write c)
  | SetBucket _ => negb (ready (recallIntegration p))
  | _ => false
  end.

(** What the store operations may do besides: read the clock, replace the
    pending thoughts, write. *)
Definition storing (e : Effect) (p : Process) : bool :=
  match e with
  | Tick | SetThoughts _ => true
  | Issue c => is_write c || reading e p
  | _ => reading e p
  end.

(** What a tool call may do besides: draw a random number and change the
    session. *)
Definition serving (e : Effect) (p : Process) : bool :=
  match e with
  | Draw | SetServer _ => true
  | _ => storing e p
  end.

(** [q] is reached from [p] by effects that [ok] permits. *)
Inductive reaches (ok : Effect -> Process -> bool) : Process -> Process -> Prop :=
| reaches_here (p : Process) : reaches ok p p
| reaches_next (e : Effect) (p q : Process) :
    ok e p = true -> reaches ok (perform e p) q -> reaches ok p q.

(** Whatever the outcome, the computation changes the process by permitted
    effects only. *)
Definition confined (ok : Effect -> Process -> bool) {A : Type} (c : M A)
  : Prop :=
  forall p, reaches ok p (snd (c p)).

(** The calls that resolve the bucket, among the calls issued. *)
Definition resolutions (cs : list Call) : list Call := filter resolves cs.

(** The steps of a session are well formed: a text that is not empty, an
    index and a total that are not zero, the index at most the total. *)
Definition sound_step (t : ThoughtData) : Prop :=
  thought t <> EmptyString
  /\ thoughtNumber t <> 0%Z
  /\ totalThoughts t <> 0%Z
  /\ (thoughtNumber t <= totalThoughts t)%Z.

(** The branch index holds steps of the history only. *)
Definition sound_session (s : SequentialThinkingServer) : Prop :=
  Forall sound_step (thoughtHistory s)
  /\ Forall (fun b => incl (snd b) (thoughtHistory s)) (branches s).

(** [this.branches[k]] for a branch that exists. *)
Fixpoint branch (k : string) (b : list (string * list ThoughtData))
  : list ThoughtData :=
  match b with
  | [] => []
  | (k', l) :: rest => if String.eqb k' k then l else branch k rest
  end.

(* ================================================================== *)
(** * Properties of the string functions *)
(* ================================================================== *)

Module StrFacts.
Import Str.

Lemma has_char_app (c : ascii) (a b : string) :
  has_char c (a ++ b) = has_char c a || has_char c b.
Proof.
  induction a as [|d a IH]; simpl; [reflexivity|].
  destruct (Ascii.eqb d c); [reflexivity | exact IH].
Qed.

Lemma split_clean (sep : ascii) (s : string) :
  has_char sep s = false -> split sep s = [s].
Proof.
  induction s as [|c s IH]; simpl; intros H; [reflexivity|].
  destruct (Ascii.eqb c sep); [discriminate|].
  rewrite (IH H). reflexivity.
Qed.

Lemma split_app (sep : ascii) (a b : string) :
  has_char sep a = false ->
  split sep (a ++ String sep b) = a :: split sep b.
Proof.
  induction a as [|c a IH]; simpl; intros H.
  - rewrite Ascii.eqb_refl. reflexivity.
  - destruct (Ascii.eqb c sep); [discriminate|].
    rewrite (IH H). reflexivity.
Qed.

(** Joining lines that hold no newline and splitting again is the
    identity, for at least one line. *)
Lemma split_join (l : list string) :
  l <> [] ->
  Forall (fun s => has_char newline s = false) l ->
  split newline (join nl l) = l.
Proof.
  induction l as [|x l IH]; intros Hne Hall; [contradiction|].
  inversion Hall as [|? ? Hx Hl]; subst.
  destruct l as [|y l].
  - simpl. apply split_clean. exact Hx.
  - change (join nl (x :: y :: l)) with (x ++ String newline (join nl (y :: l))).
    rewrite (split_app _ _ _ Hx). f_equal.
    apply IH; [discriminate | exact Hl].
Qed.

Lemma has_char_join (c : ascii) (sep : string) (l : list string) :
  has_char c sep = false ->
  Forall (fun s => has_char c s = false) l ->
  has_char c (join sep l) = false.
Proof.
  intros Hsep. induction l as [|x l IH]; intros Hall; [reflexivity|].
  inversion Hall as [|? ? Hx Hl]; subst.
  destruct l as [|y l]; [exact Hx|].
  change (join sep (x :: y :: l)) with (x ++ sep ++ join sep (y :: l)).
  rewrite !has_char_app, Hx, Hsep, (IH Hl). reflexivity.
Qed.

Lemma uint_clean (d : Decimal.uint) :
  has_char newline (NilEmpty.string_of_uint d) = false.
Proof. induction d; simpl; auto. Qed.

Lemma decimal_clean (z : Z) : has_char newline (decimal z) = false.
Proof.
  unfold decimal, NilZero.string_of_int.
  destruct (Z.to_int z) as [d|d]; unfold NilZero.string_of_uint;
    destruct d; simpl; auto using uint_clean.
Qed.

Lemma prefix_app (x b : string) : String.prefix x (x ++ b) = true.
Proof.
  induction x as [|c x IH]; simpl; [destruct b; reflexivity|].
  destruct (ascii_dec c c) as [_|N]; [exact IH | contradiction].
Qed.

Lemma includes_skip (x a y : string) :
  includes x y = true -> includes x (a ++ y) = true.
Proof.
  intros H. induction a as [|c a IH]; cbn [includes append]; [exact H|].
  destruct (String.prefix x (String c (a ++ y))); [reflexivity | exact IH].
Qed.

(** A string contains whatever was put in its middle. *)
Lemma includes_middle (x a b : string) : includes x (a ++ x ++ b) = true.
Proof.
  apply includes_skip.
  destruct (x ++ b) eqn:E; cbn [includes]; rewrite <- E, prefix_app; reflexivity.
Qed.

End StrFacts.

(* ================================================================== *)
(** * Properties of the JavaScript values *)
(* ================================================================== *)

Module JsFacts.
Import Js.

Section Induction.
Variable P : Value -> Prop.
Hypothesis P_undefined : P Undefined.
Hypothesis P_null : P Null.
Hypothesis P_bool : forall b, P (Bool b).
Hypothesis P_num : forall z, P (Num z).
Hypothesis P_text : forall s, P (Text s).
Hypothesis P_arr : forall items, Forall P items -> P (Arr items).
Hypothesis P_obj :
  forall props, Forall (fun kv => P (snd kv)) props -> P (Obj props).

(** Induction on a value, with the hypothesis on every item of an array
    and on every property of an object. *)
Fixpoint Value_induction (v : Value) : P v :=
  match v with
  | Undefined => P_undefined
  | Null => P_null
  | Bool b => P_bool b
  | Num z => P_num z
  | Text s => P_text s
  | Arr items =>
      P_arr items
        ((fix all (l : list Value) : Forall P l :=
            match l with
            | [] => Forall_nil P
            | x :: rest => Forall_cons x (Value_induction x) (all rest)
            end) items)
  | Obj props =>
      P_obj props
        ((fix all (l : list (string * Value))
            : Forall (fun kv => P (snd kv)) l :=
            match l with
            | [] => Forall_nil _
            | (k, x) :: rest =>
                Forall_cons (k, x) (Value_induction x) (all rest)
            end) props)
  end.
End Induction.

Lemma escape_char_clean (c : ascii) :
  Str.has_char Str.newline (escape_char c) = false.
Proof. destruct c as [[] [] [] [] [] [] [] []]; reflexivity. Qed.

Lemma escape_clean (s : string) : Str.has_char Str.newline (escape s) = false.
Proof.
  induction s as [|c s IH]; simpl; [reflexivity|].
  rewrite StrFacts.has_char_app, escape_char_clean, IH. reflexivity.
Qed.

Lemma quote_clean (s : string) : Str.has_char Str.newline (quote s) = false.
Proof.
  unfold quote. rewrite !StrFacts.has_char_app, escape_clean. reflexivity.
Qed.

(** The text of a value never holds a raw newline: the only place one could
    come from is a string, and there it is escaped. *)
Lemma stringify_clean (v : Value) :
  Str.has_char Str.newline (stringify v) = false.
Proof.
  induction v as [| |b|z|s|items IH|props IH] using Value_induction.
  - reflexivity.
  - reflexivity.
  - destruct b; reflexivity.
  - apply StrFacts.decimal_clean.
  - apply quote_clean.
  - cbn [stringify]. rewrite !StrFacts.has_char_app.
    rewrite StrFacts.has_char_join; [reflexivity | reflexivity |].
    induction IH as [|x l Hx _ IHl]; constructor; assumption.
  - cbn [stringify]. rewrite !StrFacts.has_char_app.
    rewrite StrFacts.has_char_join; [reflexivity | reflexivity |].
    induction IH as [|[k x] l Hx _ IHl]; [constructor|].
    destruct x; try (constructor; [|exact IHl];
      rewrite !StrFacts.has_char_app, quote_clean; exact Hx).
    exact IHl.
Qed.

Lemma get_set_same (k : string) (v : Value) (o : Object) :
  get k (set k v o) = v.
Proof.
  induction o as [|[k' v'] o IH]; simpl.
  - rewrite String.eqb_refl. reflexivity.
  - destruct (String.eqb k' k) eqn:E; simpl; rewrite E; [reflexivity | exact IH].
Qed.

Lemma get_set_other (k k' : string) (v : Value) (o : Object) :
  String.eqb k' k = false -> get k (set k' v o) = get k o.
Proof.
  intros Hk. induction o as [|[x y] o IH]; cbn.
  - rewrite Hk. reflexivity.
  - destruct (String.eqb x k') eqn:E; cbn.
    + apply String.eqb_eq in E. subst x. rewrite Hk. reflexivity.
    + destruct (String.eqb x k); [reflexivity | exact IH].
Qed.

(** An assignment keeps the names of the properties in their order, a new
    name going last. *)
Lemma set_names (k : string) (v : Value) (o : Object) :
  map fst (set k v o)
  = if has_own k o then map fst o else (map fst o ++ [k])%list.
Proof.
  unfold has_own. induction o as [|[x y] o IH]; cbn; [reflexivity|].
  destruct (String.eqb x k) eqn:E; cbn; [reflexivity|].
  rewrite IH. destruct (existsb _ o); reflexivity.
Qed.

End JsFacts.

(* ================================================================== *)
(** * The serializer *)
(* ================================================================== *)

Section Serializer.
Import Str.

Lemma validatedThoughts_length (k : nat) (l : list Js.Object) :
  length (validatedThoughts k l) = length l.
Proof. revert k; induction l; intros k; simpl; auto. Qed.

Lemma validatedThoughts_nth (l : list Js.Object) :
  forall k i t,
    nth_error l i = Some t ->
    nth_error (validatedThoughts k l) i
    = Some (if negb (Js.truthy (Js.get "thought" t))
            then Js.set "thought" (Js.Text (placeholder (k + i))) t
            else t).
Proof.
  induction l as [|x l IH]; intros k [|i] t H; simpl in *; try discriminate.
  - injection H as ->. rewrite Nat.add_0_r. reflexivity.
  - rewrite (IH (S k) i t H), Nat.add_succ_r. reflexivity.
Qed.

(** The lines of the written text are the texts of the objects. *)
Lemma jsonlData_lines (l : list Js.Object) :
  l <> [] ->
  split newline (jsonlData l) = map (fun t => Js.stringify (Js.Obj t)) l.
Proof.
  intros Hne. unfold jsonlData. apply StrFacts.split_join.
  - destruct l; [contradiction | discriminate].
  - apply Forall_forall. intros s Hs. apply in_map_iff in Hs.
    destruct Hs as [t [<- _]]. apply JsFacts.stringify_clean.
Qed.

Lemma placeholder_not_empty (i : nat) : placeholder i <> EmptyString.
Proof. unfold placeholder. discriminate. Qed.

Lemma placeholder_position (i : nat) :
  includes (decimal (Z.of_nat i + 1)) (placeholder i) = true.
Proof. unfold placeholder. apply StrFacts.includes_middle. Qed.

End Serializer.

(** C9.  The serializer of [storeSessionJSONL] turns a batch of N steps
    (N is at least 1: an empty batch returns before this point) into a text
    whose newline-separated lines are exactly N, the line at each position
    being the JSON text of one object.  For a step whose text is truthy that
    object is the step itself, unchanged.  For a step whose text is missing
    or empty (or falsy in another way) it is the step with one property
    changed: its text is the placeholder, which is not empty and holds the
    1-based position; every other property has the value it had, and the
    properties keep their order, a text that was missing being added
    last. *)
Theorem serializer_one_line_per_step (batch : list Js.Object) :
  batch <> [] ->
  let lines := Str.split Str.newline (jsonlData (validatedThoughts 0 batch)) in
  length lines = length batch /\
  forall i t,
    nth_error batch i = Some t ->
    exists written,
      nth_error lines i = Some (Js.stringify (Js.Obj written))
      /\ if Js.truthy (Js.get "thought" t)
         then written = t
         else Js.get "thought" written = Js.Text (placeholder i)
              /\ (forall k, String.eqb "thought" k = false ->
                            Js.get k written = Js.get k t)
              /\ map fst written
                 = (if Js.has_own "thought" t then map fst t
                    else (map fst t ++ ["thought"])%list)
              /\ placeholder i <> EmptyString
              /\ Str.includes (Str.decimal (Z.of_nat i + 1)) (placeholder i)
                 = true.
Proof.
  intros Hne lines.
  assert (Hv : validatedThoughts 0 batch <> []).
  { destruct batch; [contradiction | discriminate]. }
  assert (Hl : lines = map (fun t => Js.stringify (Js.Obj t))
                         (validatedThoughts 0 batch))
    by (apply jsonlData_lines; exact Hv).
  split.
  - rewrite Hl, length_map. apply validatedThoughts_length.
  - intros i t Hi. rewrite Hl.
    rewrite nth_error_map, (validatedThoughts_nth _ 0 i t Hi).
    cbn [Nat.add option_map].
    destruct (Js.truthy (Js.get "thought" t)); cbn [negb];
      eexists; (split; [reflexivity|]); [reflexivity|].
    split; [apply JsFacts.get_set_same|].
    split; [intros k Hk; apply JsFacts.get_set_other; exact Hk|].
    split; [apply JsFacts.set_names|].
    split; [apply placeholder_not_empty | apply placeholder_position].
Qed.

(** The theorem at a batch of three steps, the second with an empty text and
    the third with none: the three lines that are written. *)
Lemma serializer_one_line_per_step_witness :
  [Demo.stepA; Demo.stepEmpty; Demo.stepMissing] <> []
  /\ Str.split Str.newline
       (jsonlData (validatedThoughts 0
                     [Demo.stepA; Demo.stepEmpty; Demo.stepMissing]))
     = ["{" ++ Js.quote "thought" ++ ":" ++ Js.quote "A" ++ ","
            ++ Js.quote "thoughtNumber" ++ ":1}";
        "{" ++ Js.quote "thought" ++ ":"
            ++ Js.quote "Thought 2 (content missing)" ++ ","
            ++ Js.quote "thoughtNumber" ++ ":2}";
        "{" ++ Js.quote "thoughtNumber" ++ ":3,"
            ++ Js.quote "thought" ++ ":"
            ++ Js.quote "Thought 3 (content missing)" ++ "}"]
  /\ exists written,
       nth_error
         (Str.split Str.newline
            (jsonlData (validatedThoughts 0
                          [Demo.stepA; Demo.stepEmpty; Demo.stepMissing]))) 2
       = Some (Js.stringify (Js.Obj written))
       /\ Js.get "thought" written = Js.Text "Thought 3 (content missing)"
       /\ Js.get "thoughtNumber" written = Js.Num 3
       /\ map fst written = ["thoughtNumber"; "thought"].
Proof.
  split; [discriminate|]. split; [reflexivity|].
  destruct (serializer_one_line_per_step
              [Demo.stepA; Demo.stepEmpty; Demo.stepMissing]
              ltac:(discriminate)) as [_ H].
  destruct (H 2 Demo.stepMissing eq_refl) as [written [Hl Hw]].
  cbn [Demo.stepMissing Js.get String.eqb Ascii.eqb Bool.eqb Js.truthy] in Hw.
  destruct Hw as [Ht [Ho [Hn _]]].
  exists written. split; [exact Hl|]. split; [exact Ht|].
  split; [exact (Ho "thoughtNumber" eq_refl) | exact Hn].
Defined.

(** Texts stay folded while computations are run symbolically. *)
Arguments placeholder : simpl never.
Arguments enhanced : simpl never.
Arguments session_key : simpl never.
Arguments jsonlData : simpl never.
Arguments timeout_message : simpl never.
Arguments portalUrl : simpl never.
Arguments Str.decimal : simpl never.
Arguments Js.stringify : simpl never.
Arguments String.append : simpl never.
Arguments inherited : simpl never.
Arguments propertyKey : simpl never.
Arguments formatThought : simpl never.
Arguments Js.toString : simpl never.

(* ================================================================== *)
(** * The gateway: initialisation *)
(* ================================================================== *)

Lemma writes_app (a b : list Call) : writes (a ++ b) = (writes a ++ writes b)%list.
Proof.
  induction a as [|c a IH]; simpl; [reflexivity|].
  destruct c; simpl; rewrite IH; reflexivity.
Qed.

(** In the Ready state [ensureInitialized] does nothing. *)
Lemma ensureInitialized_ready (p : Process) :
  ready (recallIntegration p) = true -> ensureInitialized p = (Returned tt, p).
Proof.
  destruct p as [s [a i al pr th] w].
  unfold ready, ensureInitialized, bind, read; cbn. intros H.
  apply andb_true_iff in H as [-> ->]. reflexivity.
Qed.

Lemma serves_started (p : Process) :
  serves p = true ->
  ensureInitialized p = (Returned tt, started p)
  /\ ready (recallIntegration (started p)) = true.
Proof.
  unfold serves, started.
  destruct (ensureInitialized p) as [[[]|e] p1]; simpl; intros H;
    [split; [reflexivity | exact H] | discriminate].
Qed.

Ltac framed :=
  constructor; cbn; rewrite ?writes_app, ?app_nil_r; reflexivity.

Lemma initializeBucket_frame (p : Process) :
  same_session p (snd (initializeBucket p)).
Proof.
  destruct p as [s [a i al pr th] [pf t d cs]].
  unfold initializeBucket, getOrCreateBucket, bind, read, update, await_timed,
    ret, throw; cbn.
  destruct (i && address_set a); cbn; [framed|].
  destruct (list_reply pf (length cs)) as [[buckets|e]|]; cbn; try framed.
  destruct (match buckets with
            | Some result0 => find (has_alias al) result0
            | None => None
            end); cbn; try framed.
  destruct (create_reply pf _) as [[[a'|]|e]|]; cbn; framed.
Qed.

Lemma started_frame (p : Process) : same_session p (started p).
Proof.
  unfold started, ensureInitialized, bind, read.
  destruct (negb (initialized (recallIntegration p))
            || negb (address_set (bucketAddress (recallIntegration p)))).
  - apply initializeBucket_frame.
  - constructor; reflexivity.
Qed.

(** A failed initialisation leaves the gateway and the server as they were. *)
Lemma ensureInitialized_thrown (p p1 : Process) (e : string) :
  ensureInitialized p = (Thrown e, p1) ->
  recallIntegration p1 = recallIntegration p
  /\ thinkingServer p1 = thinkingServer p.
Proof.
  destruct p as [s [a i al pr th] [pf t d cs]].
  unfold ensureInitialized, initializeBucket, getOrCreateBucket, bind, read,
    update, await_timed, ret, throw; cbn.
  destruct (negb i || negb (address_set a)); cbn; [|discriminate].
  destruct (i && address_set a); cbn; [discriminate|].
  destruct (list_reply pf (length cs)) as [[buckets|e']|]; cbn;
    try (intros H; injection H as _ <-; split; reflexivity).
  destruct (match buckets with
            | Some result0 => find (has_alias al) result0
            | None => None
            end); cbn; [discriminate|].
  destruct (create_reply pf _) as [[[a'|]|e']|]; cbn;
    try discriminate; intros H; injection H as _ <-; split; reflexivity.
Qed.

(** An operation that starts with [ensureInitialized] runs, on a gateway that
    serves, as it does from the Ready state it reaches. *)
Lemma serves_bind {A : Type} (k : unit -> M A) (p : Process) :
  serves p = true ->
  bind ensureInitialized k p = k tt (started p)
  /\ bind ensureInitialized k (started p) = k tt (started p).
Proof.
  intros H. destruct (serves_started p H) as [E R].
  unfold bind. rewrite E, (ensureInitialized_ready _ R). split; reflexivity.
Qed.

Lemma serves_rerun {A : Type} (k : unit -> M A) (p : Process) :
  serves p = true ->
  bind ensureInitialized k p = bind ensureInitialized k (started p).
Proof.
  intros H. destruct (serves_bind k p H) as [E1 E2].
  rewrite E1, E2. reflexivity.
Qed.

(* ================================================================== *)
(** * The gateway: store *)
(* ================================================================== *)

(** [storeSessionJSONL] from the Ready state, with thoughts pending. *)
Lemma storeSessionJSONL_ready (q : Process) :
  ready (recallIntegration q) = true ->
  currentSessionThoughts (recallIntegration q) <> [] ->
  storeSessionJSONL q
  = match store_reply q with
    | InTime (Answer receipt) =>
        (Returned (Some {| txHash := receipt; success := true;
                           key := store_key q |}),
         with_recall (set_thoughts []) (wrote q))
    | _ =>
        (Returned (Some {| txHash := None; success := false;
                           key := store_key q |}),
         wrote q)
    end.
Proof.
  intros R Hne. unfold storeSessionJSONL.
  unfold bind at 1. rewrite (ensureInitialized_ready q R).
  destruct q as [s [a i al pr th] [pf t d cs]].
  destruct th as [|x th]; [contradiction|].
  unfold store_reply, wrote, store_call, store_key, store_data.
  unfold bind, read, try_catch, now, await_timed, update, ret; cbn.
  destruct (add_reply pf (length cs)) as [[[h|]|e]|]; reflexivity.
Qed.

(** The write is the one call [wrote] adds. *)
Lemma wrote_writes (q : Process) :
  writes (calls (world (wrote q)))
  = (writes (calls (world q))
       ++ [(bucketAddress (recallIntegration q), store_key q, store_data q)])%list.
Proof.
  destruct q as [s g [pf t d cs]]. unfold wrote, store_call; cbn.
  rewrite writes_app. reflexivity.
Qed.

(** Nothing is written from an empty buffer. *)
Lemma storeSessionJSONL_empty (q : Process) :
  ready (recallIntegration q) = true ->
  currentSessionThoughts (recallIntegration q) = [] ->
  storeSessionJSONL q = (Returned None, q).
Proof.
  intros R E. unfold storeSessionJSONL.
  unfold bind at 1. rewrite (ensureInitialized_ready q R).
  destruct q as [s [a i al pr th] [pf t d cs]]. cbn in E. subst th.
  reflexivity.
Qed.

(** C4.  A store of a non-empty batch, on a gateway that is Ready or becomes
    Ready (so that the write is attempted), issues the write under the
    derived key [<prefix><epochMillis>-session.jsonl]; when the write is
    rejected or times out, the store returns [{success: false, key}] with
    the derived key and does not throw; when the write is accepted without a
    transaction receipt, it returns [{success: true, key}] with [txHash]
    undefined. *)
Theorem store_failure_reported_receipt_optional (p : Process) :
  serves p = true ->
  currentSessionThoughts (recallIntegration p) <> [] ->
  let q := started p in
  store_key q = logPrefix (recallIntegration p)
                  ++ Str.decimal (Date_now (platform (world p)) (ticks (world p)))
                  ++ "-session.jsonl"
  /\ calls (world (snd (storeSessionJSONL p)))
     = (calls (world q) ++ [store_call q])%list
  /\ (accepted (store_reply q) = false ->
      fst (storeSessionJSONL p)
      = Returned (Some {| txHash := None; success := false;
                          key := store_key q |}))
  /\ (store_reply q = InTime (Answer None) ->
      fst (storeSessionJSONL p)
      = Returned (Some {| txHash := None; success := true;
                          key := store_key q |})).
Proof.
  intros S Hne q.
  destruct (serves_started p S) as [_ R].
  destruct (started_frame p) as [_ Hth Hpr Hpf Hti _ _].
  fold q in R, Hth, Hpr, Hpf, Hti.
  assert (E : storeSessionJSONL p = storeSessionJSONL q)
    by (unfold storeSessionJSONL; apply serves_rerun; exact S).
  rewrite E, storeSessionJSONL_ready by (rewrite ?Hth; assumption).
  split; [|split; [|split]].
  - unfold store_key, session_key. rewrite Hpr, Hpf, Hti. reflexivity.
  - destruct (store_reply q) as [[r|e]|]; destruct q as [s g [pf t d cs]];
      reflexivity.
  - destruct (store_reply q) as [[r|e]|]; simpl; intros H;
      [discriminate | reflexivity | reflexivity].
  - intros ->. reflexivity.
Qed.

(** The theorem at a gateway that resolves its bucket at this very call:
    once with a write that times out, once with a write that is accepted
    without a receipt. *)
Lemma store_failure_reported_witness :
  serves (Demo.pending Demo.stalling) = true
  /\ currentSessionThoughts (recallIntegration (Demo.pending Demo.stalling)) <> []
  /\ fst (storeSessionJSONL (Demo.pending Demo.stalling))
     = Returned (Some {| txHash := None; success := false;
                         key := "sequential-1700000000000-session.jsonl" |})
  /\ fst (storeSessionJSONL (Demo.pending Demo.queued))
     = Returned (Some {| txHash := None; success := true;
                         key := "sequential-1700000000000-session.jsonl" |}).
Proof.
  split; [reflexivity|]. split; [discriminate|]. split.
  - apply (store_failure_reported_receipt_optional (Demo.pending Demo.stalling));
      [reflexivity | discriminate | reflexivity].
  - apply (store_failure_reported_receipt_optional (Demo.pending Demo.queued));
      [reflexivity | discriminate | reflexivity].
Defined.

Lemma enhancedThoughts_length (pf : Platform) (l : list Js.Object) :
  forall t0 i qi, length (enhancedThoughts pf t0 i l qi) = length l.
Proof. induction l; intros; simpl; auto. Qed.

(** The [map] of [storeSession] reads the clock twice per thought and
    touches nothing else. *)
Lemma enhance_run (l : list Js.Object) :
  forall i qi p,
    enhance i l qi p
    = (Returned (enhancedThoughts (platform (world p)) (ticks (world p)) i l qi),
       elapse (2 * length l) p).
Proof.
  induction l as [|x l IH]; intros i qi [s g [pf t d cs]].
  - reflexivity.
  - cbn [enhance]. unfold bind, now, isoNow; cbn.
    rewrite IH. unfold ret, elapse, with_world, later; cbn.
    do 4 f_equal. lia.
Qed.

(** [storeSession] on a gateway that serves: the pending thoughts are
    replaced by the batch, and [storeSessionJSONL] runs from there. *)
Lemma storeSession_serves (thoughts : list Js.Object)
  (qi : option QueryInfo) (p : Process) :
  serves p = true ->
  ready (recallIntegration (buffered thoughts qi (started p))) = true
  /\ storeSession thoughts qi p
     = storeSessionJSONL (buffered thoughts qi (started p)).
Proof.
  intros S. destruct (serves_started p S) as [_ R].
  assert (R2 : ready (recallIntegration (buffered thoughts qi (started p))) = true).
  { destruct (started p) as [s [a i al pr th] w]. exact R. }
  split; [exact R2|].
  unfold storeSession.
  destruct (serves_bind
              (fun _ => try_catch
                          (enhancedThoughts <- enhance 0 thoughts qi ;;
                           update (with_recall (set_thoughts enhancedThoughts)) ;;
                           storeSessionJSONL)
                          (fun _ => ret None)) p S) as [E _].
  rewrite E. unfold try_catch, bind at 1. rewrite enhance_run.
  unfold bind, update.
  change (with_recall (set_thoughts _) (elapse _ (started p)))
    with (buffered thoughts qi (started p)).
  destruct thoughts as [|x l].
  - rewrite storeSessionJSONL_empty; [reflexivity | exact R2 |].
    destruct (started p) as [s [a i al pr th] w]. reflexivity.
  - rewrite storeSessionJSONL_ready; [| exact R2 |].
    + destruct (store_reply _) as [[r|e]|]; reflexivity.
    + destruct (started p) as [s [a i al pr th] w]. discriminate.
Qed.

(** C10 (as amended).  For every call of [storeSession] that gets past the
    bucket initialisation (the gateway is Ready or becomes Ready), the
    pending thoughts are first replaced by the incoming batch alone (each
    thought with its time stamps and the query): the record written, if the
    batch is not empty, holds that batch and nothing that was pending before;
    after an accepted write the buffer is empty and [pendingThoughts] is 0;
    after a failed write the buffer holds the batch. *)
Theorem storeSession_replaces_pending (thoughts : list Js.Object)
  (qi : option QueryInfo) (p : Process) :
  serves p = true ->
  let batch := enhancedThoughts (platform (world p)) (ticks (world p)) 0
                 thoughts qi in
  let q := buffered thoughts qi (started p) in
  let after := snd (storeSession thoughts qi p) in
  currentSessionThoughts (recallIntegration q) = batch
  /\ length batch = length thoughts
  /\ writes (calls (world after))
     = (writes (calls (world p))
          ++ match thoughts with
             | [] => []
             | _ :: _ => [(bucketAddress (recallIntegration q), store_key q,
                           jsonlData (validatedThoughts 0 batch))]
             end)%list
  /\ (accepted (store_reply q) = true ->
      currentSessionThoughts (recallIntegration after) = []
      /\ pendingThoughts_of after = Some 0)
  /\ (accepted (store_reply q) = false ->
      currentSessionThoughts (recallIntegration after) = batch).
Proof.
  intros S batch q after.
  destruct (storeSession_serves thoughts qi p S) as [R E].
  fold q in R, E.
  destruct (started_frame p) as [_ _ _ Hpf Hti _ Hw].
  assert (Hb : currentSessionThoughts (recallIntegration q) = batch).
  { unfold q, buffered, batch. rewrite <- Hpf, <- Hti.
    destruct (started p) as [s [a i al pr th] w]. reflexivity. }
  assert (Hq : writes (calls (world q)) = writes (calls (world p))).
  { rewrite <- Hw. unfold q, buffered.
    destruct (started p) as [s [a i al pr th] [pf t d cs]]. reflexivity. }
  split; [exact Hb|]. split; [apply enhancedThoughts_length|].
  unfold after. rewrite E.
  destruct thoughts as [|x l].
  - rewrite (storeSessionJSONL_empty q R Hb). cbn [snd].
    rewrite Hq, app_nil_r, Hb. unfold pendingThoughts_of, getStatusInfo.
    unfold bind, read, ret. cbn [fst]. rewrite Hb.
    repeat split; reflexivity.
  - assert (Hn : currentSessionThoughts (recallIntegration q) <> [])
      by (rewrite Hb; discriminate).
    rewrite (storeSessionJSONL_ready q R Hn).
    pose proof (wrote_writes q) as Hc. unfold store_data in Hc.
    rewrite Hq, Hb in Hc.
    split; [|split].
    + destruct (store_reply q) as [[r|e]|]; cbn [snd]; exact Hc.
    + destruct (store_reply q) as [[r|e]|]; cbn; try discriminate. intros _.
      destruct (wrote q) as [s [a i al pr th] w]. split; reflexivity.
    + destruct (store_reply q) as [[r|e]|]; cbn [snd accepted];
        try discriminate; intros _; exact Hb.
Qed.

(** The theorem at a gateway whose write is rejected: the buffer holds the
    one thought of the batch, with its time stamps. *)
Lemma storeSession_replaces_pending_witness :
  serves (Demo.pending Demo.refusing) = true
  /\ currentSessionThoughts
       (recallIntegration
          (snd (storeSession [Demo.stepMissing] None
                  (Demo.pending Demo.refusing))))
     = enhancedThoughts Demo.refusing 0 0 [Demo.stepMissing] None.
Proof.
  split; [reflexivity|].
  apply (storeSession_replaces_pending [Demo.stepMissing] None
           (Demo.pending Demo.refusing));
    [reflexivity | reflexivity].
Defined.

(** C10 as stated fails when the bucket cannot be resolved: the call throws
    before it touches the buffer, which stays empty instead of holding the
    incoming batch. *)
Lemma storeSession_replaces_pending_counterexample :
  fst (storeSession [Demo.stepA] None (Demo.boot Demo.offline))
  = Thrown "fetch failed"
  /\ currentSessionThoughts
       (recallIntegration
          (snd (storeSession [Demo.stepA] None (Demo.boot Demo.offline))))
     = []
  /\ enhancedThoughts Demo.offline 0 0 [Demo.stepA] None <> [].
Proof. split; [reflexivity|]. split; [reflexivity | discriminate]. Qed.

(* ================================================================== *)
(** * The gateway: list *)
(* ================================================================== *)

Lemma sessionObject_key (prefix : string) (obj : BucketObject) :
  recall_key (sessionObject prefix obj) = object_key obj.
Proof. reflexivity. Qed.

(** Filtering after the map keeps the objects that a filter on the keys
    before the map keeps. *)
Lemma filter_sessionObjects (prefix : string) (objects : list BucketObject) :
  filter (fun o => Str.includes prefix (recall_key o))
         (map (sessionObject prefix) objects)
  = map (sessionObject prefix)
        (filter (fun obj => Str.includes prefix (object_key obj)) objects).
Proof.
  induction objects as [|obj l IH]; [reflexivity|].
  cbn [map filter]. rewrite sessionObject_key.
  destruct (Str.includes prefix (object_key obj)); cbn [map]; rewrite IH;
    reflexivity.
Qed.

(** [listAllSessionObjects] from the Ready state. *)
Lemma listAllSessionObjects_ready (q : Process) :
  ready (recallIntegration q) = true ->
  fst (listAllSessionObjects q)
  = Returned
      match next_query q with
      | Answer (Some objects) =>
          map (sessionObject (logPrefix (recallIntegration q)))
              (filter (fun obj => Str.includes (logPrefix (recallIntegration q))
                                    (object_key obj)) objects)
      | _ => []
      end.
Proof.
  intros R. unfold listAllSessionObjects.
  unfold bind at 1. rewrite (ensureInitialized_ready q R).
  destruct q as [s [a i al pr th] [pf t d cs]].
  unfold next_query, try_catch, bind, read, await, ret; cbn.
  destruct (query_reply pf (length cs)) as [[objects|]|e]; cbn;
    rewrite ?filter_sessionObjects; reflexivity.
Qed.

(** C7 (as amended).  On a gateway that is Ready or becomes Ready the list
    operation does not throw: on a remote query error, and on an answer
    without objects, it returns the empty array; otherwise it returns exactly
    the objects whose key contains the configured prefix, in the order of the
    answer; and for such an object the time stamp is taken from the first
    [-digits-] segment of the key whenever the key has one, whatever the
    metadata carried, the metadata being returned as reported when the key
    has none. *)
Theorem list_returns_prefixed_objects (p : Process) :
  serves p = true ->
  let prefix := logPrefix (recallIntegration p) in
  exists l,
    fst (listAllSessionObjects p) = Returned l
    /\ match next_query (started p) with
       | Answer (Some objects) =>
           map recall_key l
           = filter (Str.includes prefix) (map object_key objects)
           /\ l = map (sessionObject prefix)
                    (filter (fun obj => Str.includes prefix (object_key obj))
                       objects)
       | _ => l = []
       end
    /\ forall obj,
         Str.includes prefix (object_key obj) = true ->
         match Str.match_dash_digits_dash (object_key obj) with
         | Some digits =>
             timestamp_of (sessionObject prefix obj)
             = Js.Num (Str.parseInt digits)
         | None =>
             recall_metadata (sessionObject prefix obj)
             = Some (reported_metadata obj)
         end.
Proof.
  intros S prefix.
  destruct (serves_started p S) as [_ R].
  destruct (started_frame p) as [_ _ Hpr _ _ _ _].
  assert (E : listAllSessionObjects p = listAllSessionObjects (started p))
    by (unfold listAllSessionObjects; apply serves_rerun; exact S).
  rewrite E, (listAllSessionObjects_ready _ R), Hpr. fold prefix.
  eexists. split; [reflexivity|]. split.
  - destruct (next_query (started p)) as [[objects|]|e]; try reflexivity.
    split; [|reflexivity].
    rewrite map_map.
    induction objects as [|obj l IH]; [reflexivity|].
    cbn [map filter]. destruct (Str.includes prefix (object_key obj));
      cbn [map]; rewrite IH; reflexivity.
  - intros obj Hin. unfold timestamp_of, sessionObject, reported_metadata.
    cbn [recall_metadata]. rewrite Hin.
    destruct (Str.match_dash_digits_dash (object_key obj)); [|reflexivity].
    apply JsFacts.get_set_same.
Qed.

(** The theorem at a bucket that holds a session and a foreign object. *)
Lemma list_returns_prefixed_objects_witness :
  serves (Demo.boot Demo.listing) = true
  /\ exists l,
       fst (listAllSessionObjects (Demo.boot Demo.listing)) = Returned l
       /\ map recall_key l = ["sequential-1700000000000-session.jsonl"].
Proof.
  split; [reflexivity|].
  destruct (list_returns_prefixed_objects (Demo.boot Demo.listing) eq_refl)
    as [l [E [[K _] _]]].
  exists l. split; [exact E | exact K].
Defined.

(** C7 as stated fails twice: the list operation throws when the bucket
    cannot be resolved, and the time stamp of the key replaces the one the
    metadata already carried (5 here). *)
Lemma list_returns_prefixed_objects_counterexample :
  fst (listAllSessionObjects (Demo.boot Demo.offline)) = Thrown "fetch failed"
  /\ Js.get "timestamp" (reported_metadata Demo.stamped) = Js.Num 5
  /\ fst (listAllSessionObjects (Demo.boot Demo.listing))
     = Returned
         [{| recall_key := "sequential-1700000000000-session.jsonl";
             recall_size := 120;
             recall_metadata := Some [("timestamp", Js.Num 1700000000000)] |}].
Proof. split; [reflexivity|]. split; reflexivity. Qed.

(* ================================================================== *)
(** * The gateway: get *)
(* ================================================================== *)

Lemma parseLines_length (pf : Platform) (lines : list string) :
  forall k, length (parseLines pf k lines) = length lines.
Proof. induction lines; intros; simpl; auto. Qed.

Lemma parseLines_nth (pf : Platform) (lines : list string) :
  forall k i line,
    nth_error lines i = Some line ->
    nth_error (parseLines pf k lines) i = Some (parseLine pf (k + i) line).
Proof.
  induction lines as [|x l IH]; intros k [|i] line H; simpl in *;
    try discriminate.
  - injection H as ->. rewrite Nat.add_0_r. reflexivity.
  - rewrite (IH (S k) i line H), Nat.add_succ_r. reflexivity.
Qed.

(** [getObjectContent] from the Ready state. *)
Lemma getObjectContent_ready (key : string) (q : Process) :
  ready (recallIntegration q) = true ->
  getObjectContent key q
  = (Returned match next_fetch q with
              | Answer body => body
              | Rejects _ => None
              end,
     with_world (issue (GetObject (bucketAddress (recallIntegration q)) key)) q).
Proof.
  intros R. unfold getObjectContent.
  unfold bind at 1. rewrite (ensureInitialized_ready q R).
  destruct q as [s [a i al pr th] [pf t d cs]].
  unfold next_fetch, try_catch, bind, read, await, ret; cbn.
  destruct (get_reply pf (length cs)) as [body|e]; reflexivity.
Qed.

(** [getSessionObject] from the Ready state. *)
Lemma getSessionObject_ready (key : string) (q : Process) :
  ready (recallIntegration q) = true ->
  fst (getSessionObject key q)
  = Returned
      match next_fetch q with
      | Answer (Some content) =>
          if String.eqb content EmptyString then None
          else Some (parseSession (platform (world q)) key content)
      | _ => None
      end.
Proof.
  intros R. unfold getSessionObject.
  unfold bind at 1. rewrite (ensureInitialized_ready q R).
  unfold try_catch, bind at 1. rewrite (getObjectContent_ready key q R).
  destruct (next_fetch q) as [[content|]|e]; try reflexivity.
  destruct (String.eqb content EmptyString); [reflexivity|].
  destruct q as [s g [pf t d cs]]. reflexivity.
Qed.

(** C5 (as amended).  On a gateway that is Ready or becomes Ready, [get]
    returns null when the fetch fails, when the object does not exist, and
    when its content is empty.  Otherwise it answers with a session whose
    step count is the number of newline-separated lines of the content once
    leading and trailing white space is trimmed, where every line that fails
    to parse is replaced by the error placeholder at its position and every
    other position holds the parsed line; its creation time is [Unknown]
    when what the first line parses to has no truthy time stamp, and the
    ISO form of that time stamp otherwise.  The one exception is a first
    line with a truthy time stamp that is not a date: it alone is answered
    with the error object, which has no steps and carries the first 500
    characters of the content. *)
Theorem get_isolates_unparsable_lines (key : string) (p : Process) :
  serves p = true ->
  let pf := platform (world p) in
  match next_fetch (started p) with
  | Rejects _ | Answer None => fst (getSessionObject key p) = Returned None
  | Answer (Some content) =>
      if String.eqb content EmptyString
      then fst (getSessionObject key p) = Returned None
      else
        let lines := Str.split Str.newline (Str.trim content) in
        let stamp :=
          Js.opt_get "timestamp" (parseLine pf 0 (hd EmptyString lines)) in
        exists s,
          fst (getSessionObject key p) = Returned (Some s)
          /\ match s with
             | Session k thoughts count created =>
                 k = key
                 /\ (if Js.truthy stamp
                     then Date_toISOString pf stamp = Some created
                     else created = "Unknown")
                 /\ count = length lines
                 /\ length thoughts = length lines
                 /\ forall i line,
                      nth_error lines i = Some line ->
                      match JSON_parse pf line with
                      | Some v => nth_error thoughts i = Some v
                      | None =>
                          nth_error thoughts i
                          = Some (Js.Obj
                                    [("error",
                                      Js.Text ("Invalid JSON at line "
                                               ++ Str.decimal (Z.of_nat i + 1)));
                                     ("lineContent", Js.Text (Str.take 50 line))])
                      end
             | Unparsed k message raw =>
                 k = key
                 /\ Js.truthy stamp = true
                 /\ Date_toISOString pf stamp = None
                 /\ message = "Failed to parse session content"
                 /\ raw = Str.take 500 content
                          ++ (if Nat.ltb 500 (String.length content)
                              then "..." else EmptyString)
             end
  end.
Proof.
  intros S pf.
  destruct (serves_started p S) as [_ R].
  destruct (started_frame p) as [_ _ _ Hpf _ _ _].
  assert (E : getSessionObject key p = getSessionObject key (started p))
    by (unfold getSessionObject; apply serves_rerun; exact S).
  rewrite E, (getSessionObject_ready key _ R), Hpf. fold pf.
  destruct (next_fetch (started p)) as [[content|]|e]; try reflexivity.
  destruct (String.eqb content EmptyString); [reflexivity|].
  intros lines stamp. eexists. split; [reflexivity|].
  unfold parseSession. fold lines.
  assert (Hhd : hd Js.Undefined (parseLines pf 0 lines)
                = parseLine pf 0 (hd EmptyString lines)).
  { unfold lines. destruct (Str.split Str.newline (Str.trim content)) eqn:El.
    - exfalso. revert El. generalize (Str.trim content).
      intros s; destruct s as [|c s]; simpl; [discriminate|].
      destruct (Ascii.eqb c Str.newline); [discriminate|].
      destruct (Str.split Str.newline s); discriminate.
    - reflexivity. }
  assert (Hlines :
    forall i line,
      nth_error lines i = Some line ->
      match JSON_parse pf line with
      | Some v => nth_error (parseLines pf 0 lines) i = Some v
      | None =>
          nth_error (parseLines pf 0 lines) i
          = Some (Js.Obj
                    [("error",
                      Js.Text ("Invalid JSON at line "
                               ++ Str.decimal (Z.of_nat i + 1)));
                     ("lineContent", Js.Text (Str.take 50 line))])
      end).
  { intros i line Hi. rewrite (parseLines_nth pf lines 0 i line Hi).
    unfold parseLine. cbn [Nat.add].
    destruct (JSON_parse pf line); reflexivity. }
  rewrite Hhd. fold stamp.
  destruct (Js.truthy stamp) eqn:T.
  - destruct (Date_toISOString pf stamp) eqn:D.
    + repeat split; auto using parseLines_length.
    + repeat split; auto.
  - repeat split; auto using parseLines_length.
Qed.

(** The theorem at a record of two lines, the second one corrupted. *)
Lemma get_isolates_unparsable_lines_witness :
  serves (Demo.boot (Demo.holding Demo.twoLines)) = true
  /\ fst (getSessionObject "k" (Demo.boot (Demo.holding Demo.twoLines)))
     = Returned
         (Some (Session "k"
                  [Js.Obj [];
                   Js.Obj [("error", Js.Text "Invalid JSON at line 2");
                           ("lineContent", Js.Text "{oops")]]
                  2 "Unknown")).
Proof.
  split; [reflexivity|].
  pose proof (get_isolates_unparsable_lines "k"
                (Demo.boot (Demo.holding Demo.twoLines)) eq_refl) as H.
  cbv beta iota zeta in H. destruct H as [s [E _]].
  assert (E' := E). vm_compute in E'. injection E' as <-. exact E.
Defined.

(** C5 as stated fails: a record with a blank first line has two
    newline-separated lines and is answered with one step; an object that
    exists with an empty content is answered with null; a first line whose
    time stamp is no date is answered without any step count; and when the
    bucket cannot be resolved [get] throws instead of returning null. *)
Lemma get_isolates_unparsable_lines_counterexample :
  length (Str.split Str.newline Demo.blankFirst) = 2
  /\ fst (getSessionObject "k" (Demo.boot (Demo.holding Demo.blankFirst)))
     = Returned (Some (Session "k" [Js.Obj []] 1 "Unknown"))
  /\ next_fetch (started (Demo.boot (Demo.holding EmptyString)))
     = Answer (Some EmptyString)
  /\ fst (getSessionObject "k" (Demo.boot (Demo.holding EmptyString)))
     = Returned None
  /\ fst (getSessionObject "k" (Demo.boot (Demo.holding Demo.badStamp)))
     = Returned (Some (Unparsed "k" "Failed to parse session content"
                         Demo.badStamp))
  /\ fst (getSessionObject "k" (Demo.boot Demo.offline))
     = Thrown "fetch failed".
Proof. repeat split; reflexivity. Qed.

(* ================================================================== *)
(** * The validator *)
(* ================================================================== *)

(** C8 (as amended).  On a structured input the validator either returns the
    step or fails with the error that names the first offending field, the
    checks being made in this order: the text is a string and not empty; the
    index is a number and not zero; the estimated total is a number and not
    zero; the continuation is a boolean.  The optional fields are passed
    through as they came, and the validator changes nothing in the
    process. *)
Theorem validator_names_first_offending_field (o : Js.Object) :
  match first_offending nonEmptyString nonZeroNumber Js.is_boolean o with
  | Some message => validateThoughtData (Js.Obj o) = Thrown message
  | None =>
      exists text index total continue,
        Js.get "thought" o = Js.Text text
        /\ Js.get "thoughtNumber" o = Js.Num index
        /\ Js.get "totalThoughts" o = Js.Num total
        /\ Js.get "nextThoughtNeeded" o = Js.Bool continue
        /\ validateThoughtData (Js.Obj o)
           = Returned {| thought := text;
                         thoughtNumber := index;
                         totalThoughts := total;
                         nextThoughtNeeded := continue;
                         isRevision := Js.get "isRevision" o;
                         revisesThought := Js.get "revisesThought" o;
                         branchFromThought := Js.get "branchFromThought" o;
                         branchId := Js.get "branchId" o;
                         needsMoreThoughts := Js.get "needsMoreThoughts" o |}
  end
  /\ forall p, snd (lift (validateThoughtData (Js.Obj o)) p) = p.
Proof.
  split; [|reflexivity].
  unfold first_offending, validateThoughtData, nonEmptyString, nonZeroNumber.
  cbn [property Js.opt_get].
  destruct (Js.get "thought" o) as [| |b|z|s|l|ps];
    cbn; rewrite ?orb_true_r, ?orb_false_r; cbn; try reflexivity.
  destruct (String.eqb s EmptyString); cbn; [reflexivity|].
  destruct (Js.get "thoughtNumber" o) as [| |b|z|s'|l|ps];
    cbn; rewrite ?orb_true_r, ?orb_false_r; cbn; try reflexivity.
  destruct (Z.eqb z 0); cbn; [reflexivity|].
  destruct (Js.get "totalThoughts" o) as [| |b|z'|s'|l|ps];
    cbn; rewrite ?orb_true_r, ?orb_false_r; cbn; try reflexivity.
  destruct (Z.eqb z' 0); cbn; [reflexivity|].
  destruct (Js.get "nextThoughtNeeded" o) as [| |b|z''|s'|l|ps]; cbn;
    try reflexivity.
  exists s, z, z', b. repeat split; reflexivity.
Qed.

(** C8 as stated fails: an index of 0 is present and numeric, a text that is
    the empty string is present and a string, and both are rejected. *)
Lemma validator_names_first_offending_field_counterexample :
  first_offending Js.is_string Js.is_number Js.is_boolean
    [("thought", Js.Text "A"); ("thoughtNumber", Js.Num 0);
     ("totalThoughts", Js.Num 3); ("nextThoughtNeeded", Js.Bool true)] = None
  /\ validateThoughtData (Demo.call "A" 0 3 true)
     = Thrown "Invalid thoughtNumber: must be a number"
  /\ first_offending Js.is_string Js.is_number Js.is_boolean
       [("thought", Js.Text EmptyString); ("thoughtNumber", Js.Num 1);
        ("totalThoughts", Js.Num 3); ("nextThoughtNeeded", Js.Bool true)] = None
  /\ validateThoughtData (Demo.call EmptyString 1 3 true)
     = Thrown "Invalid thought: must be a string".
Proof. repeat split; reflexivity. Qed.

(* ================================================================== *)
(** * The session accumulator *)
(* ================================================================== *)

(** Case analysis on the condition of a conditional of the goal. *)
Ltac branch :=
  match goal with
  | |- context [if ?c then _ else _] => destruct c eqn:?; cbn
  end.

(** A step that [appendThought] returns was pushed at the end of the
    history, widened; the gateway and the world were not touched and the
    session keeps its identifier. *)
Lemma appendThought_returned (v t : ThoughtData) (q : Js.Value)
  (p p1 : Process) :
  appendThought v q p = (Returned t, p1) ->
  t = widened v
  /\ thoughtHistory (thinkingServer p1)
     = (thoughtHistory (thinkingServer p) ++ [t])%list
  /\ currentSessionId (thinkingServer p1) = currentSessionId (thinkingServer p)
  /\ recallIntegration p1 = recallIntegration p
  /\ world p1 = world p.
Proof.
  destruct p as [[h b cq id] g w].
  unfold appendThought, recordBranch, widened, propertyKey, interpolate, lift,
    bind, read, update, ret, throw; cbn.
  destruct (Z.gtb (thoughtNumber v) (totalThoughts v)); cbn;
    destruct (Js.toString (branchId v)) as [k|];
    repeat branch; try discriminate;
    intros H; injection H as <- <-; repeat split; reflexivity.
Qed.



(* ================================================================== *)
(** * The terminal step *)
(* ================================================================== *)

(** Whether the gateway serves depends on the gateway and on the world, not
    on the session. *)
Lemma ensureInitialized_server (s s' : SequentialThinkingServer)
  (g : RecallIntegration) (w : World) :
  ensureInitialized {| thinkingServer := s; recallIntegration := g; world := w |}
  = (fst (ensureInitialized
            {| thinkingServer := s'; recallIntegration := g; world := w |}),
     with_server (fun _ => s)
       (snd (ensureInitialized
               {| thinkingServer := s'; recallIntegration := g; world := w |}))).
Proof.
  destruct g as [a i al pr th], w as [pf t d cs].
  unfold ensureInitialized, initializeBucket, getOrCreateBucket, bind, read,
    update, await_timed, ret, throw; cbn.
  destruct (negb i || negb (address_set a)); cbn; [|reflexivity].
  destruct (i && address_set a); cbn; [reflexivity|].
  destruct (list_reply pf (length cs)) as [[buckets|e]|]; cbn;
    try reflexivity.
  destruct (match buckets with
            | Some result0 => find (has_alias al) result0
            | None => None
            end); cbn; [reflexivity|].
  destruct (create_reply pf _) as [[[a'|]|e]|]; reflexivity.
Qed.

Lemma serves_session (p p1 : Process) :
  recallIntegration p1 = recallIntegration p ->
  world p1 = world p ->
  serves p1 = serves p
  /\ started p1 = with_server (fun _ => thinkingServer p1) (started p).
Proof.
  destruct p as [s g w], p1 as [s1 g1 w1]. cbn. intros -> ->.
  unfold serves, started. rewrite (ensureInitialized_server s1 s g w). cbn.
  destruct (ensureInitialized
              {| thinkingServer := s; recallIntegration := g; world := w |})
    as [[[]|e] [s' g' w']]; split; reflexivity.
Qed.

Lemma clearSession_run (p : Process) : clearSession p = (Returned tt, cleared p).
Proof. destruct p as [[h b cq id] g [pf t d cs]]. reflexivity. Qed.

(** [storeSessionToRecall] on a session that is not empty, with a gateway
    that serves: the session is written from [flushing p]. *)
Lemma storeSessionToRecall_serves (p : Process) :
  serves p = true ->
  thoughtHistory (thinkingServer p) <> [] ->
  ready (recallIntegration (flushing p)) = true
  /\ currentSessionThoughts (recallIntegration (flushing p)) <> []
  /\ storeSessionToRecall p = storeSessionJSONL (flushing p).
Proof.
  intros S Hne.
  destruct (storeSession_serves (session_batch p) (session_info p) p S)
    as [R E].
  fold (flushing p) in R, E.
  assert (Hb : currentSessionThoughts (recallIntegration (flushing p)) <> []).
  { unfold flushing, buffered, session_batch.
    destruct (started p) as [s' [a i al pr th] w'].
    destruct p as [[h b cq id] g w]. cbn in *.
    destruct h; [contradiction | discriminate]. }
  split; [exact R|]. split; [exact Hb|].
  unfold storeSessionToRecall, bind at 1, read.
  destruct (thoughtHistory (thinkingServer p)) eqn:Eh; [contradiction|].
  cbn [length Nat.eqb]. unfold try_catch, getStatusInfo, bind, read, ret.
  cbv beta iota. rewrite <- Eh. fold (session_batch p).
  fold (session_info p). rewrite E.
  rewrite (storeSessionJSONL_ready _ R Hb).
  destruct (store_reply (flushing p)) as [[r|e]|]; reflexivity.
Qed.

(** The second half of [processThought] on the last thought. *)
Lemma finishThought_terminal (t : ThoughtData) (p : Process) :
  nextThoughtNeeded t = false ->
  serves p = true ->
  thoughtHistory (thinkingServer p) <> [] ->
  finishThought t p
  = match store_reply (flushing p) with
    | InTime (Answer receipt) =>
        (Returned (Some {| txHash := receipt; success := true;
                           key := store_key (flushing p) |}),
         cleared (with_recall (set_thoughts []) (wrote (flushing p))))
    | _ =>
        (Returned (Some {| txHash := None; success := false;
                           key := store_key (flushing p) |}),
         wrote (flushing p))
    end.
Proof.
  intros Hn S Hne.
  destruct (storeSessionToRecall_serves p S Hne) as [R [Hb E]].
  unfold finishThought. rewrite Hn. cbn [negb].
  unfold bind at 1. rewrite E, (storeSessionJSONL_ready _ R Hb).
  destruct (store_reply (flushing p)) as [[r|e]|];
    unfold bind, getStatusInfo, read, ret; cbn [success];
    rewrite ?clearSession_run; reflexivity.
Qed.

(** The answer is built without changing the process. *)
Lemma respond_run (t : ThoughtData) (info : option StoreResult) (p : Process) :
  exists r, respond t info p
            = (Returned {| content := ThoughtResponse r; isError := false |}, p)
            /\ response_totalThoughts r = totalThoughts t.
Proof.
  destruct p as [[h b cq id] [a i al pr th] w].
  unfold respond, bind, read, getStatusInfo, isInitialized, ret; cbn.
  destruct info as [stored|]; cbn; [destruct i; cbn|];
    eexists; split; reflexivity.
Qed.

(** [processThought] once the input is validated and appended, and the log
    line is formatted. *)
Lemma processThought_appended (input q : Js.Value) (v t : ThoughtData)
  (p p1 : Process) :
  validateThoughtData input = Returned v ->
  appendThought v q p = (Returned t, p1) ->
  formatThought t = Returned tt ->
  snd (processThought input q p) = snd (finishThought t p1)
  /\ (forall info p2,
        finishThought t p1 = (Returned info, p2) ->
        exists r,
          fst (processThought input q p)
          = Returned {| content := ThoughtResponse r; isError := false |}
          /\ response_totalThoughts r = totalThoughts t).
Proof.
  intros Hv Ha Hf. unfold processThought, try_catch, bind, lift.
  rewrite Hv, Ha, Hf.
  destruct (finishThought t p1) as [[info|e] p2] eqn:F.
  - destruct (respond_run t info p2) as [r [-> Hr]]. split; [reflexivity|].
    intros info' p2' H. injection H as <- <-. exists r. split; [reflexivity | exact Hr].
  - split; [reflexivity|]. intros info p2' H. discriminate.
Qed.

Lemma widened_fields (v : ThoughtData) :
  thought (widened v) = thought v
  /\ nextThoughtNeeded (widened v) = nextThoughtNeeded v.
Proof.
  unfold widened. destruct (Z.gtb (thoughtNumber v) (totalThoughts v));
    split; reflexivity.
Qed.

(** The batch written at the flush, and the writes issued before it. *)
Lemma flushing_frame (p : Process) :
  currentSessionThoughts (recallIntegration (flushing p))
  = enhancedThoughts (platform (world p)) (ticks (world p)) 0
      (session_batch p) (session_info p)
  /\ writes (calls (world (flushing p))) = writes (calls (world p))
  /\ thinkingServer (flushing p) = thinkingServer p.
Proof.
  destruct (started_frame p) as [Hs _ _ Hpf Hti _ Hw].
  unfold flushing, buffered. rewrite <- Hpf, <- Hti, <- Hw, <- Hs.
  destruct (started p) as [s [a i al pr th] [pf t d cs]].
  split; [|split]; reflexivity.
Qed.

(** The process after the last step of a session, on a gateway that
    serves: the session was written from [flushing p1], then cleared if the
    write was accepted. *)
Lemma terminal_step_run (input q : Js.Value) (v t : ThoughtData)
  (p p1 : Process) :
  validateThoughtData input = Returned v ->
  nextThoughtNeeded v = false ->
  appendThought v q p = (Returned t, p1) ->
  formatThought t = Returned tt ->
  serves p = true ->
  snd (processThought input q p)
  = (if accepted (store_reply (flushing p1))
     then cleared (with_recall (set_thoughts []) (wrote (flushing p1)))
     else wrote (flushing p1))
  /\ writes (calls (world (wrote (flushing p1))))
     = (writes (calls (world p))
          ++ [(bucketAddress (recallIntegration (flushing p1)),
               store_key (flushing p1), store_data (flushing p1))])%list
  /\ currentSessionThoughts (recallIntegration (flushing p1))
     = enhancedThoughts (platform (world p)) (ticks (world p)) 0
         (session_batch p1) (session_info p1).
Proof.
  intros Hv Hn Ha Hf S.
  destruct (appendThought_returned v t q p p1 Ha) as [Ht [Hh [_ [Hg Hw]]]].
  destruct (serves_session p p1 Hg Hw) as [S1 _]. rewrite S in S1.
  assert (Hn1 : nextThoughtNeeded t = false)
    by (rewrite Ht; destruct (widened_fields v) as [_ ->]; exact Hn).
  assert (Hne : thoughtHistory (thinkingServer p1) <> [])
    by (rewrite Hh; destruct (thoughtHistory (thinkingServer p)); discriminate).
  destruct (processThought_appended input q v t p p1 Hv Ha Hf) as [E _].
  destruct (flushing_frame p1) as [Hb [Hfw _]]. rewrite Hw in Hb, Hfw.
  rewrite E, (finishThought_terminal t p1 Hn1 S1 Hne).
  split; [|split; [|exact Hb]].
  - destruct (store_reply (flushing p1)) as [[r|e]|]; reflexivity.
  - rewrite wrote_writes, Hfw. reflexivity.
Qed.

(** C1 (as amended).  A validated step with [nextThoughtNeeded = false] that
    passes the first half of [processThought] without an error (the query
    is taken, the step is pushed, its branch is recorded and its log line is
    formatted), on a gateway that is Ready or becomes Ready, makes
    [processThought] serialize the whole session, the step included, and
    hand it to persistence with exactly one write.  When the write is
    accepted the in-memory session is destroyed (history, branches and
    query) and an empty one is created under a newly generated identifier
    [session-<clock>-<random>]; when the write is rejected or times out the
    session and its identifier are kept. *)
Theorem terminal_step_stores_then_resets (input q : Js.Value)
  (v t : ThoughtData) (p p1 : Process) :
  validateThoughtData input = Returned v ->
  nextThoughtNeeded v = false ->
  appendThought v q p = (Returned t, p1) ->
  formatThought t = Returned tt ->
  serves p = true ->
  let w := flushing p1 in
  let after := snd (processThought input q p) in
  thoughtHistory (thinkingServer p1)
  = (thoughtHistory (thinkingServer p) ++ [t])%list
  /\ currentSessionThoughts (recallIntegration w)
     = enhancedThoughts (platform (world p)) (ticks (world p)) 0
         (session_batch p1) (session_info p1)
  /\ writes (calls (world after))
     = (writes (calls (world p))
          ++ [(bucketAddress (recallIntegration w), store_key w, store_data w)])%list
  /\ (accepted (store_reply w) = true ->
      thinkingServer after = fresh_session (wrote w))
  /\ (accepted (store_reply w) = false ->
      thinkingServer after = thinkingServer p1).
Proof.
  intros Hv Hn Ha Hf S w after.
  destruct (appendThought_returned v t q p p1 Ha) as [_ [Hh _]].
  destruct (terminal_step_run input q v t p p1 Hv Hn Ha Hf S) as [E [Hww Hb]].
  destruct (flushing_frame p1) as [_ [_ Hfs]].
  fold w in E, Hww, Hb, Hfs. fold after in E.
  split; [exact Hh|]. split; [exact Hb|].
  destruct (accepted (store_reply w)); rewrite E.
  - split; [exact Hww|]. split; [|discriminate]. intros _.
    destruct (wrote w) as [s g [pf t' d cs]]. reflexivity.
  - split; [exact Hww|]. split; [discriminate|]. intros _. exact Hfs.
Qed.

(** The theorem at the last step of a session whose write is confirmed:
    the server is left with an empty session under a new identifier. *)
Lemma terminal_step_stores_then_resets_witness :
  validateThoughtData (Demo.call "C" 4 3 false)
  = Returned (Demo.step "C" 4 3 false)
  /\ nextThoughtNeeded (Demo.step "C" 4 3 false) = false
  /\ serves (Demo.boot Demo.confirmed) = true
  /\ thinkingServer
       (snd (processThought (Demo.call "C" 4 3 false) Js.Undefined
               (Demo.boot Demo.confirmed)))
     = {| thoughtHistory := []; branches := []; currentQuery := Js.Undefined;
          currentSessionId := "session-1700000000003-4242" |}.
Proof.
  split; [reflexivity|]. split; [reflexivity|]. split; [reflexivity|].
  apply (terminal_step_stores_then_resets (Demo.call "C" 4 3 false)
           Js.Undefined (Demo.step "C" 4 3 false) (Demo.step "C" 4 4 false)
           (Demo.boot Demo.confirmed)
           (with_server (set_history [Demo.step "C" 4 4 false])
              (Demo.boot Demo.confirmed))
           eq_refl eq_refl eq_refl eq_refl eq_refl).
  reflexivity.
Defined.

(** C1 as stated fails when the write is rejected: the three steps are
    still in memory after the terminal step, under the same identifier, and
    the write was issued once.  When the bucket cannot be resolved the
    session is kept as well, and nothing is written. *)
Lemma terminal_step_stores_then_resets_counterexample :
  let steps := [(Demo.call "A" 1 3 true, Js.Undefined);
                (Demo.call "B" 2 3 true, Js.Undefined);
                (Demo.call "C" 4 3 false, Js.Undefined)] in
  let after := processAll steps (Demo.boot Demo.refusing) in
  let cut_off := processAll steps (Demo.boot Demo.offline) in
  validateThoughtData (Demo.call "C" 4 3 false)
  = Returned (Demo.step "C" 4 3 false)
  /\ thoughtHistory (thinkingServer after)
     = [Demo.step "A" 1 3 true; Demo.step "B" 2 3 true; Demo.step "C" 4 4 false]
  /\ currentSessionId (thinkingServer after)
     = currentSessionId (thinkingServer (Demo.boot Demo.refusing))
  /\ length (writes (calls (world after))) = 1
  /\ length (thoughtHistory (thinkingServer cut_off)) = 3
  /\ writes (calls (world cut_off)) = [].
Proof. repeat split; reflexivity. Qed.

(* ================================================================== *)
(** * A whole session *)
(* ================================================================== *)

(** The text of a validated step is not empty. *)
Lemma validated_text (input : Js.Value) (v : ThoughtData) :
  validateThoughtData input = Returned v ->
  Js.truthy (Js.Text (thought v)) = true.
Proof.
  unfold validateThoughtData.
  destruct (property "thought" input) as [text|e]; [|discriminate].
  destruct text as [| |b|z|s|l|ps]; cbn; rewrite ?orb_true_r; cbn;
    try discriminate.
  destruct (String.eqb s EmptyString) eqn:Es; cbn; [discriminate|].
  repeat branch; try discriminate.
  intros [= <-]. cbn. rewrite Es. reflexivity.
Qed.

(** Splitting a conjunction, and nothing else. *)
Ltac conjs := repeat match goal with |- _ /\ _ => split end.

Lemma has_branch_plain (k : string) (b : list (string * list ThoughtData)) :
  Forall (fun x => inherited (fst x) = false) b ->
  has_branch k b = true -> inherited k = false.
Proof.
  induction 1 as [|[k' l] b Hx _ IH]; cbn; [discriminate|].
  destruct (String.eqb k' k) eqn:E; [|exact IH].
  apply String.eqb_eq in E. subst k'. intros _. exact Hx.
Qed.

Lemma push_branch_plain (k : string) (t : ThoughtData)
  (b : list (string * list ThoughtData)) :
  Forall (fun x => inherited (fst x) = false) b ->
  Forall (fun x => inherited (fst x) = false) (push_branch k t b).
Proof.
  induction 1 as [|[k' l] b Hx Hb IH]; cbn; [constructor|].
  destruct (String.eqb k' k); constructor; assumption.
Qed.

Lemma appends_text (c : Js.Value * Js.Value) (x : ThoughtData) :
  appends c = Some x -> Js.truthy (Js.Text (thought x)) = true.
Proof.
  unfold appends.
  destruct (validateThoughtData (fst c)) as [v|e] eqn:Hv; [|discriminate].
  destruct (negb (Js.truthy (snd c)) || Js.is_string (snd c)); [|discriminate].
  intros [= <-]. destruct (widened_fields v) as [-> _].
  exact (validated_text (fst c) v Hv).
Qed.

(** The branch bookkeeping changes the branches only; it goes through when
    [records_branch] says so, as long as no branch has an inherited name,
    and changes nothing when it throws. *)
Lemma recordBranch_run (t : ThoughtData) (p : Process) :
  plain_branches (thinkingServer p) ->
  thoughtHistory (thinkingServer (snd (recordBranch t p)))
  = thoughtHistory (thinkingServer p)
  /\ currentSessionId (thinkingServer (snd (recordBranch t p)))
     = currentSessionId (thinkingServer p)
  /\ recallIntegration (snd (recordBranch t p)) = recallIntegration p
  /\ world (snd (recordBranch t p)) = world p
  /\ plain_branches (thinkingServer (snd (recordBranch t p)))
  /\ (if records_branch t
      then fst (recordBranch t p) = Returned tt
      else exists e, recordBranch t p = (Thrown e, p)).
Proof.
  destruct p as [[h b cq id] g w]. unfold plain_branches. cbn. intros Hplain.
  unfold recordBranch, records_branch, propertyKey, interpolate, lift, bind,
    read, update, ret, throw.
  destruct (Js.truthy (branchFromThought t) && Js.truthy (branchId t)); cbn;
    [|conjs; try reflexivity; exact Hplain].
  destruct (Js.toString (branchId t)) as [k|]; cbn.
  - destruct (has_branch k b) eqn:Hb; cbn.
    + rewrite (has_branch_plain k b Hplain Hb). cbn.
      conjs; try reflexivity. apply push_branch_plain. exact Hplain.
    + destruct (inherited k) eqn:Hi; cbn.
      * conjs; try reflexivity; try exact Hplain. eexists. reflexivity.
      * conjs; try reflexivity.
        apply Forall_app. split; [exact Hplain|].
        constructor; [exact Hi | constructor].
  - conjs; try reflexivity; try exact Hplain. eexists. reflexivity.
Qed.

(** [appendThought] on a step whose query passes: the step is pushed; the
    call returns it when the branch bookkeeping goes through and throws when
    it does not, the step being on the history either way. *)
Lemma appendThought_pushed (v : ThoughtData) (q : Js.Value) (p : Process) :
  Js.truthy q && negb (Js.truthy (currentQuery (thinkingServer p)))
  && negb (Js.is_string q) = false ->
  plain_branches (thinkingServer p) ->
  thoughtHistory (thinkingServer (snd (appendThought v q p)))
  = (thoughtHistory (thinkingServer p) ++ [widened v])%list
  /\ currentSessionId (thinkingServer (snd (appendThought v q p)))
     = currentSessionId (thinkingServer p)
  /\ recallIntegration (snd (appendThought v q p)) = recallIntegration p
  /\ world (snd (appendThought v q p)) = world p
  /\ plain_branches (thinkingServer (snd (appendThought v q p)))
  /\ (if records_branch (widened v)
      then fst (appendThought v q p) = Returned (widened v)
      else (exists e, fst (appendThought v q p) = Thrown e)
           /\ branches (thinkingServer (snd (appendThought v q p)))
              = branches (thinkingServer p)).
Proof.
  intros Hq Hplain. destruct p as [[h b cq id] g w].
  unfold appendThought, bind, read, update, ret, throw.
  fold (widened v). cbn [thinkingServer currentQuery] in *.
  assert (Hrun : forall st,
            plain_branches (thinkingServer st) ->
            thoughtHistory (thinkingServer st) = (h ++ [widened v])%list ->
            currentSessionId (thinkingServer st) = id ->
            branches (thinkingServer st) = b ->
            recallIntegration st = g -> world st = w ->
            let r := (let (o, p') := recordBranch (widened v) st in
                      match o with
                      | Returned _ => (Returned (widened v), p')
                      | Thrown e => (Thrown e, p')
                      end) in
            thoughtHistory (thinkingServer (snd r)) = (h ++ [widened v])%list
            /\ currentSessionId (thinkingServer (snd r)) = id
            /\ recallIntegration (snd r) = g
            /\ world (snd r) = w
            /\ plain_branches (thinkingServer (snd r))
            /\ (if records_branch (widened v)
                then fst r = Returned (widened v)
                else (exists e, fst r = Thrown e)
                     /\ branches (thinkingServer (snd r)) = b)).
  { intros st Hp Hh Hid Hbr Hg Hw.
    destruct (recordBranch_run (widened v) st Hp)
      as [Hh' [Hid' [Hg' [Hw' [Hp' Hf]]]]].
    destruct (records_branch (widened v)).
    - destruct (recordBranch (widened v) st) as [[u|e] p2]; cbn in *;
        [|discriminate].
      rewrite Hh', Hid', Hg', Hw'. conjs; auto.
    - destruct Hf as [e ->]. cbn. conjs; auto. eexists. reflexivity. }
  destruct (Js.truthy q); destruct (Js.is_string q);
    destruct (Js.truthy cq); try discriminate; cbn [andb negb];
    cbv beta iota; apply Hrun; try reflexivity; exact Hplain.
Qed.

(** A call that [appends] is validated, and [appendThought] pushes its
    step. *)
Lemma appends_pushed (c : Js.Value * Js.Value) (x : ThoughtData)
  (p : Process) :
  appends c = Some x ->
  plain_branches (thinkingServer p) ->
  exists v,
    validateThoughtData (fst c) = Returned v
    /\ x = widened v
    /\ thoughtHistory (thinkingServer (snd (appendThought v (snd c) p)))
       = (thoughtHistory (thinkingServer p) ++ [x])%list
    /\ currentSessionId (thinkingServer (snd (appendThought v (snd c) p)))
       = currentSessionId (thinkingServer p)
    /\ recallIntegration (snd (appendThought v (snd c) p))
       = recallIntegration p
    /\ world (snd (appendThought v (snd c) p)) = world p
    /\ plain_branches (thinkingServer (snd (appendThought v (snd c) p)))
    /\ (if records_branch x
        then fst (appendThought v (snd c) p) = Returned x
        else exists e, fst (appendThought v (snd c) p) = Thrown e).
Proof.
  unfold appends. destruct c as [input q]. cbn [fst snd].
  destruct (validateThoughtData input) as [v|e] eqn:Hv; [|discriminate].
  destruct (negb (Js.truthy q) || Js.is_string q) eqn:Hq; [|discriminate].
  intros [= <-] Hplain. exists v. split; [reflexivity|]. split; [reflexivity|].
  assert (Hq' : Js.truthy q
                && negb (Js.truthy (currentQuery (thinkingServer p)))
                && negb (Js.is_string q) = false).
  { destruct (Js.truthy q); destruct (Js.is_string q);
      destruct (Js.truthy (currentQuery (thinkingServer p)));
      cbn in *; congruence. }
  destruct (appendThought_pushed v q p Hq' Hplain)
    as [Hh [Hid [Hg [Hw [Hp Hf]]]]].
  conjs; auto.
  destruct (records_branch (widened v)); [exact Hf | exact (proj1 Hf)].
Qed.

(** A call that pushes a step without reaching the store changes nothing
    else: the step asks for more, or the call is refused after the push. *)
Lemma step_pushes (c : Js.Value * Js.Value) (x : ThoughtData) (p : Process) :
  appends c = Some x ->
  nextThoughtNeeded x = true \/ completes x = false ->
  plain_branches (thinkingServer p) ->
  let p' := snd (processThought (fst c) (snd c) p) in
  thoughtHistory (thinkingServer p')
  = (thoughtHistory (thinkingServer p) ++ [x])%list
  /\ currentSessionId (thinkingServer p') = currentSessionId (thinkingServer p)
  /\ recallIntegration p' = recallIntegration p
  /\ world p' = world p
  /\ plain_branches (thinkingServer p').
Proof.
  intros Hc Hx Hplain p'.
  destruct (appends_pushed c x p Hc Hplain)
    as [v [Hv [_ [Hh [Hid [Hg [Hw [Hpl Hfst]]]]]]]].
  assert (E : p' = snd (appendThought v (snd c) p)).
  { unfold p', processThought, try_catch, lift. unfold bind at 1. rewrite Hv.
    unfold bind at 1.
    destruct (appendThought v (snd c) p) as [[t|e] p1]; cbn [fst snd] in *;
      [|reflexivity].
    assert (Ht : t = x /\ records_branch x = true).
    { destruct (records_branch x); [|destruct Hfst; discriminate].
      injection Hfst as ->. split; reflexivity. }
    destruct Ht as [-> Hr].
    unfold bind at 1. unfold completes in Hx. rewrite Hr in Hx.
    cbn [andb] in Hx.
    destruct (formatThought x) as [u|e]; [|reflexivity].
    destruct Hx as [Hx | Hx]; [|discriminate].
    unfold bind, finishThought. rewrite Hx. cbn [negb]. unfold ret at 1.
    destruct (respond_run x None p1) as [r [-> _]]. reflexivity. }
  rewrite E. conjs; assumption.
Qed.

(** A call that [completes] goes through the first half. *)
Lemma completes_run (c : Js.Value * Js.Value) (x : ThoughtData) (p : Process) :
  appends c = Some x ->
  completes x = true ->
  plain_branches (thinkingServer p) ->
  exists v p1,
    validateThoughtData (fst c) = Returned v
    /\ appendThought v (snd c) p = (Returned x, p1)
    /\ formatThought x = Returned tt.
Proof.
  intros Hc Hx Hplain.
  destruct (appends_pushed c x p Hc Hplain) as [v [Hv [_ [_ [_ [_ [_ [_ H]]]]]]]].
  unfold completes in Hx. apply andb_true_iff in Hx. destruct Hx as [Hr Hf].
  rewrite Hr in H.
  exists v, (snd (appendThought v (snd c) p)).
  split; [exact Hv|]. split.
  - destruct (appendThought v (snd c) p) as [o p1]. cbn in H |- *.
    rewrite H. reflexivity.
  - destruct (formatThought x) as [[]|e]; [reflexivity | discriminate].
Qed.

(** Steps that do not reach the store accumulate in arrival order; the
    gateway and the world are left alone and the session keeps its
    identifier. *)
Lemma processAll_accumulates (steps : list (Js.Value * Js.Value))
  (ts : list ThoughtData) :
  forall p,
    plain_branches (thinkingServer p) ->
    Forall2 (fun c x => appends c = Some x
                        /\ (nextThoughtNeeded x = true \/ completes x = false))
      steps ts ->
    thoughtHistory (thinkingServer (processAll steps p))
    = (thoughtHistory (thinkingServer p) ++ ts)%list
    /\ currentSessionId (thinkingServer (processAll steps p))
       = currentSessionId (thinkingServer p)
    /\ recallIntegration (processAll steps p) = recallIntegration p
    /\ world (processAll steps p) = world p
    /\ plain_branches (thinkingServer (processAll steps p)).
Proof.
  revert ts. induction steps as [|c steps IH]; intros ts p Hplain H.
  - inversion H; subst. rewrite app_nil_r. repeat split; auto.
  - inversion H as [|c' x steps' ts' [Hc Hx] Hrest]; subst.
    destruct (step_pushes c x p Hc Hx Hplain) as [Hh [Hid [Hg [Hw Hpl]]]].
    cbn [processAll].
    destruct (IH ts' _ Hpl Hrest) as [Hh' [Hid' [Hg' [Hw' Hpl']]]].
    rewrite Hh', Hid', Hg', Hw', Hh, Hid, Hg, Hw, <- app_assoc.
    repeat split; auto.
Qed.

Lemma steps_texts (steps : list (Js.Value * Js.Value)) (ts : list ThoughtData)
  (P : ThoughtData -> Prop) :
  Forall2 (fun c x => appends c = Some x /\ P x) steps ts ->
  Forall (fun x => Js.truthy (Js.Text (thought x)) = true) ts.
Proof.
  induction 1 as [|c x cs xs [Hc _] _ IH]; constructor; [|exact IH].
  exact (appends_text c x Hc).
Qed.

Lemma processAll_app (a b : list (Js.Value * Js.Value)) (p : Process) :
  processAll (a ++ b) p = processAll b (processAll a p).
Proof. revert p; induction a as [|c a IH]; intros p; cbn; auto. Qed.

(** The objects of a session whose texts are not empty go through the
    gateway with their nine fields, and no placeholder is needed. *)
Lemma enhancedThoughts_records (pf : Platform) (id : string)
  (qi : option QueryInfo) (xs : list ThoughtData) :
  Forall (fun x => Js.truthy (Js.Text (thought x)) = true) xs ->
  forall t0 i,
    Forall2 records (enhancedThoughts pf t0 i (map (thoughtToStore id) xs) qi) xs
    /\ forall k, validatedThoughts k
                   (enhancedThoughts pf t0 i (map (thoughtToStore id) xs) qi)
                 = enhancedThoughts pf t0 i (map (thoughtToStore id) xs) qi.
Proof.
  induction 1 as [|x xs Hx _ IH]; intros t0 i.
  - split; [constructor | reflexivity].
  - destruct (IH (S (S t0)) (S i)) as [IH1 IH2].
    cbn [map enhancedThoughts validatedThoughts].
    change (Js.get "thought" (thoughtToStore id x)) with (Js.Text (thought x)).
    rewrite Hx. cbn [negb]. split.
    + constructor; [|exact IH1]. repeat split; reflexivity.
    + intros k. rewrite IH2.
      change (Js.get "thought"
                (enhanced (thoughtToStore id x) (Js.Text (thought x))
                   (Date_now pf t0) (toISOString pf (Date_now pf (S t0))) qi))
        with (Js.Text (thought x)).
      rewrite Hx. reflexivity.
Qed.

(** A session from its first step to its flush: the write that the last
    step issues, and the batch it holds. *)
Lemma session_flush (p : Process)
  (steps : list (Js.Value * Js.Value)) (last : Js.Value * Js.Value)
  (ts : list ThoughtData) (t : ThoughtData) :
  serves p = true ->
  empty_session (thinkingServer p) ->
  Forall2 (fun c x => appends c = Some x
                      /\ (nextThoughtNeeded x = true \/ completes x = false))
    steps ts ->
  appends last = Some t ->
  nextThoughtNeeded t = false ->
  completes t = true ->
  exists bucket key batch,
    writes (calls (world (processAll (steps ++ [last]) p)))
    = (writes (calls (world p)) ++ [(bucket, key, jsonlData batch)])%list
    /\ length batch = length steps + 1
    /\ Forall2 records batch (ts ++ [t]).
Proof.
  intros S [Hempty Hnob] Hsteps Hlast Hn Hcomp.
  assert (Hplain : plain_branches (thinkingServer p))
    by (unfold plain_branches; rewrite Hnob; constructor).
  destruct (processAll_accumulates steps ts p Hplain Hsteps)
    as [Hh [_ [Hg [Hw Hpl]]]].
  rewrite Hempty in Hh. cbn [app] in Hh.
  set (p0 := processAll steps p) in *.
  destruct (serves_session p p0 Hg Hw) as [S0 _]. rewrite S in S0.
  destruct (completes_run last t p0 Hlast Hcomp Hpl) as [v [p1 [Hv [Ha Hf]]]].
  destruct (appendThought_returned v t (snd last) p0 p1 Ha)
    as [Ht [Hh1 _]].
  assert (Hnv : nextThoughtNeeded v = false)
    by (destruct (widened_fields v) as [_ <-]; rewrite <- Ht; exact Hn).
  destruct (terminal_step_run (fst last) (snd last) v t p0 p1 Hv Hnv Ha Hf S0)
    as [E [Hww Hb]].
  assert (Hall : Forall (fun x => Js.truthy (Js.Text (thought x)) = true)
                   (ts ++ [t])).
  { apply Forall_app. split; [exact (steps_texts steps ts _ Hsteps)|].
    constructor; [exact (appends_text last t Hlast) | constructor]. }
  rewrite Hh in Hh1.
  destruct (enhancedThoughts_records (platform (world p0))
              (currentSessionId (thinkingServer p1)) (session_info p1)
              (ts ++ [t]) Hall (ticks (world p0)) 0) as [Hrec Hval].
  unfold session_batch in Hb. rewrite Hh1 in Hb.
  exists (bucketAddress (recallIntegration (flushing p1))),
    (store_key (flushing p1)),
    (currentSessionThoughts (recallIntegration (flushing p1))).
  rewrite processAll_app. fold p0. cbn [processAll]. rewrite E.
  split; [|split].
  - rewrite <- Hw.
    replace (jsonlData (currentSessionThoughts
                          (recallIntegration (flushing p1))))
      with (store_data (flushing p1))
      by (unfold store_data; rewrite Hb, Hval; reflexivity).
    destruct (accepted (store_reply (flushing p1))); exact Hww.
  - rewrite Hb, enhancedThoughts_length, length_map, length_app.
    rewrite (Forall2_length Hsteps). reflexivity.
  - rewrite Hb. exact Hrec.
Qed.

(** C3.  Valid steps are appended to an empty session one after the other,
    whatever their index values: every call whose arguments validate and
    whose query is absent or a string, and that does not itself reach the
    store (its step asks for more, or the call is refused after the push).
    The last call completes with [nextThoughtNeeded = false], on a gateway
    that is Ready or becomes Ready.  Then the flush at the last step writes
    one record whose lines are, in arrival order, the appended steps and
    nothing else: as many lines as steps, the line at each position carrying
    the nine fields of the step at that position. *)
Theorem flushed_batch_in_arrival_order (p : Process)
  (steps : list (Js.Value * Js.Value)) (last : Js.Value * Js.Value)
  (ts : list ThoughtData) (t : ThoughtData) :
  serves p = true ->
  empty_session (thinkingServer p) ->
  Forall2 (fun c x => appends c = Some x
                      /\ (nextThoughtNeeded x = true \/ completes x = false))
    steps ts ->
  appends last = Some t ->
  nextThoughtNeeded t = false ->
  completes t = true ->
  exists bucket key data batch,
    writes (calls (world (processAll (steps ++ [last]) p)))
    = (writes (calls (world p)) ++ [(bucket, key, data)])%list
    /\ Str.split Str.newline data
       = map (fun o => Js.stringify (Js.Obj o)) batch
    /\ Forall2 records batch (ts ++ [t]).
Proof.
  intros S He Hsteps Hlast Hn Hcomp.
  destruct (session_flush p steps last ts t S He Hsteps Hlast Hn Hcomp)
    as [bucket [key [batch [W [Hl R]]]]].
  exists bucket, key, (jsonlData batch), batch.
  split; [exact W|]. split; [|exact R].
  apply jsonlData_lines. intros H. rewrite H in Hl. cbn in Hl. lia.
Qed.

(** The theorem at a session of four calls: steps A (1 of 3) and B (2 of 3),
    a step R that is pushed and then refused (it is marked as a revision of
    a thought that has no text), and the last step C (4 of 3). *)
Lemma flushed_batch_in_arrival_order_witness :
  exists bucket key data batch,
    writes (calls (world (processAll
                            ([(Demo.call "A" 1 3 true, Js.Undefined);
                              (Demo.call "B" 2 3 true, Js.Undefined);
                              (Demo.revising, Js.Undefined)]
                               ++ [(Demo.call "C" 4 3 false, Js.Undefined)])
                            (Demo.boot Demo.confirmed))))
    = ([] ++ [(bucket, key, data)])%list
    /\ Str.split Str.newline data
       = map (fun o => Js.stringify (Js.Obj o)) batch
    /\ Forall2 records batch
         ([Demo.step "A" 1 3 true; Demo.step "B" 2 3 true; Demo.revised]
            ++ [Demo.step "C" 4 4 false]).
Proof.
  apply (flushed_batch_in_arrival_order (Demo.boot Demo.confirmed)
           [(Demo.call "A" 1 3 true, Js.Undefined);
            (Demo.call "B" 2 3 true, Js.Undefined);
            (Demo.revising, Js.Undefined)]
           (Demo.call "C" 4 3 false, Js.Undefined)
           [Demo.step "A" 1 3 true; Demo.step "B" 2 3 true; Demo.revised]
           (Demo.step "C" 4 4 false)).
  - reflexivity.
  - split; reflexivity.
  - repeat constructor; first [left; reflexivity | right; reflexivity].
  - reflexivity.
  - reflexivity.
  - reflexivity.
Defined.

(* ================================================================== *)
(** * The tool-call handler *)
(* ================================================================== *)

Section Handler.

Context {A : Type} (P : A -> Prop).

Lemma ensures_ret (a : A) : P a -> ensures (ret a) P.
Proof. intros H p a' p' E. injection E as <- _. exact H. Qed.

Lemma ensures_throw (e : string) : ensures (throw e) P.
Proof. intros p a p' E. discriminate. Qed.

Lemma ensures_bind {B : Type} (c : M B) (k : B -> M A) :
  (forall b, ensures (k b) P) -> ensures (bind c k) P.
Proof.
  intros H p a p'. unfold bind. destruct (c p) as [[b|e] p1]; [|discriminate].
  apply H.
Qed.

Lemma yields_ret (a : A) : P a -> yields (ret a) P.
Proof. intros H p. exists a, p. split; [reflexivity | exact H]. Qed.

Lemma yields_ensures (c : M A) : yields c P -> ensures c P.
Proof.
  intros H p a p' E. destruct (H p) as [a' [p1 [E' Ha]]].
  rewrite E in E'. injection E' as -> _. exact Ha.
Qed.

(** A [try] whose [catch] returns always returns. *)
Lemma yields_try_catch (body : M A) (handler : string -> M A) :
  ensures body P -> (forall e, yields (handler e) P) ->
  yields (try_catch body handler) P.
Proof.
  intros Hb Hh p. unfold try_catch.
  destruct (body p) as [[a|e] p1] eqn:E.
  - exists a, p1. split; [reflexivity | exact (Hb p a p1 E)].
  - apply Hh.
Qed.

End Handler.

Lemma processThought_flagged (request : Request) (input q : Js.Value) :
  yields (processThought input q) (flagged request).
Proof.
  apply yields_try_catch; [|intros e; apply yields_ret; reflexivity].
  do 4 (apply ensures_bind; intros ?).
  unfold respond. do 3 (apply ensures_bind; intros ?).
  apply ensures_ret. reflexivity.
Qed.

Lemma callRecallStatus_flagged (request : Request) :
  name request = "recallstatus" ->
  yields callRecallStatus (flagged request).
Proof.
  intros Hname.
  apply yields_try_catch;
    [|intros e; apply yields_ret; split; [reflexivity | exact Hname]].
  do 2 (apply ensures_bind; intros ?). apply ensures_ret. reflexivity.
Qed.

Lemma callListSessions_flagged (request : Request) (args : Js.Value) :
  yields (callListSessions args) (flagged request).
Proof.
  apply yields_try_catch; [|intros e; apply yields_ret; reflexivity].
  do 4 (apply ensures_bind; intros ?). apply ensures_ret. reflexivity.
Qed.

Lemma callGetSession_flagged (request : Request) (args : Js.Value) :
  yields (callGetSession args) (flagged request).
Proof.
  apply yields_try_catch; [|intros e; apply yields_ret; reflexivity].
  do 4 (apply ensures_bind; intros ?).
  match goal with
  | |- ensures (match ?x with _ => _ end) _ => destruct x
  end.
  - apply ensures_bind; intros ?. apply ensures_ret. reflexivity.
  - apply ensures_throw.
Qed.

(** For every tool call and every input the handler returns a result and
    never throws: every branch catches its errors.  The error flag is set on
    every error payload but one, the error payload of the status check. *)
Lemma callTool_answers (request : Request) (p : Process) :
  exists r p', callTool request p = (Returned r, p') /\ flagged request r.
Proof.
  revert p. change (yields (callTool request) (flagged request)).
  apply yields_try_catch; [|intros e; apply yields_ret; reflexivity].
  destruct (String.eqb (name request) "sequentialthinking").
  { unfold callSequentialThinking. do 5 (apply ensures_bind; intros ?).
    apply yields_ensures, processThought_flagged. }
  destruct (String.eqb (name request) "recallstatus") eqn:E.
  { apply yields_ensures, callRecallStatus_flagged.
    apply String.eqb_eq. exact E. }
  destruct (String.eqb (name request) "listsessions").
  { apply yields_ensures, callListSessions_flagged. }
  destruct (String.eqb (name request) "getsession").
  { apply yields_ensures, callGetSession_flagged. }
  apply ensures_ret. reflexivity.
Qed.

(** C6.  The claim fails on the status check, and only there.  While the
    bucket cannot be resolved, the catch of the [recallstatus] branch
    answers with an error payload whose error flag is not set; from the same
    state and for the same failure, the catches of the [listsessions] and
    [getsession] branches set it, as the catch of [processThought] and the
    outer catch of the handler do for their errors. *)
Theorem recallstatus_failure_is_not_flagged :
  fst (callTool Demo.statusCheck (Demo.boot Demo.offline))
  = Returned {| content := StatusError "fetch failed"; isError := false |}
  /\ fst (callTool {| name := "listsessions"; arguments := Js.Obj [] |}
            (Demo.boot Demo.offline))
     = Returned {| content := Failure "fetch failed"; isError := true |}
  /\ fst (callTool {| name := "getsession";
                      arguments := Js.Obj [("key", Js.Text "k")] |}
            (Demo.boot Demo.offline))
     = Returned {| content := Failure "fetch failed"; isError := true |}
  /\ fst (callTool {| name := "sequentialthinking";
                      arguments := Demo.call "A" 0 3 true |}
            (Demo.boot Demo.offline))
     = Returned {| content := Failure "Invalid thoughtNumber: must be a number";
                   isError := true |}
  /\ fst (callTool {| name := "sequentialthinking";
                      arguments := Js.Undefined |}
            (Demo.boot Demo.offline))
     = Returned
         {| content :=
              Plain ("Error processing request: "
                       ++ "Cannot read properties of undefined "
                       ++ "(reading 'thoughtNumber')");
            isError := true |}.
Proof. repeat split; reflexivity. Qed.

(* ================================================================== *)
(** * Footprints *)
(* ================================================================== *)

Section Footprint.

Variable ok : Effect -> Process -> bool.

Lemma reaches_trans (p q r : Process) :
  reaches ok p q -> reaches ok q r -> reaches ok p r.
Proof.
  induction 1 as [p|e p q H _ IH]; intros Hr; [exact Hr|].
  apply (reaches_next ok e p r H). apply IH. exact Hr.
Qed.

Lemma reaches_one (e : Effect) (p : Process) :
  ok e p = true -> reaches ok p (perform e p).
Proof. intros H. apply (reaches_next ok e p _ H). apply reaches_here. Qed.

Context {A : Type}.

Lemma confined_ret (a : A) : confined ok (ret a).
Proof. intros p. apply reaches_here. Qed.

Lemma confined_throw (e : string) : confined ok (@throw A e).
Proof. intros p. apply reaches_here. Qed.

Lemma confined_read (f : Process -> A) : confined ok (read f).
Proof. intros p. apply reaches_here. Qed.

Lemma confined_lift (o : Outcome A) : confined ok (lift o).
Proof. intros p. apply reaches_here. Qed.

Lemma confined_bind {B : Type} (c : M B) (k : B -> M A) :
  confined ok c -> (forall b, confined ok (k b)) -> confined ok (bind c k).
Proof.
  intros Hc Hk p. unfold bind. specialize (Hc p).
  destruct (c p) as [[b|e] p1]; cbn [snd] in *; [|exact Hc].
  apply (reaches_trans p p1 _ Hc). apply Hk.
Qed.

Lemma confined_try_catch (body : M A) (handler : string -> M A) :
  confined ok body -> (forall e, confined ok (handler e)) ->
  confined ok (try_catch body handler).
Proof.
  intros Hb Hh p. unfold try_catch. specialize (Hb p).
  destruct (body p) as [[a|e] p1]; cbn [snd] in *; [exact Hb|].
  apply (reaches_trans p p1 _ Hb). apply Hh.
Qed.

Lemma confined_await (c : Call) (reply : Platform -> nat -> Reply A) :
  (forall p, ok (Issue c) p = true) -> confined ok (await c reply).
Proof.
  intros H p. unfold await.
  destruct (reply _ _); apply (reaches_one (Issue c)), H.
Qed.

Lemma confined_await_timed (c : Call) (reply : Platform -> nat -> Timed A)
  (late : string) :
  (forall p, ok (Issue c) p = true) -> confined ok (await_timed c reply late).
Proof.
  intros H p. unfold await_timed.
  destruct (reply _ _) as [[a|e]|]; apply (reaches_one (Issue c)), H.
Qed.

End Footprint.

Lemma confined_update (ok : Effect -> Process -> bool) (e : Effect)
  (f : Process -> Process) :
  (forall p, f p = perform e p) -> (forall p, ok e p = true) ->
  confined ok (update f).
Proof.
  intros Hf He p. unfold update. cbn [snd]. rewrite Hf.
  apply reaches_one, He.
Qed.

Lemma reaches_weaken (ok ok' : Effect -> Process -> bool) (p q : Process) :
  (forall e r, ok e r = true -> ok' e r = true) ->
  reaches ok p q -> reaches ok' p q.
Proof.
  intros H. induction 1 as [p|e p q He _ IH]; [apply reaches_here|].
  apply (reaches_next ok' e p q (H e p He) IH).
Qed.

Lemma reading_storing (e : Effect) (p : Process) :
  reading e p = true -> storing e p = true.
Proof.
  destruct e; cbn; try discriminate; auto.
  intros ->. apply orb_true_r.
Qed.

Lemma storing_serving (e : Effect) (p : Process) :
  storing e p = true -> serving e p = true.
Proof. destruct e; cbn; auto. Qed.

(** Bucket resolution, from any state: the calls that resolve the bucket and
    the assignment of the address happen only while the gateway is not
    Ready. *)
Lemma initializeBucket_confined : confined reading initializeBucket.
Proof.
  intros [s [a i al pr th] [pf t d cs]].
  unfold initializeBucket, getOrCreateBucket, bind, read, update, await_timed,
    ret, throw; cbn.
  destruct (i && address_set a) eqn:R; cbn; [apply reaches_here|].
  assert (H1 : forall w c,
             resolves c = true ->
             reading (Issue c)
               {| thinkingServer := s;
                  recallIntegration :=
                    {| bucketAddress := a; initialized := i; bucketAlias := al;
                       logPrefix := pr; currentSessionThoughts := th |};
                  world := w |} = true)
    by (intros w c Hc; cbn; unfold ready; cbn; rewrite Hc, R; reflexivity).
  assert (H2 : forall w a',
             reading (SetBucket a')
               {| thinkingServer := s;
                  recallIntegration :=
                    {| bucketAddress := a; initialized := i; bucketAlias := al;
                       logPrefix := pr; currentSessionThoughts := th |};
                  world := w |} = true)
    by (intros w a'; cbn; unfold ready; cbn; rewrite R; reflexivity).
  destruct (list_reply pf (length cs)) as [[buckets|e]|]; cbn;
    try (apply (reaches_one reading (Issue ListBuckets)), H1; reflexivity).
  apply (reaches_next reading (Issue ListBuckets) _ _
           (H1 _ ListBuckets eq_refl)); cbn.
  destruct (match buckets with
            | Some result0 => find (has_alias al) result0
            | None => None
            end); cbn.
  { apply (reaches_one reading (SetBucket _)), H2. }
  apply (reaches_next reading (Issue (CreateBucket al)) _ _
           (H1 _ (CreateBucket al) eq_refl)); cbn.
  destruct (create_reply pf _) as [[[a'|]|e]|]; cbn;
    try apply reaches_here.
  apply (reaches_one reading (SetBucket _)), H2.
Qed.

Lemma ensureInitialized_confined : confined reading ensureInitialized.
Proof.
  unfold ensureInitialized. apply confined_bind; [apply confined_read|].
  intros g. destruct (_ || _);
    [apply initializeBucket_confined | apply confined_ret].
Qed.

Lemma confined_weaken (ok ok' : Effect -> Process -> bool) {A : Type} (c : M A) :
  (forall e r, ok e r = true -> ok' e r = true) ->
  confined ok c -> confined ok' c.
Proof. intros H Hc p. apply (reaches_weaken ok ok' _ _ H), Hc. Qed.

Lemma confined_change (ok : Effect -> Process -> bool)
  (e : Process -> Effect) (f : Process -> Process) :
  (forall p, f p = perform (e p) p) -> (forall p, ok (e p) p = true) ->
  confined ok (update f).
Proof.
  intros Hf He p. unfold update. cbn [snd]. rewrite Hf.
  apply reaches_one, He.
Qed.

Lemma confined_now (ok : Effect -> Process -> bool) :
  (forall p, ok Tick p = true) -> confined ok now /\ confined ok isoNow.
Proof. intros H. split; intros p; apply (reaches_one ok Tick), H. Qed.

Create HintDb footprint.

(** Structural steps of a footprint proof. *)
Ltac confine :=
  repeat first
    [ solve [auto with footprint]
    | apply confined_ret | apply confined_throw | apply confined_read
    | apply confined_lift
    | apply confined_bind; [|intros ?]
    | apply confined_try_catch; [|intros ?]
    | match goal with
      | |- confined _ (if ?c then _ else _) => destruct c
      | |- confined _ (match ?x with _ => _ end) => destruct x
      end ].

#[local] Hint Resolve initializeBucket_confined ensureInitialized_confined
  : footprint.

Lemma getStatusInfo_confined (ok : Effect -> Process -> bool) :
  confined ok getStatusInfo /\ confined ok isInitialized.
Proof. split; unfold getStatusInfo, isInitialized; confine. Qed.

Lemma query_confined (b : option string) :
  confined reading (await (QueryObjects b) query_reply).
Proof. apply confined_await. reflexivity. Qed.

Lemma fetch_confined (b : option string) (k : string) :
  confined reading (await (GetObject b k) get_reply).
Proof. apply confined_await. reflexivity. Qed.

#[local] Hint Resolve query_confined fetch_confined : footprint.
#[local] Hint Extern 1 (confined _ getStatusInfo) =>
  apply getStatusInfo_confined : footprint.
#[local] Hint Extern 1 (confined _ isInitialized) =>
  apply getStatusInfo_confined : footprint.

Lemma listBucketObjects_confined : confined reading listBucketObjects.
Proof. unfold listBucketObjects. confine. Qed.

Lemma listAllSessionObjects_confined : confined reading listAllSessionObjects.
Proof. unfold listAllSessionObjects. confine. Qed.

Lemma getObjectContent_confined (k : string) :
  confined reading (getObjectContent k).
Proof. unfold getObjectContent. confine. Qed.

#[local] Hint Resolve getObjectContent_confined : footprint.

Lemma getSessionObject_confined (k : string) :
  confined reading (getSessionObject k).
Proof. unfold getSessionObject. confine. Qed.

Lemma forceInitialize_confined : confined reading forceInitialize.
Proof. unfold forceInitialize. confine. Qed.

#[local] Hint Resolve listAllSessionObjects_confined getSessionObject_confined
  forceInitialize_confined : footprint.

Lemma callRecallStatus_confined : confined reading callRecallStatus.
Proof. unfold callRecallStatus. confine. Qed.

Lemma callListSessions_confined (args : Js.Value) :
  confined reading (callListSessions args).
Proof. unfold callListSessions. confine. Qed.

Lemma callGetSession_confined (args : Js.Value) :
  confined reading (callGetSession args).
Proof. unfold callGetSession, keyText. confine. Qed.

(** The store operations. *)
Lemma ensureInitialized_storing : confined storing ensureInitialized.
Proof.
  apply (confined_weaken reading storing _ reading_storing).
  apply ensureInitialized_confined.
Qed.

#[local] Hint Resolve ensureInitialized_storing : footprint.

Lemma storeSessionJSONL_confined : confined storing storeSessionJSONL.
Proof.
  unfold storeSessionJSONL.
  destruct (confined_now storing (fun _ => eq_refl)) as [Hnow _].
  assert (Hadd : forall b k d,
             confined storing
               (await_timed (AddObject b k d) add_reply
                  (timeout_message "Session storage" 20000)))
    by (intros; apply confined_await_timed; reflexivity).
  assert (Hclear : confined storing (update (with_recall (set_thoughts []))))
    by (apply (confined_change storing (fun _ => SetThoughts []));
        reflexivity).
  confine.
Qed.

Lemma enhance_confined (l : list Js.Object) :
  forall i qi, confined storing (enhance i l qi).
Proof.
  destruct (confined_now storing (fun _ => eq_refl)) as [Hnow Hiso].
  induction l as [|x l IH]; intros i qi; cbn [enhance]; confine.
Qed.

#[local] Hint Resolve storeSessionJSONL_confined enhance_confined : footprint.

Lemma storeSession_confined (thoughts : list Js.Object)
  (qi : option QueryInfo) :
  confined storing (storeSession thoughts qi).
Proof.
  unfold storeSession.
  assert (Hset : forall l,
             confined storing (update (with_recall (set_thoughts l))))
    by (intros l; apply (confined_change storing (fun _ => SetThoughts l));
        reflexivity).
  confine.
Qed.

#[local] Hint Resolve storeSession_confined : footprint.

Lemma storeSessionToRecall_confined : confined storing storeSessionToRecall.
Proof. unfold storeSessionToRecall. confine. Qed.

(** The server. *)
Lemma server_update_confined
  (f : SequentialThinkingServer -> SequentialThinkingServer) :
  confined serving (update (with_server f)).
Proof.
  apply (confined_change serving (fun p => SetServer (f (thinkingServer p))));
    reflexivity.
Qed.

#[local] Hint Resolve server_update_confined : footprint.

Lemma clearSession_confined : confined serving clearSession.
Proof.
  unfold clearSession, generateNewSessionId.
  destruct (confined_now serving (fun _ => eq_refl)) as [Hnow _].
  assert (Hdraw : confined serving random_10000)
    by (intros p; apply (reaches_one serving Draw); reflexivity).
  confine.
Qed.

Lemma storeSessionToRecall_serving : confined serving storeSessionToRecall.
Proof.
  apply (confined_weaken storing serving _ storing_serving).
  apply storeSessionToRecall_confined.
Qed.

#[local] Hint Resolve clearSession_confined storeSessionToRecall_serving
  : footprint.

Lemma processThought_confined (input q : Js.Value) :
  confined serving (processThought input q).
Proof.
  unfold processThought, appendThought, recordBranch, finishThought, respond.
  confine.
Qed.

Lemma callTool_confined (request : Request) :
  confined serving (callTool request).
Proof.
  unfold callTool, callSequentialThinking.
  pose proof (processThought_confined) as Hp.
  pose proof (confined_weaken reading serving _
                (fun e r H => storing_serving e r (reading_storing e r H))
                callRecallStatus_confined) as Hs.
  pose proof (fun args =>
                confined_weaken reading serving _
                  (fun e r H => storing_serving e r (reading_storing e r H))
                  (callListSessions_confined args)) as Hl.
  pose proof (fun args =>
                confined_weaken reading serving _
                  (fun e r H => storing_serving e r (reading_storing e r H))
                  (callGetSession_confined args)) as Hg.
  confine.
Qed.

(* ================================================================== *)
(** * What the operations never do *)
(* ================================================================== *)

Lemma resolutions_app (a b : list Call) :
  resolutions (a ++ b) = (resolutions a ++ resolutions b)%list.
Proof. apply filter_app. Qed.

(** From a Ready gateway, permitted effects keep it Ready on the same
    bucket and issue no call that resolves a bucket. *)
Lemma reaches_ready (p q : Process) :
  reaches serving p q ->
  ready (recallIntegration p) = true ->
  ready (recallIntegration q) = true
  /\ bucketAddress (recallIntegration q) = bucketAddress (recallIntegration p)
  /\ resolutions (calls (world q)) = resolutions (calls (world p)).
Proof.
  induction 1 as [p|e p q He _ IH]; intros R; [repeat split; auto|].
  assert (H : ready (recallIntegration (perform e p)) = true
              /\ bucketAddress (recallIntegration (perform e p))
                 = bucketAddress (recallIntegration p)
              /\ resolutions (calls (world (perform e p)))
                 = resolutions (calls (world p))).
  { clear IH. destruct p as [s [a i al pr th] [pf t d cs]].
    unfold ready in *.
    destruct e as [| |c|a'|l|s']; cbn in He, R |- *;
      try (repeat split; try reflexivity; exact R).
    - destruct (resolves c) eqn:Hc; cbn in He.
      + unfold ready in He; cbn in He. rewrite R in He.
        destruct c; cbn in Hc, He; discriminate.
      + split; [exact R|]. split; [reflexivity|].
        unfold resolutions. rewrite filter_app. cbn. rewrite Hc.
        apply app_nil_r.
    - unfold ready in He; cbn in He. rewrite R in He. discriminate. }
  destruct H as [R1 [A1 C1]]. destruct (IH R1) as [R2 [A2 C2]].
  repeat split; [exact R2 | rewrite A2; exact A1 | rewrite C2; exact C1].
Qed.

(** Permitted effects keep the configuration and the platform, and only add
    to the calls, the clock readings and the random draws. *)
Lemma reaches_grows (p q : Process) :
  reaches serving p q ->
  bucketAlias (recallIntegration q) = bucketAlias (recallIntegration p)
  /\ logPrefix (recallIntegration q) = logPrefix (recallIntegration p)
  /\ platform (world q) = platform (world p)
  /\ (exists more, calls (world q) = (calls (world p) ++ more)%list)
  /\ ticks (world p) <= ticks (world q)
  /\ draws (world p) <= draws (world q).
Proof.
  induction 1 as [p|e p q _ _ IH].
  - repeat split; auto. exists []. symmetry. apply app_nil_r.
  - destruct IH as [Ha [Hl [Hp [[more Hc] [Ht Hd]]]]].
    destruct p as [s [a i al pr th] [pf t d cs]].
    destruct e as [| |c|a'|l|s']; cbn in *;
      repeat split; auto; try lia;
      try (exists more; exact Hc).
    exists (c :: more). rewrite Hc, <- app_assoc. reflexivity.
Qed.

(** Effects of a reading operation leave the session, the pending thoughts,
    the clock, the random generator and the writes as they are. *)
Lemma reaches_reading (p q : Process) :
  reaches reading p q ->
  thinkingServer q = thinkingServer p
  /\ currentSessionThoughts (recallIntegration q)
     = currentSessionThoughts (recallIntegration p)
  /\ writes (calls (world q)) = writes (calls (world p))
  /\ ticks (world q) = ticks (world p)
  /\ draws (world q) = draws (world p).
Proof.
  induction 1 as [p|e p q He _ IH]; [repeat split; reflexivity|].
  destruct IH as [Hs [Hb [Hw [Ht Hd]]]].
  rewrite Hs, Hb, Hw, Ht, Hd. clear Hs Hb Hw Ht Hd.
  destruct p as [s [a i al pr th] [pf t d cs]].
  destruct e as [| |c|a'|l|s']; cbn in He |- *; try discriminate;
    repeat split; try reflexivity.
  rewrite writes_app. destruct c; cbn in He |- *; try discriminate;
    apply app_nil_r.
Qed.

(** Effects of a store operation leave the session as it is. *)
Lemma reaches_storing (p q : Process) :
  reaches storing p q -> thinkingServer q = thinkingServer p.
Proof.
  induction 1 as [p|e p q He _ IH]; [reflexivity|].
  rewrite IH. destruct p as [s g w].
  destruct e; cbn in He |- *; try reflexivity; discriminate.
Qed.

(** X1.  Once the bucket is resolved, no tool call resolves it again: the
    gateway stays Ready on the same address and neither lists nor creates a
    bucket, whatever the request and the answers of the remote service. *)
Theorem bucket_resolved_once (request : Request) (p : Process) :
  ready (recallIntegration p) = true ->
  let q := snd (callTool request p) in
  ready (recallIntegration q) = true
  /\ bucketAddress (recallIntegration q) = bucketAddress (recallIntegration p)
  /\ resolutions (calls (world q)) = resolutions (calls (world p)).
Proof.
  intros R q. apply reaches_ready; [|exact R].
  apply callTool_confined.
Qed.

Lemma bucket_resolved_once_witness :
  ready (recallIntegration (Demo.up Demo.offline)) = true
  /\ resolutions
       (calls (world (snd (callTool Demo.statusCheck (Demo.up Demo.offline)))))
     = [].
Proof.
  split; [reflexivity|].
  apply (bucket_resolved_once Demo.statusCheck (Demo.up Demo.offline)).
  reflexivity.
Defined.

(** X2.  No tool call changes the configured alias and prefix; the calls
    issued to the remote service are only ever added to, and the clock
    readings and random draws consumed only grow. *)
Theorem tool_call_only_adds (request : Request) (p : Process) :
  let q := snd (callTool request p) in
  bucketAlias (recallIntegration q) = bucketAlias (recallIntegration p)
  /\ logPrefix (recallIntegration q) = logPrefix (recallIntegration p)
  /\ (exists more, calls (world q) = (calls (world p) ++ more)%list)
  /\ ticks (world p) <= ticks (world q)
  /\ draws (world p) <= draws (world q).
Proof.
  intros q.
  destruct (reaches_grows p q (callTool_confined request p))
    as [Ha [Hl [_ [Hc [Ht Hd]]]]].
  repeat split; assumption.
Qed.

(** X3.  The status check, the session list and the session fetch leave the
    in-memory session and the pending thoughts as they are, write nothing to
    the bucket and do not read the clock, whether they succeed or fail. *)
Theorem read_tools_change_nothing (request : Request) (p : Process) :
  name request = "recallstatus" \/ name request = "listsessions"
  \/ name request = "getsession" ->
  let q := snd (callTool request p) in
  thinkingServer q = thinkingServer p
  /\ currentSessionThoughts (recallIntegration q)
     = currentSessionThoughts (recallIntegration p)
  /\ writes (calls (world q)) = writes (calls (world p))
  /\ ticks (world q) = ticks (world p).
Proof.
  intros Hname q.
  assert (H : confined reading (callTool request)).
  { unfold callTool. apply confined_try_catch; [|intros e; apply confined_ret].
    destruct Hname as [-> | [-> | ->]]; cbn [String.eqb Ascii.eqb Bool.eqb].
    - apply callRecallStatus_confined.
    - apply callListSessions_confined.
    - apply callGetSession_confined. }
  destruct (reaches_reading p q (H p)) as [Hs [Hb [Hw [Ht _]]]].
  repeat split; assumption.
Qed.

Lemma read_tools_change_nothing_witness :
  writes (calls (world (snd (callTool Demo.statusCheck
                               (Demo.pending Demo.confirmed)))))
  = [].
Proof.
  apply (read_tools_change_nothing Demo.statusCheck
           (Demo.pending Demo.confirmed)).
  left. reflexivity.
Defined.

(** X4.  The gateway never touches the in-memory session: storing a batch,
    listing the sessions and fetching one leave the server's history,
    branches, query and identifier as they are, on success and on failure. *)
Theorem gateway_leaves_session (thoughts : list Js.Object)
  (qi : option QueryInfo) (k : string) (p : Process) :
  thinkingServer (snd (storeSession thoughts qi p)) = thinkingServer p
  /\ thinkingServer (snd (listAllSessionObjects p)) = thinkingServer p
  /\ thinkingServer (snd (getSessionObject k p)) = thinkingServer p.
Proof.
  split; [|split].
  - apply reaches_storing, storeSession_confined.
  - apply reaches_reading, listAllSessionObjects_confined.
  - apply reaches_reading, getSessionObject_confined.
Qed.

(* ================================================================== *)
(** * The session stays sound *)
(* ================================================================== *)

(** What validation guarantees of a step. *)
Lemma validated_fields (input : Js.Value) (v : ThoughtData) :
  validateThoughtData input = Returned v ->
  thought v <> EmptyString /\ thoughtNumber v <> 0%Z /\ totalThoughts v <> 0%Z.
Proof.
  unfold validateThoughtData.
  destruct (property "thought" input) as [text|e]; [|discriminate].
  destruct text as [| |b|z|s|l|ps]; cbn; rewrite ?orb_true_r; cbn;
    try discriminate.
  destruct (String.eqb s EmptyString) eqn:Es; cbn; [discriminate|].
  destruct (Js.opt_get "thoughtNumber" input) as [| |b|n|s'|l|ps]; cbn;
    rewrite ?orb_true_r; cbn; try discriminate.
  destruct (Z.eqb n 0) eqn:En; cbn; [discriminate|].
  destruct (Js.opt_get "totalThoughts" input) as [| |b|m|s'|l|ps]; cbn;
    rewrite ?orb_true_r; cbn; try discriminate.
  destruct (Z.eqb m 0) eqn:Em; cbn; [discriminate|].
  destruct (negb _); [discriminate|].
  intros [= <-]. cbn.
  apply String.eqb_neq in Es. apply Z.eqb_neq in En. apply Z.eqb_neq in Em.
  repeat split; assumption.
Qed.

Lemma validated_sound (input : Js.Value) (v : ThoughtData) :
  validateThoughtData input = Returned v -> sound_step (widened v).
Proof.
  intros H. destruct (validated_fields input v H) as [Ht [Hn Hm]].
  unfold sound_step, widened.
  destruct (Z.gtb_spec (thoughtNumber v) (totalThoughts v)); cbn;
    repeat split; auto; lia.
Qed.

Lemma branches_grow (h : list ThoughtData) (t : ThoughtData)
  (b : list (string * list ThoughtData)) :
  Forall (fun x => incl (snd x) h) b ->
  Forall (fun x => incl (snd x) (h ++ [t])) b.
Proof.
  intros H. eapply Forall_impl; [|exact H].
  intros x Hx. apply incl_appl. exact Hx.
Qed.

Lemma push_branch_sound (k : string) (h : list ThoughtData) (t : ThoughtData)
  (b : list (string * list ThoughtData)) :
  Forall (fun x => incl (snd x) h) b ->
  Forall (fun x => incl (snd x) (h ++ [t])) (push_branch k t b).
Proof.
  induction 1 as [|[k' l] b Hx Hb IH]; cbn; [constructor|].
  destruct (String.eqb k' k); constructor; cbn in *.
  - apply incl_app; [apply incl_appl; exact Hx | apply incl_appr, incl_refl].
  - apply branches_grow. assumption.
  - apply incl_appl. exact Hx.
  - exact IH.
Qed.

(** Appending keeps the session sound, also when the bookkeeping throws. *)
Lemma appendThought_sound (v : ThoughtData) (q : Js.Value) (p : Process) :
  sound_step (widened v) ->
  sound_session (thinkingServer p) ->
  sound_session (thinkingServer (snd (appendThought v q p))).
Proof.
  intros Hv [Hh Hb]. destruct p as [[h b cq id] g w]. cbn in Hh, Hb.
  assert (Hh' : Forall sound_step (h ++ [widened v]))
    by (apply Forall_app; split; [exact Hh | constructor; [exact Hv | constructor]]).
  unfold appendThought, recordBranch, propertyKey, interpolate, lift, bind,
    read, update, ret, throw.
  fold (widened v). cbn [thinkingServer currentQuery].
  destruct (Js.truthy q && negb (Js.truthy cq)); cbn;
    try destruct (Js.is_string q); cbn;
    destruct (Js.truthy (branchFromThought (widened v))
              && Js.truthy (branchId (widened v))); cbn;
    try destruct (Js.toString (branchId (widened v))) as [k|]; cbn;
    repeat branch; (split; cbn; [first [exact Hh | exact Hh']|]);
    first [ exact Hb
          | apply push_branch_sound; exact Hb
          | apply branches_grow; exact Hb
          | apply Forall_app; split;
            [ apply branches_grow; exact Hb
            | constructor; [apply incl_appr, incl_refl | constructor] ] ].
Qed.

(** The second half of [processThought] leaves the session as it is or
    replaces it by an empty one. *)
Lemma finishThought_server (t : ThoughtData) (p : Process) :
  thinkingServer (snd (finishThought t p)) = thinkingServer p
  \/ (thoughtHistory (thinkingServer (snd (finishThought t p))) = []
      /\ branches (thinkingServer (snd (finishThought t p))) = []).
Proof.
  remember (snd (finishThought t p)) as q eqn:Eq.
  unfold finishThought in Eq.
  destruct (negb (nextThoughtNeeded t)); [|left; subst q; reflexivity].
  unfold bind at 1 in Eq.
  pose proof (reaches_storing p _ (storeSessionToRecall_confined p)) as Hs.
  destruct (storeSessionToRecall p) as [[[stored|]|e] p1]; cbn [snd] in Hs;
    try (left; subst q; exact Hs).
  unfold getStatusInfo, read, ret in Eq. unfold bind in Eq.
  cbv beta iota in Eq.
  destruct (success stored); cbv beta iota in Eq.
  - rewrite clearSession_run in Eq. right. subst q. split; reflexivity.
  - left. subst q. exact Hs.
Qed.

Lemma processThought_sound (input q : Js.Value) (p : Process) :
  sound_session (thinkingServer p) ->
  sound_session (thinkingServer (snd (processThought input q p))).
Proof.
  intros H. unfold processThought, try_catch, bind at 1, lift.
  destruct (validateThoughtData input) as [v|e] eqn:Hv; [|exact H].
  pose proof (appendThought_sound v q p (validated_sound input v Hv) H) as Ha.
  unfold bind at 1.
  destruct (appendThought v q p) as [[t|e] p1]; cbn [snd] in Ha; [|exact Ha].
  unfold bind at 1. destruct (formatThought t) as [u|e]; [|exact Ha].
  unfold bind.
  assert (Hf : sound_session (thinkingServer (snd (finishThought t p1)))).
  { destruct (finishThought_server t p1) as [-> | [Hh Hb]]; [exact Ha|].
    split; [rewrite Hh | rewrite Hb]; constructor. }
  destruct (finishThought t p1) as [[info|e] p2]; cbn [snd] in Hf; [|exact Hf].
  destruct (respond_run t info p2) as [r [-> _]]. exact Hf.
Qed.

(** The [sequentialthinking] branch changes the process as [processThought]
    does, or not at all when a log line throws first. *)
Lemma callSequentialThinking_state (args : Js.Value) (p : Process) :
  exists q,
    snd (callSequentialThinking args p) = p
    \/ snd (callSequentialThinking args p) = snd (processThought args q p).
Proof.
  exists (Js.or_else
            (Js.or_else (Js.opt_get "query" (Js.opt_get "_metadata" args))
                        (Js.opt_get "query" (Js.opt_get "_meta" args)))
            Js.Undefined).
  unfold callSequentialThinking, lift, getStatusInfo, read, throw, try_catch.
  unfold bind, ret.
  destruct (property "thoughtNumber" args); cbv beta iota;
    [|left; reflexivity].
  destruct (interpolate (Js.opt_get "thoughtNumber" args)); cbv beta iota;
    [|left; reflexivity].
  destruct (interpolate (Js.opt_get "totalThoughts" args)); cbv beta iota;
    [|left; reflexivity].
  destruct (Js.opt_get "thought" args); cbv beta iota;
    try (left; reflexivity).
  right. reflexivity.
Qed.

(** A tool call changes the process as the branch of its tool does. *)
Lemma callTool_state (request : Request) (p : Process) :
  snd (callTool request p)
  = snd ((if String.eqb (name request) "sequentialthinking"
          then callSequentialThinking (arguments request)
          else if String.eqb (name request) "recallstatus"
          then callRecallStatus
          else if String.eqb (name request) "listsessions"
          then callListSessions (arguments request)
          else if String.eqb (name request) "getsession"
          then callGetSession (arguments request)
          else ret {| content := Plain ("Unknown tool: " ++ name request);
                      isError := true |}) p).
Proof.
  unfold callTool, try_catch.
  match goal with
  | |- snd (let (o, p') := ?c p in _) = _ => destruct (c p) as [[r|e] p1]
  end; reflexivity.
Qed.

(** X5.  Every tool call keeps the in-memory session sound: each step of the
    history has a text that is not empty, an index and a total that are not
    zero, and an index at most its total, and the branch index holds steps
    of the history only.  This holds for every request, valid or not, and
    whatever the remote service answers. *)
Theorem session_stays_sound (request : Request) (p : Process) :
  sound_session (thinkingServer p) ->
  sound_session (thinkingServer (snd (callTool request p))).
Proof.
  intros H. rewrite callTool_state.
  destruct (String.eqb (name request) "sequentialthinking").
  { destruct (callSequentialThinking_state (arguments request) p)
      as [q [-> | ->]]; [exact H | apply processThought_sound; exact H]. }
  assert (Hread : forall c : M ToolResult,
             confined reading c ->
             sound_session (thinkingServer (snd (c p)))).
  { intros c Hc. destruct (reaches_reading p _ (Hc p)) as [-> _]. exact H. }
  destruct (String.eqb (name request) "recallstatus");
    [apply Hread, callRecallStatus_confined|].
  destruct (String.eqb (name request) "listsessions");
    [apply Hread, callListSessions_confined|].
  destruct (String.eqb (name request) "getsession");
    [apply Hread, callGetSession_confined|].
  exact H.
Qed.

Lemma session_stays_sound_witness :
  sound_session (thinkingServer (Demo.boot Demo.refusing))
  /\ sound_session
       (thinkingServer
          (snd (callTool {| name := "sequentialthinking";
                            arguments := Demo.call "C" 4 3 false |}
                  (Demo.boot Demo.refusing)))).
Proof.
  assert (H : sound_session (thinkingServer (Demo.boot Demo.refusing)))
    by (split; constructor).
  split; [exact H|].
  apply (session_stays_sound _ (Demo.boot Demo.refusing) H).
Defined.

(* ================================================================== *)
(** * The answers of [processThought] *)
(* ================================================================== *)

(** X6.  A [sequentialthinking] call whose arguments fail validation is
    answered with an error result and changes nothing: no step is appended,
    no query is fixed, no remote call is issued. *)
Theorem invalid_step_changes_nothing (args : Js.Value) (e : string)
  (p : Process) :
  validateThoughtData args = Thrown e ->
  exists r,
    callTool {| name := "sequentialthinking"; arguments := args |} p
    = (Returned r, p)
    /\ isError r = true.
Proof.
  intros Hv. unfold callTool. cbn [name arguments String.eqb Ascii.eqb Bool.eqb].
  unfold callSequentialThinking, processThought, lift, getStatusInfo, read,
    throw, try_catch.
  unfold bind, ret. rewrite Hv.
  destruct (property "thoughtNumber" args); cbv beta iota;
    [|eexists; split; reflexivity].
  destruct (interpolate (Js.opt_get "thoughtNumber" args)); cbv beta iota;
    [|eexists; split; reflexivity].
  destruct (interpolate (Js.opt_get "totalThoughts" args)); cbv beta iota;
    [|eexists; split; reflexivity].
  destruct (Js.opt_get "thought" args); cbv beta iota;
    eexists; split; reflexivity.
Qed.

Lemma invalid_step_changes_nothing_witness :
  exists r,
    callTool {| name := "sequentialthinking";
                arguments := Demo.call "A" 0 3 true |}
      (Demo.boot Demo.confirmed)
    = (Returned r, Demo.boot Demo.confirmed)
    /\ isError r = true.
Proof.
  apply (invalid_step_changes_nothing (Demo.call "A" 0 3 true)
           "Invalid thoughtNumber: must be a number").
  reflexivity.
Defined.

(** The answer of [processThought], for any outcome of the store. *)
Lemma respond_value (t : ThoughtData) (info : option StoreResult)
  (p : Process) :
  respond t info p
  = (Returned
       {| content :=
            ThoughtResponse
              {| response_thoughtNumber := thoughtNumber t;
                 response_totalThoughts := totalThoughts t;
                 response_nextThoughtNeeded := nextThoughtNeeded t;
                 response_branches :=
                   Object_keys (map fst (branches (thinkingServer p)));
                 thoughtHistoryLength :=
                   length (thoughtHistory (thinkingServer p));
                 response_thoughtHistory := thoughtHistory (thinkingServer p);
                 recallInfo :=
                   match info with
                   | Some stored =>
                       Stored (txHash stored) (success stored) (key stored)
                         (if initialized (recallIntegration p)
                          then length (currentSessionThoughts
                                         (recallIntegration p))
                          else 0)
                         (portalUrl (bucketAddress (recallIntegration p))
                            (key stored))
                   | None =>
                       NotStored
                         (if nextThoughtNeeded t
                          then "Session not complete yet - storing in memory only"
                          else "Recall storage pending or unavailable")
                         (length (thoughtHistory (thinkingServer p)))
                         (negb (nextThoughtNeeded t))
                   end |};
          isError := false |}, p).
Proof.
  destruct p as [[h b cq id] [a i al pr th] w].
  unfold respond, getStatusInfo, isInitialized, read. unfold bind, ret.
  destruct info as [stored|]; cbn; [destruct i|]; reflexivity.
Qed.

(** X7.  A validated step that asks for more and passes the first half of
    [processThought] without an error (the query is taken, the step is
    pushed, its branch is recorded and its log line is formatted) is
    answered without any remote call and without touching the gateway: the
    answer reports the step's index and widened total, the history with the
    step at its end, and [stored: false] with the number of steps in
    memory. *)
Theorem continuing_step_answer (input q : Js.Value) (v t : ThoughtData)
  (p p1 : Process) :
  validateThoughtData input = Returned v ->
  appendThought v q p = (Returned t, p1) ->
  formatThought t = Returned tt ->
  nextThoughtNeeded v = true ->
  exists r,
    processThought input q p
    = (Returned {| content := ThoughtResponse r; isError := false |}, p1)
    /\ response_thoughtNumber r = thoughtNumber v
    /\ response_totalThoughts r = Z.max (thoughtNumber v) (totalThoughts v)
    /\ response_thoughtHistory r
       = (thoughtHistory (thinkingServer p) ++ [t])%list
    /\ recallInfo r
       = NotStored "Session not complete yet - storing in memory only"
           (length (thoughtHistory (thinkingServer p)) + 1) false
    /\ recallIntegration p1 = recallIntegration p
    /\ world p1 = world p.
Proof.
  intros Hv Ha Hf Hn.
  destruct (appendThought_returned v t q p p1 Ha) as [Ht [Hh [_ [Hg Hw]]]].
  assert (Hnt : nextThoughtNeeded t = true)
    by (rewrite Ht; destruct (widened_fields v) as [_ ->]; exact Hn).
  unfold processThought, try_catch, lift. unfold bind at 1. rewrite Hv.
  unfold bind at 1. rewrite Ha. unfold bind at 1. rewrite Hf.
  unfold bind, finishThought. rewrite Hnt. cbn [negb]. unfold ret at 1.
  rewrite respond_value. eexists. split; [reflexivity|].
  cbn [response_thoughtNumber response_totalThoughts response_thoughtHistory
       recallInfo].
  rewrite Hnt, Hh, length_app. cbn [length negb].
  repeat split; try assumption.
  - rewrite Ht. unfold widened.
    destruct (Z.gtb_spec (thoughtNumber v) (totalThoughts v)); reflexivity.
  - rewrite Ht. unfold widened.
    destruct (Z.gtb_spec (thoughtNumber v) (totalThoughts v)); cbn; lia.
Qed.

Lemma continuing_step_answer_witness :
  exists r,
    processThought (Demo.call "A" 1 3 true) Js.Undefined
      (Demo.boot Demo.offline)
    = (Returned {| content := ThoughtResponse r; isError := false |},
       with_server (set_history [Demo.step "A" 1 3 true])
         (Demo.boot Demo.offline))
    /\ recallInfo r
       = NotStored "Session not complete yet - storing in memory only" 1 false.
Proof.
  destruct (continuing_step_answer (Demo.call "A" 1 3 true) Js.Undefined
              (Demo.step "A" 1 3 true) (Demo.step "A" 1 3 true)
              (Demo.boot Demo.offline)
              (with_server (set_history [Demo.step "A" 1 3 true])
                 (Demo.boot Demo.offline))
              eq_refl eq_refl eq_refl eq_refl) as [r [E [_ [_ [_ [I _]]]]]].
  exists r. split; [exact E | exact I].
Defined.

(** X8.  The answer to the last step of a session, when the step passes
    the first half of [processThought] without an error (the query is
    taken, the step is pushed, its branch is recorded and its log line is
    formatted), on a gateway that is Ready or becomes Ready: it reports
    [stored: true] with the key of the record and the portal link built from
    the bucket address and the key;
    after an accepted write it carries the receipt, no pending thought and an
    empty history; after a failed write it carries [success: false], every
    step of the session as pending and the whole history. *)
Theorem final_step_answer (input q : Js.Value) (v t : ThoughtData)
  (p p1 : Process) :
  validateThoughtData input = Returned v ->
  nextThoughtNeeded v = false ->
  appendThought v q p = (Returned t, p1) ->
  formatThought t = Returned tt ->
  serves p = true ->
  let w := flushing p1 in
  let url := portalUrl (bucketAddress (recallIntegration w)) (store_key w) in
  let n := length (thoughtHistory (thinkingServer p)) + 1 in
  exists r,
    fst (processThought input q p)
    = Returned {| content := ThoughtResponse r; isError := false |}
    /\ match store_reply w with
       | InTime (Answer receipt) =>
           recallInfo r = Stored receipt true (store_key w) 0 url
           /\ thoughtHistoryLength r = 0
       | _ =>
           recallInfo r = Stored None false (store_key w) n url
           /\ thoughtHistoryLength r = n
       end.
Proof.
  intros Hv Hn Ha Hf S w url n.
  destruct (appendThought_returned v t q p p1 Ha) as [Ht [Hh [_ [Hg Hw]]]].
  destruct (serves_session p p1 Hg Hw) as [S1 _]. rewrite S in S1.
  assert (Hn1 : nextThoughtNeeded t = false)
    by (rewrite Ht; destruct (widened_fields v) as [_ ->]; exact Hn).
  assert (Hne : thoughtHistory (thinkingServer p1) <> [])
    by (rewrite Hh; destruct (thoughtHistory (thinkingServer p)); discriminate).
  destruct (storeSessionToRecall_serves p1 S1 Hne) as [R [_ _]].
  destruct (flushing_frame p1) as [Hb [_ Hfs]]. fold w in R, Hb, Hfs.
  assert (Hlen : length (currentSessionThoughts (recallIntegration w)) = n).
  { rewrite Hb, enhancedThoughts_length. unfold session_batch.
    rewrite length_map, Hh, length_app. reflexivity. }
  assert (Hi : initialized (recallIntegration w) = true)
    by (unfold ready in R; apply andb_true_iff in R; apply R).
  unfold processThought, try_catch, lift. unfold bind at 1. rewrite Hv.
  unfold bind at 1. rewrite Ha. unfold bind at 1. rewrite Hf.
  unfold bind. rewrite (finishThought_terminal t p1 Hn1 S1 Hne). fold w.
  destruct (store_reply w) as [[receipt|e]|]; rewrite respond_value;
    eexists; (split; [reflexivity|]);
    cbn [recallInfo thoughtHistoryLength txHash success key fst].
  - destruct (wrote w) as [s' [a i al pr th] w'] eqn:W.
    assert (Ha' : a = bucketAddress (recallIntegration w))
      by (change a with (bucketAddress (recallIntegration
                                           {| thinkingServer := s';
                                              recallIntegration :=
                                                {| bucketAddress := a;
                                                   initialized := i;
                                                   bucketAlias := al;
                                                   logPrefix := pr;
                                                   currentSessionThoughts := th |};
                                              world := w' |}));
          rewrite <- W; reflexivity).
    cbn. subst a. unfold url. destruct i; split; reflexivity.
  - change (recallIntegration (wrote w)) with (recallIntegration w).
    change (thinkingServer (wrote w)) with (thinkingServer w).
    rewrite Hi, Hlen, Hfs, Hh, length_app. split; reflexivity.
  - change (recallIntegration (wrote w)) with (recallIntegration w).
    change (thinkingServer (wrote w)) with (thinkingServer w).
    rewrite Hi, Hlen, Hfs, Hh, length_app. split; reflexivity.
Qed.

Lemma final_step_answer_witness :
  exists r,
    fst (processThought (Demo.call "C" 4 3 false) Js.Undefined
           (Demo.boot Demo.confirmed))
    = Returned {| content := ThoughtResponse r; isError := false |}
    /\ thoughtHistoryLength r = 0.
Proof.
  destruct (final_step_answer (Demo.call "C" 4 3 false) Js.Undefined
              (Demo.step "C" 4 3 false) (Demo.step "C" 4 4 false)
              (Demo.boot Demo.confirmed)
              (with_server (set_history [Demo.step "C" 4 4 false])
                 (Demo.boot Demo.confirmed))
              eq_refl eq_refl eq_refl eq_refl eq_refl) as [r [E [_ L]]].
  exists r. split; [exact E | exact L].
Defined.

(* ================================================================== *)
(** * What is written can be read back *)
(* ================================================================== *)

Lemma append_cons (c : ascii) (a b : string) :
  String c a ++ b = String c (a ++ b).
Proof. reflexivity. Qed.

Lemma append_assoc (a b c : string) : (a ++ b) ++ c = a ++ b ++ c.
Proof.
  induction a as [|x a IH]; [reflexivity|].
  rewrite !append_cons, IH. reflexivity.
Qed.

Lemma append_empty (a b : string) : a ++ b = EmptyString -> b = EmptyString.
Proof. destruct a; [intros H; exact H | rewrite append_cons; discriminate]. Qed.

(** Nothing is trimmed off a text that ends with a character that is no
    white space. *)
Lemma trimEnd_app (a b : string) :
  b <> EmptyString -> Str.trimEnd b = b -> Str.trimEnd (a ++ b) = a ++ b.
Proof.
  intros Hb Ht. induction a as [|c a IH]; [exact Ht|].
  rewrite append_cons. cbn [Str.trimEnd]. rewrite IH.
  destruct (a ++ b) eqn:E; [|reflexivity].
  elim Hb. exact (append_empty a b E).
Qed.

Lemma trim_braced (m : string) :
  Str.trim (String "{" (m ++ "}")) = String "{" (m ++ "}").
Proof.
  unfold Str.trim. cbn [Str.trimStart].
  change (Str.is_space "{") with false. cbv iota.
  rewrite <- append_cons. apply trimEnd_app; [discriminate | reflexivity].
Qed.

Lemma stringify_braced (o : Js.Object) :
  exists m, Js.stringify (Js.Obj o) = String "{" (m ++ "}").
Proof. eexists. reflexivity. Qed.

Lemma join_braced (l : list string) :
  l <> [] ->
  Forall (fun s => exists m, s = String "{" (m ++ "}")) l ->
  exists m, Str.join Str.nl l = String "{" (m ++ "}").
Proof.
  induction l as [|x l IH]; intros Hne Hall; [contradiction|].
  inversion Hall as [|? ? [m Hx] Hl]; subst.
  destruct l as [|y l]; [exists m; reflexivity|].
  destruct (IH ltac:(discriminate) Hl) as [m' Hm'].
  change (Str.join Str.nl (String "{" (m ++ "}") :: y :: l))
    with (String "{" (m ++ "}") ++ Str.nl ++ Str.join Str.nl (y :: l)).
  rewrite Hm'. exists (m ++ "}" ++ Str.nl ++ String "{" m').
  rewrite append_cons. f_equal.
  rewrite !append_assoc. reflexivity.
Qed.

(** The text of a batch that is not empty starts and ends with a brace:
    trimming it changes nothing, and it is not empty. *)
Lemma jsonlData_trim (l : list Js.Object) :
  l <> [] ->
  Str.trim (jsonlData l) = jsonlData l /\ jsonlData l <> EmptyString.
Proof.
  intros Hne.
  destruct (join_braced (map (fun t => Js.stringify (Js.Obj t)) l)) as [m Hm].
  - destruct l; [contradiction | discriminate].
  - apply Forall_forall. intros s Hs. apply in_map_iff in Hs.
    destruct Hs as [t [<- _]]. apply stringify_braced.
  - unfold jsonlData. rewrite Hm. split; [apply trim_braced | discriminate].
Qed.

Lemma parseLines_map (pf : Platform) (l : list Js.Object) :
  forall k i o,
    nth_error l i = Some o ->
    nth_error (parseLines pf k (map (fun t => Js.stringify (Js.Obj t)) l)) i
    = Some (parseLine pf (k + i) (Js.stringify (Js.Obj o))).
Proof.
  intros k i o H. apply parseLines_nth.
  rewrite nth_error_map, H. reflexivity.
Qed.

(** The text of a batch that is not empty, fetched back and parsed: one
    entry per object, each the parse of the object's text. *)
Lemma batch_reads_back (stored : list Js.Object) (r : Process) (k : string) :
  stored <> [] ->
  serves r = true ->
  next_fetch (started r) = Answer (Some (jsonlData stored)) ->
  let pf := platform (world r) in
  exists s,
    fst (getSessionObject k r) = Returned (Some s)
    /\ match s with
       | Session k' thoughts count _ =>
           k' = k
           /\ count = length stored
           /\ length thoughts = count
           /\ forall i o,
                nth_error stored i = Some o ->
                nth_error thoughts i
                = Some (parseLine pf i (Js.stringify (Js.Obj o)))
       | Unparsed k' _ _ =>
           k' = k
           /\ Date_toISOString pf
                (Js.opt_get "timestamp"
                   (parseLine pf 0 (Js.stringify (Js.Obj (hd [] stored)))))
              = None
       end.
Proof.
  intros Hs S F pf.
  destruct (serves_started r S) as [_ R].
  destruct (started_frame r) as [_ _ _ Hpf _ _ _].
  assert (E : getSessionObject k r = getSessionObject k (started r))
    by (unfold getSessionObject; apply serves_rerun; exact S).
  destruct (jsonlData_trim stored Hs) as [Ht He].
  rewrite E, (getSessionObject_ready k _ R), F, Hpf. fold pf.
  apply String.eqb_neq in He. rewrite He.
  eexists. split; [reflexivity|].
  unfold parseSession. rewrite Ht, (jsonlData_lines stored Hs).
  set (lines := map (fun t => Js.stringify (Js.Obj t)) stored).
  assert (Hlen : length (parseLines pf 0 lines) = length stored).
  { rewrite parseLines_length. unfold lines. apply length_map. }
  assert (Hhd : hd Js.Undefined (parseLines pf 0 lines)
                = parseLine pf 0 (Js.stringify (Js.Obj (hd [] stored)))).
  { unfold lines. destruct stored; [contradiction | reflexivity]. }
  assert (Hnth : forall i o,
             nth_error stored i = Some o ->
             nth_error (parseLines pf 0 lines) i
             = Some (parseLine pf i (Js.stringify (Js.Obj o)))).
  { intros i o Hi. apply (parseLines_map pf stored 0 i o Hi). }
  rewrite Hhd.
  destruct (Js.truthy _).
  - destruct (Date_toISOString pf _) eqn:D.
    + repeat split; auto.
    + split; reflexivity.
  - repeat split; auto.
Qed.

(** X9.  A record that [storeSessionJSONL] writes is read back whole by
    [getSessionObject]: when the fetch returns the written text, the answer
    is not null, its step count is the number of steps written, and the
    entry at each position is what the platform parses from the text of the
    step written at that position (white space and line breaks inside a
    step's text neither split nor join lines).  The one exception is the
    error object for a first line whose time stamp is not a date. *)
Theorem written_session_reads_back (w r : Process) (k : string) :
  currentSessionThoughts (recallIntegration w) <> [] ->
  serves r = true ->
  next_fetch (started r) = Answer (Some (store_data w)) ->
  let pf := platform (world r) in
  let stored :=
    validatedThoughts 0 (currentSessionThoughts (recallIntegration w)) in
  exists s,
    fst (getSessionObject k r) = Returned (Some s)
    /\ match s with
       | Session k' thoughts count _ =>
           k' = k
           /\ count = length (currentSessionThoughts (recallIntegration w))
           /\ length thoughts = count
           /\ forall i o,
                nth_error stored i = Some o ->
                nth_error thoughts i
                = Some (parseLine pf i (Js.stringify (Js.Obj o)))
       | Unparsed k' _ _ =>
           k' = k
           /\ Date_toISOString pf
                (Js.opt_get "timestamp"
                   (parseLine pf 0 (Js.stringify (Js.Obj (hd [] stored)))))
              = None
       end.
Proof.
  intros Hne S F pf stored.
  assert (Hl : length stored
               = length (currentSessionThoughts (recallIntegration w)))
    by apply validatedThoughts_length.
  assert (Hs : stored <> []).
  { intros H. apply Hne, length_zero_iff_nil. rewrite <- Hl, H. reflexivity. }
  rewrite <- Hl. exact (batch_reads_back stored r k Hs S F).
Qed.

Lemma written_session_reads_back_witness :
  exists s,
    fst (getSessionObject "k"
           (Demo.boot
              (Demo.holding (store_data (Demo.pending Demo.confirmed)))))
    = Returned (Some s)
    /\ match s with
       | Session _ _ count _ => count = 2
       | Unparsed _ _ _ => False
       end.
Proof.
  destruct (written_session_reads_back (Demo.pending Demo.confirmed)
              (Demo.boot
                 (Demo.holding (store_data (Demo.pending Demo.confirmed))))
              "k" ltac:(discriminate) eq_refl eq_refl) as [s [E H]].
  exists s. split; [exact E|].
  assert (E' := E). vm_compute in E'. injection E' as <-.
  destruct H as [_ [H _]]. exact H.
Defined.

(* ================================================================== *)
(** * The key of a record carries its time stamp *)
(* ================================================================== *)

Lemma includes_prefix (x b : string) : Str.includes x (x ++ b) = true.
Proof. exact (StrFacts.includes_middle x EmptyString b). Qed.

(** The digits of a number are read to the end. *)
Lemma span_digits_uint (d : Decimal.uint) (tail : string) :
  Str.span_digits (NilEmpty.string_of_uint d ++ String "-" tail)
  = (NilEmpty.string_of_uint d, String "-" tail).
Proof.
  induction d; cbn [NilEmpty.string_of_uint]; [reflexivity| ..];
    rewrite append_cons; cbn [Str.span_digits];
    match goal with
    | |- context [Str.is_digit ?c] => change (Str.is_digit c) with true
    end; cbv iota; rewrite IHd; reflexivity.
Qed.

Lemma parse_uint_acc (d : Decimal.uint) :
  forall acc : positive,
    fold_left (fun a c => (10 * a + Z.of_nat (nat_of_ascii c - 48))%Z)
      (list_ascii_of_string (NilEmpty.string_of_uint d)) (Z.pos acc)
    = Z.pos (Pos.of_uint_acc d acc).
Proof.
  induction d; intros acc;
    cbn [NilEmpty.string_of_uint list_ascii_of_string fold_left Pos.of_uint_acc];
    [reflexivity| ..]; rewrite <- IHd; f_equal;
    try (match goal with
         | |- context [Z.of_nat ?n] =>
             let v := eval vm_compute in (Z.of_nat n) in
             change (Z.of_nat n) with v
         end; lia).
Qed.

Lemma parse_uint (d : Decimal.uint) :
  Str.parseInt (NilEmpty.string_of_uint d) = Z.of_N (Pos.of_uint d).
Proof.
  unfold Str.parseInt.
  induction d;
    cbn [NilEmpty.string_of_uint list_ascii_of_string fold_left Pos.of_uint];
    [reflexivity | exact IHd | ..];
    cbn [Z.of_N]; rewrite <- parse_uint_acc; reflexivity.
Qed.

(** The decimal text of a number that is not negative: digits only, at least
    one, and [parseInt] gives the number back. *)
Lemma decimal_digits (t : Z) :
  (0 <= t)%Z ->
  exists d,
    d <> Decimal.Nil
    /\ Str.decimal t = NilEmpty.string_of_uint d
    /\ Str.parseInt (Str.decimal t) = t.
Proof.
  intros Ht. unfold Str.decimal. destruct t as [|p|p]; [| |lia].
  - exists (Decimal.D0 Decimal.Nil). repeat split. discriminate.
  - exists (Pos.to_uint p).
    pose proof (DecimalPos.Unsigned.to_uint_nonnil p) as Hn.
    assert (E : NilZero.string_of_int (Z.to_int (Z.pos p))
                = NilEmpty.string_of_uint (Pos.to_uint p)).
    { cbn [Z.to_int NilZero.string_of_int]. unfold NilZero.string_of_uint.
      destruct (Pos.to_uint p); [contradiction | reflexivity ..]. }
    split; [exact Hn|]. split; [exact E|].
    rewrite E, parse_uint, DecimalPos.Unsigned.of_to. reflexivity.
Qed.

Lemma digits_dash_decimal (t : Z) (tail : string) :
  (0 <= t)%Z ->
  Str.digits_dash (Str.decimal t ++ String "-" tail) = Some (Str.decimal t).
Proof.
  intros Ht. destruct (decimal_digits t Ht) as [d [Hn [E _]]].
  unfold Str.digits_dash. rewrite E, span_digits_uint.
  destruct d; [contradiction | reflexivity ..].
Qed.

(** No [-digits-] segment starts inside a text without digits. *)
Lemma match_after_body (body rest : string) (found : string) :
  (forall c, Str.has_char c body = true -> Str.is_digit c = false) ->
  Str.digits_dash rest = Some found ->
  Str.match_dash_digits_dash (body ++ String "-" rest) = Some found.
Proof.
  intros Hb Hr. induction body as [|c body IH].
  - change (EmptyString ++ String "-" rest) with (String "-" rest).
    cbn [Str.match_dash_digits_dash]. rewrite Ascii.eqb_refl, Hr. reflexivity.
  - assert (IH' : Str.match_dash_digits_dash (body ++ String "-" rest)
                  = Some found).
    { apply IH. intros x Hx. apply Hb. cbn [Str.has_char].
      destruct (Ascii.eqb c x); [reflexivity | exact Hx]. }
    rewrite append_cons. cbn [Str.match_dash_digits_dash].
    destruct (Ascii.eqb c "-"); [|exact IH'].
    assert (Hd : Str.digits_dash (body ++ String "-" rest) = None).
    { unfold Str.digits_dash. destruct body as [|x body].
      - reflexivity.
      - rewrite append_cons. cbn [Str.span_digits].
        rewrite (Hb x); [reflexivity|].
        cbn [Str.has_char]. destruct (Ascii.eqb c x); [reflexivity|].
        rewrite Ascii.eqb_refl. reflexivity. }
    rewrite Hd. exact IH'.
Qed.

(** The key [storeSessionJSONL] builds carries the time of the write, and
    [sessionObject] finds it there. *)
Lemma session_key_timestamp (body : string) (t : Z) (obj : BucketObject) :
  (forall c, Str.has_char c body = true -> Str.is_digit c = false) ->
  (0 <= t)%Z ->
  object_key obj = session_key (body ++ "-") t ->
  timestamp_of (sessionObject (body ++ "-") obj) = Js.Num t.
Proof.
  intros Hb Ht Hk.
  assert (Hm : Str.match_dash_digits_dash (object_key obj)
               = Some (Str.decimal t)).
  { rewrite Hk. unfold session_key.
    rewrite append_assoc.
    change ("-" ++ Str.decimal t ++ "-session.jsonl")
      with (String "-" (Str.decimal t ++ String "-" "session.jsonl")).
    apply match_after_body; [exact Hb|].
    apply digits_dash_decimal. exact Ht. }
  assert (Hi : Str.includes (body ++ "-") (object_key obj) = true)
    by (rewrite Hk; apply includes_prefix).
  unfold timestamp_of, sessionObject. cbn [recall_metadata].
  rewrite Hi, Hm, JsFacts.get_set_same.
  destruct (decimal_digits t Ht) as [_ [_ [_ ->]]]. reflexivity.
Qed.

(** X10.  A record written by [storeSessionJSONL] is found by
    [listAllSessionObjects] of a gateway with the same prefix, whenever the
    remote query reports an object under the key of the write; and when the
    prefix is a text without digits followed by a dash (as the default
    [sequential-] is) and the clock is not negative, the time stamp reported
    for it is the time of the write, recovered from the key. *)
Theorem written_key_is_listed (w r : Process) (objects : list BucketObject)
  (obj : BucketObject) :
  serves r = true ->
  logPrefix (recallIntegration r) = logPrefix (recallIntegration w) ->
  next_query (started r) = Answer (Some objects) ->
  In obj objects ->
  object_key obj = store_key w ->
  exists l o,
    fst (listAllSessionObjects r) = Returned l
    /\ In o l
    /\ recall_key o = store_key w
    /\ forall body,
         logPrefix (recallIntegration w) = body ++ "-" ->
         (forall c, Str.has_char c body = true -> Str.is_digit c = false) ->
         (0 <= Date_now (platform (world w)) (ticks (world w)))%Z ->
         timestamp_of o
         = Js.Num (Date_now (platform (world w)) (ticks (world w))).
Proof.
  intros S Hp Q Hin Hk.
  destruct (serves_started r S) as [_ R].
  destruct (started_frame r) as [_ _ Hpr _ _ _ _].
  assert (E : listAllSessionObjects r = listAllSessionObjects (started r))
    by (unfold listAllSessionObjects; apply serves_rerun; exact S).
  rewrite E, (listAllSessionObjects_ready _ R), Q, Hpr, Hp.
  set (prefix := logPrefix (recallIntegration w)).
  assert (Hi : Str.includes prefix (object_key obj) = true)
    by (rewrite Hk; apply includes_prefix).
  eexists. exists (sessionObject prefix obj).
  split; [reflexivity|]. split; [|split].
  - apply in_map, filter_In. split; [exact Hin | exact Hi].
  - exact Hk.
  - intros body Hbody Hb Ht. unfold prefix in *. rewrite Hbody.
    apply session_key_timestamp; [exact Hb | exact Ht|].
    rewrite Hk. unfold store_key. rewrite Hbody. reflexivity.
Qed.

(** The theorem at the bucket that holds the record of the first write of
    the example gateway, and a foreign object. *)
Lemma written_key_is_listed_witness :
  exists l o,
    fst (listAllSessionObjects (Demo.boot Demo.listing)) = Returned l
    /\ In o l
    /\ recall_key o = "sequential-1700000000000-session.jsonl"
    /\ timestamp_of o = Js.Num 1700000000000.
Proof.
  destruct (written_key_is_listed (Demo.pending Demo.confirmed)
              (Demo.boot Demo.listing) [Demo.foreign; Demo.stamped]
              Demo.stamped eq_refl eq_refl eq_refl
              (or_intror (or_introl eq_refl)) eq_refl)
    as [l [o [E [Hin [Hk Ht]]]]].
  exists l, o. split; [exact E|]. split; [exact Hin|]. split; [exact Hk|].
  apply (Ht "sequential"); [reflexivity | | discriminate].
  intros c. cbn [Str.has_char].
  repeat match goal with
         | |- context [Ascii.eqb ?x c] =>
             destruct (Ascii.eqb_spec x c) as [<-|_]; [intros _; reflexivity|]
         end.
  discriminate.
Defined.

(** X11.  [listBucketObjects] and [listAllSessionObjects] agree: on a
    gateway that is Ready or becomes Ready, the first returns the key of
    every object of the remote answer, in order (no key on a remote error or
    an answer without objects, never null), and the keys the second returns
    are those of the first that contain the prefix. *)
Theorem session_list_filters_bucket_list (p : Process) :
  serves p = true ->
  exists keys l,
    fst (listBucketObjects p) = Returned keys
    /\ fst (listAllSessionObjects p) = Returned l
    /\ keys = match next_query (started p) with
              | Answer (Some objects) => map object_key objects
              | _ => []
              end
    /\ map recall_key l
       = filter (Str.includes (logPrefix (recallIntegration p))) keys.
Proof.
  intros S.
  destruct (serves_started p S) as [_ R].
  destruct (started_frame p) as [_ _ Hpr _ _ _ _].
  assert (E : listAllSessionObjects p = listAllSessionObjects (started p))
    by (unfold listAllSessionObjects; apply serves_rerun; exact S).
  assert (E' : listBucketObjects p = listBucketObjects (started p))
    by (unfold listBucketObjects; apply serves_rerun; exact S).
  rewrite E, E', (listAllSessionObjects_ready _ R), Hpr.
  unfold listBucketObjects. unfold bind at 1.
  rewrite (ensureInitialized_ready _ R).
  destruct (started p) as [s [a i al pr th] [pf t d cs]].
  unfold next_query, try_catch, bind, read, await, ret; cbn.
  destruct (query_reply pf (length cs)) as [[objects|]|e]; cbn;
    eexists; eexists; (split; [reflexivity|]); (split; [reflexivity|]);
    (split; [reflexivity|]); try reflexivity.
  rewrite map_map.
  induction objects as [|obj l IH]; [reflexivity|].
  cbn [map filter].
  destruct (Str.includes (logPrefix (recallIntegration p)) (object_key obj));
    cbn [map]; rewrite IH; reflexivity.
Qed.

Lemma session_list_filters_bucket_list_witness :
  exists keys l,
    fst (listBucketObjects (Demo.boot Demo.listing)) = Returned keys
    /\ fst (listAllSessionObjects (Demo.boot Demo.listing)) = Returned l
    /\ keys = ["notes.txt"; "sequential-1700000000000-session.jsonl"]
    /\ map recall_key l = ["sequential-1700000000000-session.jsonl"].
Proof.
  destruct (session_list_filters_bucket_list (Demo.boot Demo.listing) eq_refl)
    as [keys [l [E1 [E2 [K F]]]]].
  exists keys, l. split; [exact E1|]. split; [exact E2|].
  split; [exact K|]. rewrite F, K. reflexivity.
Defined.

(* ================================================================== *)
(** * The query and the branches of a session *)
(* ================================================================== *)

Lemma appendThought_query (v : ThoughtData) (q : Js.Value) (p : Process) :
  currentQuery (thinkingServer (snd (appendThought v q p)))
  = if Js.truthy q && negb (Js.truthy (currentQuery (thinkingServer p)))
    then q else currentQuery (thinkingServer p).
Proof.
  destruct p as [[h b cq id] g w].
  unfold appendThought, recordBranch, propertyKey, interpolate, lift, bind,
    read, update, ret, throw; cbn.
  destruct (Js.truthy q && negb (Js.truthy cq)); cbn;
    repeat first
      [ branch
      | match goal with
        | |- context [match Js.toString ?x with _ => _ end] =>
            destruct (Js.toString x); cbn
        end ];
    reflexivity.
Qed.

(** X12.  The query of a session is fixed by the first step that brings one:
    after a validated step that asks for more, the session's query is the
    step's query when that one is truthy and the session had none, and the
    query the session had otherwise.  (This holds also when the step is then
    refused because its query is not a string or its branch cannot be
    recorded.) *)
Theorem query_fixed_by_first_step (input q : Js.Value) (v : ThoughtData)
  (p : Process) :
  validateThoughtData input = Returned v ->
  nextThoughtNeeded v = true ->
  currentQuery (thinkingServer (snd (processThought input q p)))
  = if Js.truthy q && negb (Js.truthy (currentQuery (thinkingServer p)))
    then q else currentQuery (thinkingServer p).
Proof.
  intros Hv Hn. rewrite <- appendThought_query with (v := v).
  unfold processThought, try_catch, lift. unfold bind at 1. rewrite Hv.
  unfold bind at 1.
  destruct (appendThought v q p) as [[t|e] p1] eqn:Ha; [|reflexivity].
  destruct (appendThought_returned v t q p p1 Ha) as [Ht _].
  assert (Hnt : nextThoughtNeeded t = true)
    by (rewrite Ht; destruct (widened_fields v) as [_ ->]; exact Hn).
  unfold bind at 1. destruct (formatThought t) as [u|e]; [|reflexivity].
  unfold bind, finishThought. rewrite Hnt. cbn [negb]. unfold ret at 1.
  rewrite respond_value. reflexivity.
Qed.

Lemma query_fixed_by_first_step_witness :
  currentQuery
    (thinkingServer
       (snd (processThought (Demo.call "B" 2 3 true) (Js.Text "second")
               (with_server (set_query (Js.Text "first"))
                  (Demo.boot Demo.offline)))))
  = Js.Text "first".
Proof.
  exact (query_fixed_by_first_step (Demo.call "B" 2 3 true) (Js.Text "second")
           (Demo.step "B" 2 3 true)
           (with_server (set_query (Js.Text "first")) (Demo.boot Demo.offline))
           eq_refl eq_refl).
Defined.

Lemma branch_push_same (k : string) (t : ThoughtData)
  (b : list (string * list ThoughtData)) :
  has_branch k b = true ->
  branch k (push_branch k t b) = (branch k b ++ [t])%list.
Proof.
  induction b as [|[k' l] b IH]; cbn; [discriminate|].
  destruct (String.eqb k' k) eqn:E; cbn; rewrite E; [reflexivity | exact IH].
Qed.

Lemma branch_push_other (k k' : string) (t : ThoughtData)
  (b : list (string * list ThoughtData)) :
  k' <> k -> branch k' (push_branch k t b) = branch k' b.
Proof.
  intros Hk. induction b as [|[x l] b IH]; cbn; [reflexivity|].
  destruct (String.eqb x k) eqn:E; cbn.
  - apply String.eqb_eq in E. subst x.
    destruct (String.eqb k k') eqn:E'; [|reflexivity].
    apply String.eqb_eq in E'. subst k'. contradiction.
  - destruct (String.eqb x k'); [reflexivity | exact IH].
Qed.

Lemma branch_absent (k : string) (b : list (string * list ThoughtData)) :
  has_branch k b = false -> branch k b = [].
Proof.
  induction b as [|[k' l] b IH]; cbn; [reflexivity|].
  destruct (String.eqb k' k); [discriminate | exact IH].
Qed.

Lemma branch_new_same (k : string) (t : ThoughtData)
  (b : list (string * list ThoughtData)) :
  has_branch k b = false ->
  branch k (b ++ [(k, [t])]) = (branch k b ++ [t])%list.
Proof.
  induction b as [|[k' l] b IH]; cbn.
  - rewrite String.eqb_refl. reflexivity.
  - destruct (String.eqb k' k); [discriminate | exact IH].
Qed.

Lemma branch_new_other (k k' : string) (t : ThoughtData)
  (b : list (string * list ThoughtData)) :
  k' <> k -> branch k' (b ++ [(k, [t])]) = branch k' b.
Proof.
  intros Hk. induction b as [|[x l] b IH]; cbn.
  - destruct (String.eqb k k') eqn:E; [|reflexivity].
    apply String.eqb_eq in E. subst k'. contradiction.
  - destruct (String.eqb x k'); [reflexivity | exact IH].
Qed.

(** X13.  The branch index follows the steps: a step that is appended with
    a truthy [branchFromThought] and a truthy [branchId] is added at the end
    of the branch of that name (a new branch when there was none) and every
    other branch is left as it is; any other step leaves the index as it
    is. *)
Theorem branch_collects_its_steps (v t : ThoughtData) (q : Js.Value)
  (p p1 : Process) :
  appendThought v q p = (Returned t, p1) ->
  if Js.truthy (branchFromThought v) && Js.truthy (branchId v)
  then exists k,
         propertyKey (branchId v) = Returned k
         /\ branch k (branches (thinkingServer p1))
            = (branch k (branches (thinkingServer p)) ++ [t])%list
         /\ forall k', k' <> k ->
              branch k' (branches (thinkingServer p1))
              = branch k' (branches (thinkingServer p))
  else branches (thinkingServer p1) = branches (thinkingServer p).
Proof.
  destruct p as [[h b cq id] g [pf tk d cs]].
  unfold appendThought, recordBranch, widened, propertyKey, interpolate, lift,
    bind, read, update, ret, throw; cbn.
  destruct (Z.gtb (thoughtNumber v) (totalThoughts v)); cbn;
    destruct (Js.truthy q && negb (Js.truthy cq)); cbn;
    try (destruct (Js.is_string q); cbn; [|discriminate]);
    destruct (Js.truthy (branchFromThought v) && Js.truthy (branchId v)); cbn;
    try (intros H; injection H as <- <-; reflexivity);
    (destruct (Js.toString (branchId v)) as [k|]; cbn; [|discriminate]);
    destruct (has_branch k b) eqn:Hb; cbn;
    try (intros H; injection H as <- <-; cbn; exists k;
         split; [reflexivity|]; split;
         [apply branch_push_same; exact Hb
         | intros k' Hk; apply branch_push_other; exact Hk]);
    (destruct (inherited k); cbn; [discriminate|]);
    intros H; injection H as <- <-; cbn; exists k;
    (split; [reflexivity|]); split;
    first [apply branch_new_same; exact Hb
          | intros k' Hk; apply branch_new_other; exact Hk].
Qed.

Lemma branch_collects_its_steps_witness :
  let v := {| thought := "B"; thoughtNumber := 2; totalThoughts := 3;
              nextThoughtNeeded := true;
              isRevision := Js.Undefined; revisesThought := Js.Undefined;
              branchFromThought := Js.Num 1; branchId := Js.Text "alt";
              needsMoreThoughts := Js.Undefined |} in
  branch "alt"
    (branches (thinkingServer
                 (snd (appendThought v Js.Undefined (Demo.boot Demo.offline)))))
  = [v].
Proof.
  intros v.
  destruct (branch_collects_its_steps v v Js.Undefined
              (Demo.boot Demo.offline)
              (snd (appendThought v Js.Undefined (Demo.boot Demo.offline)))
              eq_refl) as [k [Hk [Hb _]]].
  change (propertyKey (branchId v)) with (@Returned string "alt") in Hk.
  injection Hk as <-. exact Hb.
Defined.

(** X14.  A refused step is not undone: the answer is an error and the
    process is left as the statement that threw left it.  For a validated
    step, with no branch of the session named like a property every object
    inherits:
    - when the query of the call is truthy and not a string and the session
      has no truthy query, the session has taken the query, and the step is
      not on the history;
    - when the query passes and the step is refused later (it has a truthy
      [branchFromThought] and a truthy [branchId] whose name has no text or
      is one every object inherits, or the formatting of its log line
      throws), the step is on the history; and the branches are as they
      were when it is the branch bookkeeping that refused it. *)
Theorem refused_step_is_not_undone (input q : Js.Value) (v : ThoughtData)
  (p : Process) :
  validateThoughtData input = Returned v ->
  plain_branches (thinkingServer p) ->
  let s := thinkingServer p in
  let passes := negb (Js.truthy q && negb (Js.truthy (currentQuery s))
                      && negb (Js.is_string q)) in
  passes && completes (widened v) = false ->
  exists e p',
    processThought input q p
    = (Returned {| content := Failure e; isError := true |}, p')
    /\ (passes = false ->
        currentQuery (thinkingServer p') = q
        /\ thoughtHistory (thinkingServer p') = thoughtHistory s)
    /\ (passes = true ->
        thoughtHistory (thinkingServer p')
        = (thoughtHistory s ++ [widened v])%list
        /\ (records_branch (widened v) = false ->
            branches (thinkingServer p') = branches s)).
Proof.
  intros Hv Hplain s passes Href.
  assert (E : processThought input q p
              = try_catch
                  (validatedInput <- appendThought v q ;;
                   lift (formatThought validatedInput) ;;
                   sessionInfo <- finishThought validatedInput ;;
                   respond validatedInput sessionInfo)
                  (fun e => ret {| content := Failure e; isError := true |})
                  p).
  { unfold processThought, try_catch, lift. unfold bind at 1.
    rewrite Hv. reflexivity. }
  rewrite E. clear E. unfold try_catch, lift. unfold bind at 1.
  destruct passes eqn:Hp; unfold passes, s in Hp; unfold s; clear passes s.
  - apply negb_true_iff in Hp. cbn [andb] in Href.
    destruct (appendThought_pushed v q p Hp Hplain)
      as [Hh [_ [_ [_ [_ Hf]]]]].
    unfold completes in Href.
    destruct (records_branch (widened v)).
    + destruct (appendThought v q p) as [[t|e] p1]; cbn [fst snd] in *;
        [|discriminate].
      injection Hf as ->. unfold bind at 1.
      destruct (formatThought (widened v)) as [u|e]; [discriminate|].
      exists e, p1. split; [reflexivity|].
      split; [discriminate|]. intros _. split; [exact Hh | discriminate].
    + destruct Hf as [[e He] Hb].
      destruct (appendThought v q p) as [[t|e'] p1]; cbn [fst snd] in *;
        [discriminate|].
      injection He as ->. exists e, p1. split; [reflexivity|].
      split; [discriminate|]. intros _. split; [exact Hh | intros _; exact Hb].
  - apply negb_false_iff in Hp.
    apply andb_true_iff in Hp. destruct Hp as [Hp Hs].
    apply andb_true_iff in Hp. destruct Hp as [Hq Hc].
    apply negb_true_iff in Hs.
    destruct p as [[h b cq id] g w]. cbn [thinkingServer currentQuery] in *.
    unfold appendThought, bind, read, update, ret, throw.
    cbn [thinkingServer currentQuery]. rewrite Hq, Hc, Hs. cbn [andb].
    cbv beta iota.
    eexists. eexists. split; [reflexivity|].
    split; [intros _; split; reflexivity | discriminate].
Qed.

(** The theorem at a query that is a number, at a branch named [toString],
    and at a revision of a thought that has no text. *)
Lemma refused_step_is_not_undone_witness :
  (exists e p',
     processThought (Demo.call "A" 1 3 true) (Js.Num 7)
       (Demo.boot Demo.offline)
     = (Returned {| content := Failure e; isError := true |}, p')
     /\ currentQuery (thinkingServer p') = Js.Num 7
     /\ thoughtHistory (thinkingServer p') = [])
  /\ (let v := {| thought := "B"; thoughtNumber := 2; totalThoughts := 3;
                  nextThoughtNeeded := true;
                  isRevision := Js.Undefined; revisesThought := Js.Undefined;
                  branchFromThought := Js.Num 1;
                  branchId := Js.Text "toString";
                  needsMoreThoughts := Js.Undefined |} in
      exists e p',
        processThought
          (Js.Obj [("thought", Js.Text "B"); ("thoughtNumber", Js.Num 2);
                   ("totalThoughts", Js.Num 3);
                   ("nextThoughtNeeded", Js.Bool true);
                   ("branchFromThought", Js.Num 1);
                   ("branchId", Js.Text "toString")])
          Js.Undefined (Demo.boot Demo.offline)
        = (Returned {| content := Failure e; isError := true |}, p')
        /\ thoughtHistory (thinkingServer p') = [v]
        /\ branches (thinkingServer p') = [])
  /\ (exists e p',
        processThought Demo.revising Js.Undefined (Demo.boot Demo.offline)
        = (Returned {| content := Failure e; isError := true |}, p')
        /\ thoughtHistory (thinkingServer p') = [Demo.revised]).
Proof.
  split; [|split].
  - destruct (refused_step_is_not_undone (Demo.call "A" 1 3 true)
                (Js.Num 7) (Demo.step "A" 1 3 true)
                (Demo.boot Demo.offline) eq_refl (Forall_nil _) eq_refl)
      as [e [p' [E [H _]]]].
    exists e, p'. split; [exact E | exact (H eq_refl)].
  - intros v.
    destruct (refused_step_is_not_undone
                (Js.Obj [("thought", Js.Text "B");
                         ("thoughtNumber", Js.Num 2);
                         ("totalThoughts", Js.Num 3);
                         ("nextThoughtNeeded", Js.Bool true);
                         ("branchFromThought", Js.Num 1);
                         ("branchId", Js.Text "toString")])
                Js.Undefined v (Demo.boot Demo.offline) eq_refl
                (Forall_nil _) eq_refl)
      as [e [p' [E [_ H]]]].
    exists e, p'. split; [exact E|].
    destruct (H eq_refl) as [Hh Hb]. split; [exact Hh | exact (Hb eq_refl)].
  - destruct (refused_step_is_not_undone Demo.revising Js.Undefined
                Demo.revised (Demo.boot Demo.offline) eq_refl
                (Forall_nil _) eq_refl)
      as [e [p' [E [_ H]]]].
    exists e, p'. split; [exact E | exact (proj1 (H eq_refl))].
Defined.

(* ================================================================== *)
(** * The answers of the other tools *)
(* ================================================================== *)

(** X15.  Two requests are refused before any work is done: a tool that is
    not known, and a session fetch without a key.  Both are answered with an
    error, and the process is left exactly as it was: the bucket is not
    resolved and no remote call is issued. *)
Theorem refused_requests_change_nothing (request : Request) (p : Process) :
  (String.eqb (name request) "sequentialthinking"
   || String.eqb (name request) "recallstatus"
   || String.eqb (name request) "listsessions"
   || String.eqb (name request) "getsession" = false ->
   callTool request p
   = (Returned {| content := Plain ("Unknown tool: " ++ name request);
                  isError := true |}, p))
  /\ (name request = "getsession" ->
      Js.truthy (Js.opt_get "key" (arguments request)) = false ->
      callTool request p
      = (Returned {| content := Failure "Session key is required";
                     isError := true |}, p)).
Proof.
  split.
  - intros H. apply orb_false_iff in H. destruct H as [H H4].
    apply orb_false_iff in H. destruct H as [H H3].
    apply orb_false_iff in H. destruct H as [H1 H2].
    unfold callTool, try_catch. rewrite H1, H2, H3, H4. reflexivity.
  - intros Hn Hk. unfold callTool. rewrite Hn.
    cbn [String.eqb Ascii.eqb Bool.eqb].
    unfold callGetSession, try_catch, bind. rewrite Hk. reflexivity.
Qed.

Lemma refused_requests_change_nothing_witness :
  callTool {| name := "getsession"; arguments := Js.Obj [] |}
    (Demo.boot Demo.offline)
  = (Returned {| content := Failure "Session key is required";
                 isError := true |}, Demo.boot Demo.offline).
Proof.
  exact (proj2 (refused_requests_change_nothing
                  {| name := "getsession"; arguments := Js.Obj [] |}
                  (Demo.boot Demo.offline)) eq_refl eq_refl).
Defined.

Lemma forceInitialize_ready (p : Process) :
  ready (recallIntegration p) = true -> forceInitialize p = (Returned tt, p).
Proof.
  intros R. apply andb_true_iff in R. destruct R as [Hi _].
  unfold forceInitialize, isInitialized, bind, read, ret. cbv beta iota.
  rewrite Hi. reflexivity.
Qed.

(** [getSessionObject] from the Ready state, with the process it leaves. *)
Lemma getSessionObject_run (k : string) (q : Process) :
  ready (recallIntegration q) = true ->
  getSessionObject k q
  = (Returned
       match next_fetch q with
       | Answer (Some content) =>
           if String.eqb content EmptyString then None
           else Some (parseSession (platform (world q)) k content)
       | _ => None
       end,
     with_world (issue (GetObject (bucketAddress (recallIntegration q)) k)) q).
Proof.
  intros R. unfold getSessionObject.
  unfold bind at 1. rewrite (ensureInitialized_ready q R).
  unfold try_catch, bind at 1. rewrite (getObjectContent_ready k q R).
  destruct (next_fetch q) as [[content|]|e]; try reflexivity.
  destruct (String.eqb content EmptyString); [reflexivity|].
  destruct q as [s g [pf t d cs]]. reflexivity.
Qed.

(** The [getsession] branch from the Ready state, for a key that is
    truthy. *)
Lemma callGetSession_run (args : Js.Value) (p : Process) :
  ready (recallIntegration p) = true ->
  Js.truthy (Js.opt_get "key" args) = true ->
  let pf := platform (world p) in
  let bucket := bucketAddress (recallIntegration p) in
  match interpolate (Js.opt_get "key" args) with
  | Thrown e =>
      callTool {| name := "getsession"; arguments := args |} p
      = (Returned {| content := Failure e; isError := true |}, p)
  | Returned k =>
      let notFound :=
        {| content := Failure ("Session file " ++ Js.dquote ++ k ++ Js.dquote
                                 ++ " not found");
           isError := true |} in
      callTool {| name := "getsession"; arguments := args |} p
      = (match next_fetch p with
         | Answer (Some text) =>
             if String.eqb text EmptyString then Returned notFound
             else Returned
                    {| content := SessionContent k (parseSession pf k text)
                                    (portalUrl bucket k);
                       isError := false |}
         | _ => Returned notFound
         end,
         with_world (issue (GetObject bucket k)) p)
  end.
Proof.
  intros R Hk pf bucket.
  unfold callTool. cbn [name arguments String.eqb Ascii.eqb Bool.eqb].
  unfold callGetSession, try_catch. unfold bind at 1. rewrite Hk.
  cbn [negb]. unfold ret at 1. unfold bind at 1, keyText, lift.
  destruct (interpolate (Js.opt_get "key" args)) as [k|e]; [|reflexivity].
  cbv zeta.
  unfold bind at 1. rewrite (forceInitialize_ready p R).
  unfold bind at 1. rewrite (getSessionObject_run k p R). fold pf.
  destruct (next_fetch p) as [[text|]|e]; try reflexivity.
  destruct (String.eqb text EmptyString); [reflexivity|].
  unfold bind, getStatusInfo, read, ret. reflexivity.
Qed.

(** X16.  The answer of [getsession] on a Ready gateway.  For a key that is
    a string and not empty, exactly one fetch is issued, for that key in
    the resolved bucket; when the fetch fails, finds no object or finds an
    empty one, the answer is the error [Session file "key" not found];
    otherwise it is the parsed session with the portal link of the key.
    For a truthy key that cannot be converted to text (the log line that
    names it throws), the answer is the error of the conversion and nothing
    is fetched. *)
Theorem getsession_answer (args : Js.Value) (p : Process) :
  ready (recallIntegration p) = true ->
  let pf := platform (world p) in
  let bucket := bucketAddress (recallIntegration p) in
  let request := {| name := "getsession"; arguments := args |} in
  match Js.opt_get "key" args with
  | Js.Text k =>
      k <> EmptyString ->
      let notFound :=
        {| content := Failure ("Session file " ++ Js.dquote ++ k ++ Js.dquote
                                 ++ " not found");
           isError := true |} in
      callTool request p
      = (match next_fetch p with
         | Answer (Some text) =>
             if String.eqb text EmptyString then Returned notFound
             else Returned
                    {| content := SessionContent k (parseSession pf k text)
                                    (portalUrl bucket k);
                       isError := false |}
         | _ => Returned notFound
         end,
         with_world (issue (GetObject bucket k)) p)
  | key =>
      Js.truthy key = true ->
      forall e,
        interpolate key = Thrown e ->
        callTool request p
        = (Returned {| content := Failure e; isError := true |}, p)
  end.
Proof.
  intros R pf bucket request.
  pose proof (callGetSession_run args p R) as G. cbv zeta in G.
  fold pf bucket request in G.
  destruct (Js.opt_get "key" args) as [| |b|z|k|l|o]; cbv zeta;
    try (intros Hk e He; specialize (G Hk); rewrite He in G; exact G).
  intros Hne.
  assert (Hk : Js.truthy (Js.Text k) = true)
    by (destruct k; [contradiction | reflexivity]).
  specialize (G Hk). change (interpolate (Js.Text k)) with (Returned k) in G.
  exact G.
Qed.

(** The theorem at a key that is not stored, and at a key that has no
    text. *)
Lemma getsession_answer_witness :
  callTool {| name := "getsession";
              arguments := Js.Obj [("key", Js.Text "k")] |}
    (Demo.up Demo.confirmed)
  = (Returned {| content := Failure ("Session file " ++ Js.dquote ++ "k"
                                       ++ Js.dquote ++ " not found");
                 isError := true |},
     with_world (issue (GetObject (Some (addr Demo.logs)) "k"))
       (Demo.up Demo.confirmed))
  /\ callTool {| name := "getsession";
                 arguments :=
                   Js.Obj [("key", Js.Obj [("toString", Js.Num 1)])] |}
       (Demo.up Demo.confirmed)
     = (Returned {| content :=
                      Failure "Cannot convert object to primitive value";
                    isError := true |},
        Demo.up Demo.confirmed).
Proof.
  split.
  - exact (getsession_answer (Js.Obj [("key", Js.Text "k")])
             (Demo.up Demo.confirmed) eq_refl ltac:(discriminate)).
  - exact (getsession_answer
             (Js.Obj [("key", Js.Obj [("toString", Js.Num 1)])])
             (Demo.up Demo.confirmed) eq_refl eq_refl _ eq_refl).
Defined.




(** The forced initialisation of the handlers, on a gateway that serves and
    whose flag is not set without an address. *)
Lemma forceInitialize_serves (p : Process) :
  serves p = true ->
  (initialized (recallIntegration p) = true ->
   address_set (bucketAddress (recallIntegration p)) = true) ->
  forceInitialize p = (Returned tt, started p).
Proof.
  intros S Hinv. destruct (serves_started p S) as [E _].
  revert E Hinv. unfold started.
  destruct p as [s [a i al pr th] w].
  unfold forceInitialize, isInitialized, ensureInitialized, bind, read, ret;
    cbn.
  destruct i; cbn.
  - intros _ H. rewrite (H eq_refl). reflexivity.
  - intros E _. rewrite E. reflexivity.
Qed.

(** X18.  The answer of [recallstatus] on a gateway that is Ready or becomes
    Ready: the bucket is resolved if it was not, and the report says
    [initialized: true] with the resolved address and the configured alias
    and prefix.  On a gateway that was Ready nothing at all changes. *)
Theorem recallstatus_answer (args : Js.Value) (p : Process) :
  serves p = true ->
  (initialized (recallIntegration p) = true ->
   address_set (bucketAddress (recallIntegration p)) = true) ->
  callTool {| name := "recallstatus"; arguments := args |} p
  = (Returned
       {| content :=
            StatusReport true
              (bucketAddress (recallIntegration (started p)))
              (bucketAlias (recallIntegration p))
              (logPrefix (recallIntegration p));
          isError := false |},
     started p)
  /\ (ready (recallIntegration p) = true -> started p = p).
Proof.
  intros S Hinv. split.
  - destruct (serves_started p S) as [_ R].
    assert (Hr : reaches serving p (started p)).
    { apply (reaches_weaken reading); [|apply ensureInitialized_confined].
      intros e r H. apply storing_serving, reading_storing, H. }
    destruct (reaches_grows p (started p) Hr) as [Ha [Hl _]].
    apply andb_true_iff in R. destruct R as [Hi _].
    unfold callTool. cbn [name arguments String.eqb Ascii.eqb Bool.eqb].
    unfold callRecallStatus, try_catch.
    unfold bind at 1. rewrite (forceInitialize_serves p S Hinv).
    unfold getStatusInfo, read, ret. unfold bind. cbv beta iota.
    cbn [status_initialized status_bucketAddress status_bucketAlias
         status_logPrefix].
    rewrite Hi, Ha, Hl. reflexivity.
  - intros R. unfold started. rewrite (ensureInitialized_ready p R).
    reflexivity.
Qed.

Lemma recallstatus_answer_witness :
  callTool Demo.statusCheck (Demo.boot Demo.confirmed)
  = (Returned
       {| content := StatusReport true (Some (addr Demo.logs))
                       "sequential-thinking-logs" "sequential-";
          isError := false |},
     started (Demo.boot Demo.confirmed)).
Proof.
  exact (proj1 (recallstatus_answer (Js.Obj [("check", Js.Bool true)])
                  (Demo.boot Demo.confirmed) eq_refl
                  (fun H : false = true => H))).
Defined.

(* ================================================================== *)
(** * The batch of [storeSession] *)
(* ================================================================== *)

(** The object [storeSession] makes of a thought: five properties are
    written, every other one is the thought's. *)
Lemma enhanced_fields (t : Js.Object) (text : Js.Value) (timestamp : Z)
  (storedAt : string) (qi : option QueryInfo) :
  let e := enhanced t text timestamp storedAt qi in
  Js.get "thought" e = text
  /\ Js.get "timestamp" e = Js.Num timestamp
  /\ Js.get "storedAt" e = Js.Text storedAt
  /\ Js.get "query" e = info query qi
  /\ Js.get "result" e = info result qi
  /\ forall k,
       existsb (String.eqb k)
         ["thought"; "timestamp"; "storedAt"; "query"; "result"] = false ->
       Js.get k e = Js.get k t.
Proof.
  unfold enhanced. cbv zeta.
  repeat match goal with |- _ /\ _ => split end;
    try (repeat (rewrite JsFacts.get_set_other by reflexivity);
         apply JsFacts.get_set_same).
  intros k Hk. cbn [existsb] in Hk.
  repeat (apply orb_false_iff in Hk; destruct Hk as [? Hk]).
  rewrite !JsFacts.get_set_other; [reflexivity | ..];
    rewrite String.eqb_sym; assumption.
Qed.

Lemma enhancedThoughts_nth (pf : Platform) (qi : option QueryInfo)
  (l : list Js.Object) :
  forall t0 i n t,
    nth_error l n = Some t ->
    nth_error (enhancedThoughts pf t0 i l qi) n
    = Some (enhanced t
              (if negb (Js.truthy (Js.get "thought" t))
               then Js.Text (placeholder (i + n))
               else Js.get "thought" t)
              (Date_now pf (t0 + 2 * n))
              (toISOString pf (Date_now pf (t0 + 2 * n + 1))) qi).
Proof.
  induction l as [|x l IH]; intros t0 i [|n] t H; cbn in H; try discriminate.
  - injection H as ->. cbn [enhancedThoughts nth_error].
    rewrite !Nat.add_0_r, Nat.add_1_r.
    destruct (negb (Js.truthy (Js.get "thought" t))); reflexivity.
  - cbn [enhancedThoughts nth_error]. rewrite (IH _ _ n t H).
    replace (i + S n) with (S i + n) by lia.
    replace (t0 + 2 * S n) with (S (S t0) + 2 * n) by lia.
    reflexivity.
Qed.

Lemma enhancedThoughts_guarded (pf : Platform) (qi : option QueryInfo)
  (l : list Js.Object) :
  forall t0 i k,
    validatedThoughts k (enhancedThoughts pf t0 i l qi)
    = enhancedThoughts pf t0 i l qi.
Proof.
  induction l as [|x l IH]; intros t0 i k; [reflexivity|].
  cbn [enhancedThoughts validatedThoughts]. rewrite IH. f_equal.
  destruct (Js.truthy (Js.get "thought" x)) eqn:Hx; cbn [negb];
    match goal with
    | |- (if negb (Js.truthy (Js.get "thought" (enhanced ?t ?x ?a ?b ?c)))
          then _ else _) = _ =>
        destruct (enhanced_fields t x a b c) as [-> _]
    end; [rewrite Hx | ]; reflexivity.
Qed.

(** X19.  [storeSession] stamps each thought of the batch: the clock is read
    twice per thought and nothing else changes; the object at each position
    carries the thought's text (the placeholder of its position when the
    text is missing or empty), the two readings of the clock made for it as
    [timestamp] and [storedAt], the query and the result of the call, and
    every other property of the thought as it was.  The guard of
    [storeSessionJSONL] then leaves such a batch as it is. *)
Theorem storeSession_stamps_each_step (thoughts : list Js.Object)
  (qi : option QueryInfo) (p : Process) :
  let pf := platform (world p) in
  let t0 := ticks (world p) in
  exists batch,
    enhance 0 thoughts qi p
    = (Returned batch, elapse (2 * length thoughts) p)
    /\ length batch = length thoughts
    /\ (forall k, validatedThoughts k batch = batch)
    /\ forall n t,
         nth_error thoughts n = Some t ->
         exists e,
           nth_error batch n = Some e
           /\ Js.get "thought" e
              = (if Js.truthy (Js.get "thought" t) then Js.get "thought" t
                 else Js.Text (placeholder n))
           /\ Js.get "timestamp" e = Js.Num (Date_now pf (t0 + 2 * n))
           /\ Js.get "storedAt" e
              = Js.Text (toISOString pf (Date_now pf (t0 + 2 * n + 1)))
           /\ Js.get "query" e = info query qi
           /\ Js.get "result" e = info result qi
           /\ forall k,
                existsb (String.eqb k)
                  ["thought"; "timestamp"; "storedAt"; "query"; "result"]
                = false ->
                Js.get k e = Js.get k t.
Proof.
  intros pf t0. eexists. split; [apply enhance_run|].
  fold pf. fold t0.
  split; [apply enhancedThoughts_length|].
  split; [intros k; apply enhancedThoughts_guarded|].
  intros n t Hn. eexists. split; [apply enhancedThoughts_nth; exact Hn|].
  cbn [Nat.add].
  match goal with
  | |- context [enhanced ?t ?x ?a ?b ?c] =>
      destruct (enhanced_fields t x a b c) as [H1 [H2 [H3 [H4 [H5 H6]]]]]
  end.
  rewrite H1, H2, H3, H4, H5.
  repeat split; try reflexivity; [|exact H6].
  destruct (Js.truthy (Js.get "thought" t)); reflexivity.
Qed.

(* ================================================================== *)
(** * When the bucket cannot be resolved *)
(* ================================================================== *)

(** An operation that starts with [ensureInitialized] throws what the
    initialisation throws, from the process the initialisation leaves. *)
Lemma unresolved_bind {A : Type} (k : unit -> M A) (p : Process) (e : string) :
  fst (ensureInitialized p) = Thrown e ->
  bind ensureInitialized k p = (Thrown e, started p).
Proof.
  unfold bind, started.
  destruct (ensureInitialized p) as [[u|e'] p1]; cbn; [discriminate|].
  intros [= ->]. reflexivity.
Qed.

(** X20.  While the bucket cannot be resolved, every operation of the
    gateway that needs it throws the error of the initialisation: the
    store, the two listings and the two fetches do not catch it.  The
    gateway keeps its fields and its pending thoughts, and nothing is
    written. *)
Theorem unresolved_bucket_fails_every_operation
  (thoughts : list Js.Object) (qi : option QueryInfo) (k : string)
  (p : Process) (e : string) :
  fst (ensureInitialized p) = Thrown e ->
  storeSession thoughts qi p = (Thrown e, started p)
  /\ storeSessionJSONL p = (Thrown e, started p)
  /\ listBucketObjects p = (Thrown e, started p)
  /\ listAllSessionObjects p = (Thrown e, started p)
  /\ getObjectContent k p = (Thrown e, started p)
  /\ getSessionObject k p = (Thrown e, started p)
  /\ recallIntegration (started p) = recallIntegration p
  /\ writes (calls (world (started p))) = writes (calls (world p)).
Proof.
  intros H.
  repeat match goal with
         | |- _ = (_, _) /\ _ => split; [apply unresolved_bind; exact H|]
         end.
  split.
  - unfold started. destruct (ensureInitialized p) as [[u|e'] p1] eqn:E;
      cbn in H; [discriminate|].
    apply (ensureInitialized_thrown p p1 e' E).
  - apply (started_frame p).
Qed.

Lemma unresolved_bucket_fails_every_operation_witness :
  storeSession [Demo.stepA] None (Demo.boot Demo.offline)
  = (Thrown "fetch failed", started (Demo.boot Demo.offline))
  /\ getSessionObject "k" (Demo.boot Demo.offline)
     = (Thrown "fetch failed", started (Demo.boot Demo.offline)).
Proof.
  destruct (unresolved_bucket_fails_every_operation [Demo.stepA] None "k"
              (Demo.boot Demo.offline) "fetch failed" eq_refl)
    as [H1 [_ [_ [_ [_ [H6 _]]]]]].
  split; [exact H1 | exact H6].
Defined.

(** [storeSessionToRecall] catches the error of the gateway. *)
Lemma storeSessionToRecall_unresolved (p : Process) (e : string) :
  fst (ensureInitialized p) = Thrown e ->
  thoughtHistory (thinkingServer p) <> [] ->
  storeSessionToRecall p = (Returned None, started p).
Proof.
  intros H Hne.
  unfold storeSessionToRecall, bind at 1, read.
  destruct (thoughtHistory (thinkingServer p)) eqn:Eh; [contradiction|].
  cbn [length Nat.eqb]. unfold try_catch, getStatusInfo, read, ret.
  unfold bind at 1. unfold bind at 1. cbv beta iota.
  unfold storeSession. rewrite (unresolved_bind _ p e H). reflexivity.
Qed.

(** X21.  The last step of a session while the bucket cannot be resolved,
    when the step passes the first half of [processThought] without an error
    (the query is taken, the step is pushed, its branch is recorded and its
    log line is formatted): the call is not answered with an error; the
    answer says that the session is complete but not stored, with the number
    of steps in memory; the session keeps every step (it is not cleared),
    the gateway is as it was and nothing is written. *)
Theorem final_step_without_bucket (input q : Js.Value) (v t : ThoughtData)
  (p p1 : Process) (e : string) :
  validateThoughtData input = Returned v ->
  nextThoughtNeeded v = false ->
  appendThought v q p = (Returned t, p1) ->
  formatThought t = Returned tt ->
  fst (ensureInitialized p) = Thrown e ->
  let after := snd (processThought input q p) in
  exists r,
    fst (processThought input q p)
    = Returned {| content := ThoughtResponse r; isError := false |}
    /\ recallInfo r
       = NotStored "Recall storage pending or unavailable"
           (length (thoughtHistory (thinkingServer p)) + 1) true
    /\ thinkingServer after = thinkingServer p1
    /\ thoughtHistory (thinkingServer after)
       = (thoughtHistory (thinkingServer p) ++ [t])%list
    /\ recallIntegration after = recallIntegration p
    /\ writes (calls (world after)) = writes (calls (world p)).
Proof.
  intros Hv Hn Ha Hff Hf after.
  destruct (appendThought_returned v t q p p1 Ha) as [Ht [Hh [_ [Hg Hw]]]].
  assert (Hn1 : nextThoughtNeeded t = false)
    by (rewrite Ht; destruct (widened_fields v) as [_ ->]; exact Hn).
  assert (Hne : thoughtHistory (thinkingServer p1) <> [])
    by (rewrite Hh; destruct (thoughtHistory (thinkingServer p)); discriminate).
  assert (Hf1 : fst (ensureInitialized p1) = Thrown e).
  { destruct p as [s g w], p1 as [s1 g1 w1]. cbn in Hg, Hw. subst g1 w1.
    rewrite (ensureInitialized_server s1 s g w). exact Hf. }
  assert (Hs : thinkingServer (started p1) = thinkingServer p1
               /\ recallIntegration (started p1) = recallIntegration p1).
  { unfold started.
    destruct (ensureInitialized p1) as [[u|e'] p2] eqn:E; cbn in Hf1;
      [discriminate|].
    destruct (ensureInitialized_thrown p1 p2 e' E) as [H1 H2].
    split; assumption. }
  destruct Hs as [Hs1 Hs2].
  destruct (started_frame p1) as [_ _ _ _ _ _ Hww].
  assert (E : processThought input q p
              = respond t None (started p1)).
  { unfold processThought, try_catch, lift. unfold bind at 1. rewrite Hv.
    unfold bind at 1. rewrite Ha. unfold bind at 1. rewrite Hff.
    unfold bind at 1, finishThought. rewrite Hn1. cbn [negb].
    unfold bind at 1.
    rewrite (storeSessionToRecall_unresolved p1 e Hf1 Hne).
    unfold ret at 1. rewrite respond_value. reflexivity. }
  unfold after. rewrite E, respond_value. cbn [fst snd].
  eexists. split; [reflexivity|].
  cbn [recallInfo]. rewrite Hn1, Hs1, Hs2, Hh, Hww, Hg, Hw, length_app.
  cbn [negb length]. repeat split; reflexivity.
Qed.

Lemma final_step_without_bucket_witness :
  exists r,
    fst (processThought (Demo.call "C" 4 3 false) Js.Undefined
           (Demo.boot Demo.offline))
    = Returned {| content := ThoughtResponse r; isError := false |}
    /\ recallInfo r
       = NotStored "Recall storage pending or unavailable" 1 true.
Proof.
  destruct (final_step_without_bucket (Demo.call "C" 4 3 false) Js.Undefined
              (Demo.step "C" 4 3 false) (Demo.step "C" 4 4 false)
              (Demo.boot Demo.offline)
              (with_server (set_history [Demo.step "C" 4 4 false])
                 (Demo.boot Demo.offline))
              "fetch failed" eq_refl eq_refl eq_refl eq_refl eq_refl)
    as [r [E [I _]]].
  exists r. split; [exact E | exact I].
Defined.

(* ================================================================== *)
(** * Resolving the bucket *)
(* ================================================================== *)

(** X22.  How a gateway that is not Ready resolves its bucket.  It lists the
    buckets first.  When the listing answers in time with a bucket that
    carries the alias, the first such bucket is taken and none is created.
    When it answers in time without one, one bucket is created under the
    alias, and its address is taken if the creation reports one.  When the
    listing is rejected, nothing is created and its error is thrown.  When
    the timer fires before the listing answers, the caller gets the timeout
    error and the gateway is left as it was, not Ready; the listing is not
    cancelled, and what the abandoned operation does once it answers is not
    stated here. *)
Theorem bucket_found_before_created (p : Process) :
  ready (recallIntegration p) = false ->
  let pf := platform (world p) in
  let n := length (calls (world p)) in
  let a := bucketAlias (recallIntegration p) in
  let listed := with_world (issue ListBuckets) p in
  let created := with_world (issue (CreateBucket a)) listed in
  match list_reply pf n with
  | InTime (Answer answer) =>
      match find (has_alias a) (match answer with Some l => l | None => [] end)
      with
      | Some b =>
          ensureInitialized p
          = (Returned tt, with_recall (set_bucket (addr b)) listed)
      | None =>
          match create_reply pf (S n) with
          | InTime (Answer (Some new)) =>
              ensureInitialized p
              = (Returned tt, with_recall (set_bucket new) created)
          | InTime (Answer None) =>
              ensureInitialized p
              = (Thrown ("Failed to create bucket: " ++ a), created)
          | InTime (Rejects e) => ensureInitialized p = (Thrown e, created)
          | TimedOut =>
              ensureInitialized p
              = (Thrown (timeout_message "Bucket initialization" 15000),
                 created)
          end
      end
  | InTime (Rejects e) => ensureInitialized p = (Thrown e, listed)
  | TimedOut =>
      fst (ensureInitialized p)
      = Thrown (timeout_message "Bucket initialization" 15000)
      /\ recallIntegration (snd (ensureInitialized p)) = recallIntegration p
  end.
Proof.
  destruct p as [s [ad i al pr th] [pf t d cs]].
  unfold ready. cbn. intros R.
  unfold ensureInitialized, initializeBucket, getOrCreateBucket, bind, read,
    update, await_timed, ret, throw; cbn.
  assert (R' : negb i || negb (address_set ad) = true)
    by (destruct i; destruct (address_set ad); cbn in *; congruence).
  rewrite R'. cbn. rewrite R. cbn.
  destruct (list_reply pf (length cs)) as [[[l|]|e]|]; cbn;
    try reflexivity; try (split; reflexivity).
  - destruct (find (has_alias al) l) as [b|]; cbn; [reflexivity|].
    rewrite length_app, Nat.add_1_r. cbn.
    destruct (create_reply pf (S (length cs))) as [[[new|]|e]|];
      cbn; rewrite <- ?app_assoc; reflexivity.
  - rewrite length_app, Nat.add_1_r. cbn.
    destruct (create_reply pf (S (length cs))) as [[[new|]|e]|];
      cbn; rewrite <- ?app_assoc; reflexivity.
Qed.

Lemma bucket_found_before_created_witness :
  ensureInitialized (Demo.boot Demo.confirmed)
  = (Returned tt,
     with_recall (set_bucket (addr Demo.logs))
       (with_world (issue ListBuckets) (Demo.boot Demo.confirmed))).
Proof.
  exact (bucket_found_before_created (Demo.boot Demo.confirmed) eq_refl).
Defined.

(* ================================================================== *)
(** * A whole session, written and read back *)
(* ================================================================== *)



(* ================================================================== *)
(** * The [sequentialthinking] branch of the handler *)
(* ================================================================== *)

(** [processThought] never throws. *)
Lemma processThought_returns (input q : Js.Value) (p : Process) :
  exists r p', processThought input q p = (Returned r, p').
Proof.
  unfold processThought, try_catch.
  match goal with
  | |- exists r p', (let (o, p1) := ?c p in _) = _ =>
      destruct (c p) as [[r|e] p1]
  end; eexists; eexists; reflexivity.
Qed.

(** X24.  The [sequentialthinking] branch of the handler.  The query of the
    step is [_metadata.query] of the arguments when that is truthy, else
    [_meta.query] when that is truthy, else undefined.  The handler formats
    two log lines before the validator is reached: the first converts
    [thoughtNumber] and [totalThoughts] of the arguments to text, the second
    takes a substring of the thought.  When the thought is a string and both
    conversions return, the call is answered exactly as [processThought]
    answers the arguments with that query.  When a conversion throws, or
    the thought is no string (absent arguments, a missing thought, a
    thought of another type), the answer is the generic
    [Error processing request: ...] and nothing changes. *)
Theorem sequentialthinking_branch (args : Js.Value) (p : Process) :
  let q := Js.or_else
             (Js.or_else (Js.opt_get "query" (Js.opt_get "_metadata" args))
                         (Js.opt_get "query" (Js.opt_get "_meta" args)))
             Js.Undefined in
  let request := {| name := "sequentialthinking"; arguments := args |} in
  let refused e :=
    callTool request p
    = (Returned {| content := Plain ("Error processing request: " ++ e);
                   isError := true |}, p) in
  if Js.is_string (Js.opt_get "thought" args)
  then match interpolate (Js.opt_get "thoughtNumber" args),
             interpolate (Js.opt_get "totalThoughts" args) with
       | Returned _, Returned _ =>
           callTool request p = processThought args q p
       | Thrown e, _ => refused e
       | Returned _, Thrown e => refused e
       end
  else exists e, refused e.
Proof.
  intros q request refused. unfold refused, request, callTool.
  cbn [name arguments String.eqb Ascii.eqb Bool.eqb].
  unfold callSequentialThinking. fold q.
  destruct args as [| |b|z|s|l|o]; cbn [Js.opt_get Js.is_string property];
    try (eexists; reflexivity).
  unfold try_catch, lift, getStatusInfo, read, ret. unfold bind, throw.
  destruct (interpolate (Js.get "thoughtNumber" o)) as [n|e] eqn:En;
    destruct (interpolate (Js.get "totalThoughts" o)) as [m|e'] eqn:Em;
    destruct (Js.get "thought" o) as [| |b|z|s|l|o'] eqn:Et;
    cbn [Js.is_string]; try (eexists; reflexivity); try reflexivity.
  destruct (processThought_returns (Js.Obj o) q p) as [r [p' E]].
  rewrite E. reflexivity.
Qed.

(** The conversions of the first log line at work: a step whose
    [totalThoughts] is an object with a property [toString] is turned away
    by the handler, before the validator sees it. *)
Lemma unprintable_total_is_refused :
  callTool {| name := "sequentialthinking";
              arguments :=
                Js.Obj [("thought", Js.Text "A");
                        ("thoughtNumber", Js.Num 1);
                        ("totalThoughts",
                         Js.Obj [("toString", Js.Num 1)]);
                        ("nextThoughtNeeded", Js.Bool true)] |}
    (Demo.boot Demo.confirmed)
  = (Returned
       {| content :=
            Plain ("Error processing request: "
                     ++ "Cannot convert object to primitive value");
          isError := true |},
     Demo.boot Demo.confirmed).
Proof. reflexivity. Qed.

(* ================================================================== *)
(** * After a failed flush *)
(* ================================================================== *)

Lemma ready_serves (p : Process) :
  ready (recallIntegration p) = true -> serves p = true.
Proof.
  intros R. unfold serves, started.
  rewrite (ensureInitialized_ready p R). exact R.
Qed.

(** X25.  A flush that fails loses no step.  Two steps with
    [nextThoughtNeeded = false] arrive one after the other, and each passes
    the first half of [processThought] (it validates, it is pushed, its
    branch is recorded and its log line is formatted).  When the write of
    the first is rejected or times out, the session is kept under its
    identifier; the second is appended to the same history, and its flush
    writes one more record, which has one line for every step of the
    session: those of the failed flush and the new one. *)
Theorem failed_flush_is_retried_whole (input q input' q' : Js.Value)
  (v t v' t' : ThoughtData) (p p1 p3 : Process) :
  validateThoughtData input = Returned v ->
  nextThoughtNeeded v = false ->
  appendThought v q p = (Returned t, p1) ->
  formatThought t = Returned tt ->
  serves p = true ->
  accepted (store_reply (flushing p1)) = false ->
  validateThoughtData input' = Returned v' ->
  nextThoughtNeeded v' = false ->
  appendThought v' q' (snd (processThought input q p)) = (Returned t', p3) ->
  formatThought t' = Returned tt ->
  let after := snd (processThought input' q' (snd (processThought input q p))) in
  currentSessionId (thinkingServer p3) = currentSessionId (thinkingServer p)
  /\ thoughtHistory (thinkingServer p3)
     = (thoughtHistory (thinkingServer p) ++ [t; t'])%list
  /\ exists bucket key data,
       writes (calls (world after))
       = (writes (calls (world p))
            ++ [(bucketAddress (recallIntegration (flushing p1)),
                 store_key (flushing p1), store_data (flushing p1));
                (bucket, key, data)])%list
       /\ length (Str.split Str.newline data)
          = length (thoughtHistory (thinkingServer p)) + 2.
Proof.
  intros Hv Hn Ha Hf S Hrej Hv' Hn' Ha' Hf' after.
  destruct (appendThought_returned v t q p p1 Ha) as [Ht [Hh [Hid [Hg Hw]]]].
  destruct (serves_session p p1 Hg Hw) as [S1 _]. rewrite S in S1.
  assert (Hne : thoughtHistory (thinkingServer p1) <> [])
    by (rewrite Hh; destruct (thoughtHistory (thinkingServer p)); discriminate).
  destruct (storeSessionToRecall_serves p1 S1 Hne) as [R [_ _]].
  destruct (flushing_frame p1) as [_ [_ Hfs]].
  destruct (terminal_step_run input q v t p p1 Hv Hn Ha Hf S) as [E1 [W1 _]].
  rewrite Hrej in E1.
  set (p2 := snd (processThought input q p)) in *.
  assert (Hs2 : thinkingServer p2 = thinkingServer p1)
    by (rewrite E1; exact Hfs).
  assert (S2 : serves p2 = true) by (apply ready_serves; rewrite E1; exact R).
  destruct (appendThought_returned v' t' q' p2 p3 Ha')
    as [Ht' [Hh' [Hid' [Hg' Hw']]]].
  destruct (terminal_step_run input' q' v' t' p2 p3 Hv' Hn' Ha' Hf' S2)
    as [E2 [W2 B2]].
  rewrite Hs2 in Hh', Hid'. rewrite Hh, <- app_assoc in Hh'. cbn [app] in Hh'.
  split; [rewrite Hid'; exact Hid|]. split; [exact Hh'|].
  exists (bucketAddress (recallIntegration (flushing p3))),
    (store_key (flushing p3)), (store_data (flushing p3)).
  split.
  - unfold after. rewrite E2.
    assert (Hw2 : writes (calls (world p2))
                  = (writes (calls (world p))
                       ++ [(bucketAddress (recallIntegration (flushing p1)),
                            store_key (flushing p1),
                            store_data (flushing p1))])%list)
      by (rewrite E1; exact W1).
    rewrite Hw2, <- app_assoc in W2. cbn [app] in W2.
    destruct (accepted (store_reply (flushing p3))); exact W2.
  - assert (Hlen : length (currentSessionThoughts
                             (recallIntegration (flushing p3)))
                   = length (thoughtHistory (thinkingServer p)) + 2).
    { rewrite B2, enhancedThoughts_length. unfold session_batch.
      rewrite length_map, Hh', length_app. reflexivity. }
    unfold store_data. rewrite jsonlData_lines.
    + rewrite length_map, validatedThoughts_length. exact Hlen.
    + intros H. apply (f_equal (@length _)) in H.
      rewrite validatedThoughts_length, Hlen in H. cbn in H. lia.
Qed.

(** The theorem at a service that rejects every write: step A is flushed
    and kept, step B is flushed with it. *)
Lemma failed_flush_is_retried_whole_witness :
  let p := Demo.boot Demo.refusing in
  let p2 := snd (processThought (Demo.call "A" 1 1 false) Js.Undefined p) in
  thoughtHistory
    (thinkingServer
       (snd (appendThought (Demo.step "B" 2 2 false) Js.Undefined p2)))
  = [Demo.step "A" 1 1 false; Demo.step "B" 2 2 false]
  /\ exists bucket key data,
       writes (calls (world (snd (processThought (Demo.call "B" 2 2 false)
                                    Js.Undefined p2))))
       = ([] ++ [(bucketAddress
                    (recallIntegration
                       (flushing
                          (with_server
                             (set_history [Demo.step "A" 1 1 false]) p))),
                  store_key
                    (flushing
                       (with_server
                          (set_history [Demo.step "A" 1 1 false]) p)),
                  store_data
                    (flushing
                       (with_server
                          (set_history [Demo.step "A" 1 1 false]) p)));
                 (bucket, key, data)])%list
       /\ length (Str.split Str.newline data) = 0 + 2.
Proof.
  intros p p2.
  exact (proj2 (failed_flush_is_retried_whole
                  (Demo.call "A" 1 1 false) Js.Undefined
                  (Demo.call "B" 2 2 false) Js.Undefined
                  (Demo.step "A" 1 1 false) (Demo.step "A" 1 1 false)
                  (Demo.step "B" 2 2 false) (Demo.step "B" 2 2 false)
                  p (with_server (set_history [Demo.step "A" 1 1 false]) p)
                  (snd (appendThought (Demo.step "B" 2 2 false)
                          Js.Undefined p2))
                  eq_refl eq_refl eq_refl eq_refl eq_refl eq_refl eq_refl
                  eq_refl eq_refl eq_refl)).
Defined.
